(** * Tacotron-2 feeder (tacotron/feeder_adapt.py): a shallow embedding

    The development follows the Python class [Feeder]:
    - Python integers are [Z]; [len(..)] is [Z.of_nat (length ..)];
    - numpy float arrays hold binary64 values ([float], the kernel's
      primitive floats); a feature array read from a file carries its
      dtype, float32 or float64, and a float32 array holds values that
      [np.pad] has rounded to float32; besides copying, the code performs
      the literals [0.], [1.], one negation and that rounding;
    - a Python exception is a [Raise e] result; stateful methods run in the
      monad [M] over a [World] holding the feeder's mutable fields, numpy's
      global random state, the list of files opened by [np.load] and the
      content of the TensorFlow input queue;
    - paths follow [posixpath]; logging and timing have no counterpart;
      the placeholders and the queue declared by [__init__] appear only as
      the queue content and its capacity, and the checks TensorFlow makes
      when a batch is fed are not modelled;
    - the metadata records are lists of strings (the numpy string array
      built by [__init__] is read back field by field only);
    - what differs between numpy releases (the storing of an integer that
      does not fit int32, arrays of records of different lengths) is a
      parameter of the environment [Env]. *)

From Stdlib Require Import ZArith Floats Ascii String Lia Sorting.
From stdpp Require Import base tactics option list strings.

Open Scope Z_scope.

(** ** Exceptions and results *)

Inductive exn : Type :=
  | AssertionError
  | IndexError
  | ValueError
  | ZeroDivisionError
  | OverflowError
  | FileNotFoundError (path : string).

Inductive result (A : Type) : Type :=
  | Ok (a : A)
  | Raise (e : exn).
Arguments Ok {A} a.
Arguments Raise {A} e.

Global Instance result_ret : MRet result := fun A a => Ok a.
Global Instance result_bind : MBind result := fun A B f r =>
  match r with Ok a => f a | Raise e => Raise e end.
Global Instance result_fmap : FMap result := fun A B f r =>
  match r with Ok a => Ok (f a) | Raise e => Raise e end.

Definition is_Ok {A} (r : result A) : Prop := exists a, r = Ok a.

(** ** Python built-ins used by the feeder *)

Definition len {A} (l : list A) : Z := Z.of_nat (length l).

(** [max(xs)] raises ValueError on an empty sequence. *)
Definition py_max (xs : list Z) : result Z :=
  match xs with
  | [] => Raise ValueError
  | x :: xs' => Ok (foldl Z.max x xs')
  end.

(** [x % y] on Python integers: floor modulo, ZeroDivisionError for [y = 0]. *)
Definition py_mod (x y : Z) : result Z :=
  if y =? 0 then Raise ZeroDivisionError else Ok (x mod y).

(** [l[a:b]] for [0 <= a <= b]. *)
Definition slice {A} (l : list A) (a b : nat) : list A :=
  take (b - a)%nat (drop a l).

(** ** numpy arrays

    Rank-1 arrays are lists.  A rank-2 array of shape [(T, W)] keeps [W]
    explicitly, since [T] may be 0; a rank-3 array of shape [(B, T, W)]
    keeps [T] and [W]. *)

Record array2 (A : Type) : Type := Array2 {
  cols2 : nat;
  rows2 : list (list A)
}.
Arguments Array2 {A} cols2 rows2.
Arguments cols2 {A} a.
Arguments rows2 {A} a.

Record array3 (A : Type) : Type := Array3 {
  time3 : nat;
  width3 : nat;
  items3 : list (list (list A))
}.
Arguments Array3 {A} time3 width3 items3.
Arguments time3 {A} a.
Arguments width3 {A} a.
Arguments items3 {A} a.

(** [len(a)] and [a.shape[0]] of a rank-2 array. *)
Definition shape0 {A} (a : array2 A) : Z := len (rows2 a).

(** The dtype of a feature array.  The files written by the preprocessing
    hold float32 arrays, [np.zeros] returns a float64 array; other dtypes
    do not occur. *)
Inductive dtype : Type := float32 | float64.

(** The conversion of a binary64 value to float32, the result held as
    binary64 again: rounding to nearest with ties to even on 24 bits of
    precision, overflow to an infinity, gradual underflow (the IEEE 754
    conversion that numpy performs when it stores a Python float in a
    float32 array). *)
Definition np_float32 (x : float) : float :=
  match Prim2SF x with
  | S754_finite s m e => SF2Prim (SpecFloat.binary_round 24 128 s m e)
  | _ => x
  end.

(** A scalar as an array of dtype [d] stores it. *)
Definition np_cast (d : dtype) (c : float) : float :=
  match d with
  | float32 => np_float32 c
  | float64 => c
  end.

(** A rank-2 float array with its dtype, as [np.load] returns it. *)
Record ndarray2 : Type := NdArray2 {
  dtype2 : dtype;
  array_of :> array2 float
}.

Definition all_equal_nat (n : nat) (ns : list nat) : bool :=
  forallb (Nat.eqb n) ns.

(** [np.pad(x, (0, after), mode='constant', constant_values=c)] on rank 1;
    a negative pad width raises ValueError. *)
Definition np_pad1 {A} (x : list A) (after : Z) (c : A) : result (list A) :=
  if after <? 0 then Raise ValueError
  else Ok (x ++ replicate (Z.to_nat after) c).

(** [np.pad(t, [(0, after), (0, 0)], mode='constant', constant_values=c)]
    on rank 2: [after] new rows, each of the array's own width; the result
    has the dtype of [t], in which the constant is stored. *)
Definition np_pad2 (t : ndarray2) (after : Z) (c : float) : result ndarray2 :=
  if after <? 0 then Raise ValueError
  else Ok (NdArray2 (dtype2 t)
             (Array2 (cols2 t)
                (rows2 t ++ replicate (Z.to_nat after)
                              (replicate (cols2 t) (np_cast (dtype2 t) c))))).

(** [np.stack] of rank-1 arrays: at least one array, all of one length. *)
Definition np_stack1 {A} (xs : list (list A)) : result (array2 A) :=
  match xs with
  | [] => Raise ValueError
  | x :: xs' =>
      if all_equal_nat (length x) (map length xs')
      then Ok (Array2 (length x) xs)
      else Raise ValueError
  end.

(** [np.stack] of rank-2 arrays: at least one array, all of one shape. *)
Definition np_stack2 {A} (ts : list (array2 A)) : result (array3 A) :=
  match ts with
  | [] => Raise ValueError
  | t :: ts' =>
      if all_equal_nat (length (rows2 t)) (map (fun u => length (rows2 u)) ts')
         && all_equal_nat (cols2 t) (map cols2 ts')
      then Ok (Array3 (length (rows2 t)) (cols2 t) (map rows2 ts))
      else Raise ValueError
  end.

(** [np.concatenate((a, b), axis=1)] on rank 2: equal row counts are
    required; row [r] of the result is row [r] of [a] followed by row [r]
    of [b]. *)
Definition np_concatenate2_axis1 {A} (a b : array2 A) : result (array2 A) :=
  if (length (rows2 a) =? length (rows2 b))%nat
  then Ok (Array2 (cols2 a + cols2 b) (zip_with app (rows2 a) (rows2 b)))
  else Raise ValueError.

(** [np.concatenate((a, b), axis=1)] on rank 3: the batch sizes and the
    feature widths must agree; the time axes are joined. *)
Definition np_concatenate3_axis1 {A} (a b : array3 A) : result (array3 A) :=
  if ((length (items3 a) =? length (items3 b))%nat
      && (width3 a =? width3 b)%nat)%bool
  then Ok (Array3 (time3 a + time3 b) (width3 a)
                  (zip_with app (items3 a) (items3 b)))
  else Raise ValueError.

(** ** Hyper-parameters read by the feeder

    [hop_size] and [sample_rate] are Python integers (a number of samples
    and a rate in Hz), [max_abs_value] is a Python float. *)

Record HParams : Type := {
  cleaners : string;
  embedding_path : string;
  tacotron_batch_size : Z;
  outputs_per_step : Z;
  tacotron_num_gpus : Z;
  symmetric_mels : bool;
  max_abs_value : float;
  spk_dependent_embedding : bool;
  predict_linear : bool;
  num_freq : Z;
  hop_size : Z;
  sample_rate : Z
}.

Definition _batches_per_group : Z := 64.

(** ** The feeder object *)

Record Feeder : Type := {
  _hparams : HParams;
  _cleaner_names : list string;
  _train_offset : Z;
  _mel_dir : string;
  _linear_dir : string;
  _spk_embedding_dir : string;
  _train_meta : list (list string);
  _pad : Z;
  _target_pad : float;
  _token_pad : float
}.

(** ** Padding helpers (methods of [Feeder], lines 180-209) *)

Definition _round_up (x multiple : Z) : result Z :=
  remainder ← py_mod x multiple;
  Ok (if remainder =? 0 then x else x + multiple - remainder).

Definition _round_down (x multiple : Z) : result Z :=
  remainder ← py_mod x multiple;
  Ok (if remainder =? 0 then x else x - remainder).

Definition _pad_input (self : Feeder) (x : list Z) (length : Z) : result (list Z) :=
  np_pad1 x (length - len x) (_pad self).

Definition _pad_target (self : Feeder) (t : ndarray2) (length : Z)
  : result ndarray2 :=
  np_pad2 t (length - shape0 t) (_target_pad self).

Definition _pad_token_target (self : Feeder) (t : list float) (length : Z)
  : result (list float) :=
  np_pad1 t (length - len t) (_token_pad self).

Definition _prepare_inputs (self : Feeder) (inputs : list (list Z))
  : result (array2 Z * Z) :=
  max_len ← py_max (map len inputs);
  padded ← mapM (fun x => _pad_input self x max_len) inputs;
  stacked ← np_stack1 padded;
  Ok (stacked, max_len).

Definition _prepare_targets (self : Feeder) (targets : list ndarray2)
    (alignment : Z) : result (array3 float * Z) :=
  max_len ← py_max (map (fun t : ndarray2 => shape0 t) targets);
  data_len ← _round_up max_len alignment;
  padded ← mapM (fun t => _pad_target self t data_len) targets;
  stacked ← np_stack2 (map array_of padded);
  Ok (stacked, data_len).

Definition _prepare_token_targets (self : Feeder) (targets : list (list float))
    (alignment : Z) : result (array2 float * Z) :=
  max_len ← (fun m => m + 1) <$> py_max (map len targets);
  data_len ← _round_up max_len alignment;
  padded ← mapM (fun t => _pad_token_target self t data_len) targets;
  stacked ← np_stack1 padded;
  Ok (stacked, data_len).

(** ** Strings and paths *)

Open Scope string_scope.

(** Characters removed by [str.strip()]: the ASCII white space (tab, line
    feed, vertical tab, form feed, carriage return, the separators
    0x1c-0x1f and the space).  White space outside ASCII is not modelled. *)
Definition py_isspace (c : ascii) : bool :=
  let n := nat_of_ascii c in
  ((9 <=? n)%nat && (n <=? 13)%nat) || ((28 <=? n)%nat && (n <=? 32)%nat).

Fixpoint py_lstrip (s : string) : string :=
  match s with
  | EmptyString => EmptyString
  | String c s' => if py_isspace c then py_lstrip s' else s
  end.

Definition py_rstrip (s : string) : string :=
  String.rev (py_lstrip (String.rev s)).

Definition py_strip (s : string) : string := py_rstrip (py_lstrip s).

(** [s.split(sep)] for a one-character separator. *)
Fixpoint py_split (sep : ascii) (s : string) : list string :=
  match s with
  | EmptyString => [EmptyString]
  | String c s' =>
      if Ascii.eqb c sep then EmptyString :: py_split sep s'
      else match py_split sep s' with
           | [] => [String c EmptyString]
           | w :: ws => String c w :: ws
           end
  end.

Definition slash : ascii := "/"%char.

Fixpoint all_slashes (s : string) : bool :=
  match s with
  | EmptyString => true
  | String c s' => Ascii.eqb c slash && all_slashes s'
  end.

(** The prefix of [p] up to and including its last slash, if any. *)
Fixpoint upto_last_slash (p : string) : option string :=
  match p with
  | EmptyString => None
  | String c p' =>
      match upto_last_slash p' with
      | Some h => Some (String c h)
      | None => if Ascii.eqb c slash then Some (String c EmptyString) else None
      end
  end.

Fixpoint lstrip_slashes (s : string) : string :=
  match s with
  | EmptyString => EmptyString
  | String c s' => if Ascii.eqb c slash then lstrip_slashes s' else s
  end.

(** [os.path.dirname] (posixpath). *)
Definition os_path_dirname (p : string) : string :=
  let head := default EmptyString (upto_last_slash p) in
  if all_slashes head then head
  else String.rev (lstrip_slashes (String.rev head)).

Definition ends_with_slash (s : string) : bool :=
  match String.rev s with
  | String c _ => Ascii.eqb c slash
  | EmptyString => false
  end.

(** [os.path.join(a, b)] (posixpath, two components). *)
Definition os_path_join (a b : string) : string :=
  match b with
  | String c _ =>
      if Ascii.eqb c slash then b
      else if (String.length a =? 0)%nat || ends_with_slash a then a ++ b
      else a ++ "/" ++ b
  | EmptyString =>
      if (String.length a =? 0)%nat || ends_with_slash a then a
      else a ++ "/"
  end.

(** [np.asarray(ids, dtype=np.int32)] on the symbol ids of a text: values
    are stored in 32 bits, two's complement (the wrap-around of the numpy
    releases contemporary with this code; identity on symbol ids, which
    are vocabulary indices). *)
Definition int32 (z : Z) : Z := (z + 2147483648) mod 4294967296 - 2147483648.

(** The integers that an int32 holds. *)
Definition in_int32 (z : Z) : bool :=
  (-2147483648 <=? z)%Z && (z <? 2147483648)%Z.

(** ** numpy's global random state and [np.random.shuffle]

    The generator is a stream of raw draws and a position in it.  Every
    sequence of outcomes of the real generator is the image of some
    stream, so a statement proved for all streams holds for every run. *)

Record RandomState : Type := {
  rs_draws : nat -> nat;
  rs_pos : nat
}.

(** A uniform draw from [0..i], consuming one raw draw. *)
Definition random_interval (i : nat) (g : RandomState) : nat * RandomState :=
  ((rs_draws g (rs_pos g)) mod (S i),
   {| rs_draws := rs_draws g; rs_pos := S (rs_pos g) |})%nat.

(** [x[i], x[j] = x[j], x[i]] *)
Definition swap {A} (x : list A) (i j : nat) : list A :=
  match x !! i, x !! j with
  | Some a, Some b => <[j:=a]> (<[i:=b]> x)
  | _, _ => x
  end.

(** The loop [for i in reversed(range(1, n)): j = random_interval(i);
    swap x[i], x[j]] that numpy runs on a Python list. *)
Fixpoint shuffle_from {A} (i : nat) (x : list A) (g : RandomState)
  : list A * RandomState :=
  match i with
  | O => (x, g)
  | S i' =>
      let '(j, g') := random_interval i g in
      shuffle_from i' (swap x i j) g'
  end.

Definition np_random_shuffle {A} (x : list A) (g : RandomState)
  : list A * RandomState :=
  shuffle_from (length x - 1) x g.

(** ** Examples and batches *)

(** The tuple returned by [_get_next_example]; [x[-1]] is [mel_length]. *)
Record Example : Type := {
  input_data : list Z;
  mel_target : ndarray2;
  token_target : list float;
  linear_target : ndarray2;
  speaker_id : string;
  spk_embedding : option ndarray2;
  mel_length : Z
}.

(** The tuple returned by [_prepare_batch].  The four tensors start as
    [None] and stay so when the device loop runs zero times.  The speaker
    embeddings are kept as loaded ([np.squeeze] is not modelled). *)
Record Batch : Type := {
  b_inputs : option (array2 Z);
  b_input_lengths : list Z;
  b_mel_targets : option (array3 float);
  b_token_targets : option (array2 float);
  b_linear_targets : option (array3 float);
  b_targets_lengths : list Z;
  b_split_infos : list (list Z);
  b_speaker_ids : list Z;
  b_spk_embeddings : option (list (option ndarray2))
}.

(** ** The world the feeder runs in *)

Record World : Type := {
  w_self : Feeder;
  w_random : RandomState;
  w_reads : list string;
  w_queue : list Batch
}.

Definition M (A : Type) : Type := World -> result A * World.

Definition ret {A} (a : A) : M A := fun w => (Ok a, w).
Definition raise {A} (e : exn) : M A := fun w => (Raise e, w).
Definition bind {A B} (m : M A) (k : A -> M B) : M B := fun w =>
  match m w with
  | (Ok a, w') => k a w'
  | (Raise e, w') => (Raise e, w')
  end.
Definition lift {A} (r : result A) : M A := fun w => (r, w).

Notation "'do' x <- m ; k" := (bind m (fun x => k))
  (at level 10, x name, m at level 100, k at level 200).
Notation "'do' ' p <- m ; k" := (bind m (fun x => match x with p => k end))
  (at level 10, p pattern, m at level 100, k at level 200).
Notation "m ;; k" := (bind m (fun _ => k))
  (at level 100, k at level 200, right associativity).

Definition get_self : M Feeder := fun w => (Ok (w_self w), w).
Definition put_self (f : Feeder) : M unit := fun w =>
  (Ok tt, {| w_self := f; w_random := w_random w;
             w_reads := w_reads w; w_queue := w_queue w |}).

(** [np.random.shuffle(x)]; the caller stores the result back in [x]. *)
Definition shuffle_M {A} (x : list A) : M (list A) := fun w =>
  let '(x', g') := np_random_shuffle x (w_random w) in
  (Ok x', {| w_self := w_self w; w_random := g';
             w_reads := w_reads w; w_queue := w_queue w |}).

(** [self._session.run(self._enqueue_op, feed_dict)]: the batch joins the
    queue at its tail.  Blocking on a full queue is a matter of the
    TensorFlow runtime and of thread scheduling and is not modelled. *)
Definition enqueue (b : Batch) : M unit := fun w =>
  (Ok tt, {| w_self := w_self w; w_random := w_random w;
             w_reads := w_reads w; w_queue := w_queue w ++ [b] |}).

Fixpoint mapM_M {A B} (f : A -> M B) (l : list A) : M (list B) :=
  match l with
  | [] => ret []
  | x :: l' => do y <- f x; do ys <- mapM_M f l'; ret (y :: ys)
  end.

Fixpoint forM_ {A} (l : list A) (f : A -> M unit) : M unit :=
  match l with
  | [] => ret tt
  | x :: l' => f x ;; forM_ l' f
  end.

(** ** More built-ins *)

Close Scope string_scope.

(** [l[i]] with Python's negative indices. *)
Definition py_getitem {A} (l : list A) (i : Z) : result A :=
  let j := if i <? 0 then len l + i else i in
  if j <? 0 then Raise IndexError
  else match l !! Z.to_nat j with
       | Some x => Ok x
       | None => Raise IndexError
       end.

(** [range(n)] *)
Definition py_range (n : Z) : list Z :=
  map Z.of_nat (seq 0 (Z.to_nat n)).

(** [range(0, stop, step)]; a zero step raises ValueError. *)
Definition py_range3 (stop step : Z) : result (list Z) :=
  if step =? 0 then Raise ValueError
  else
    let count :=
      if 0 <? step then (stop + step - 1) / step else (stop + step + 1) / step in
    Ok (map (fun k => Z.of_nat k * step) (seq 0 (Z.to_nat count))).

(** [l.sort(key=key)]: Python's sort is stable, and a stable sort has one
    possible outcome; insertion from the right computes it. *)
Fixpoint insert_by {A} (key : A -> Z) (x : A) (l : list A) : list A :=
  match l with
  | [] => [x]
  | y :: l' => if key x <=? key y then x :: l else y :: insert_by key x l'
  end.

Definition list_sort {A} (key : A -> Z) (l : list A) : list A :=
  foldr (insert_by key) [] l.

Fixpoint foldM {A B} (f : A -> B -> result A) (a : A) (l : list B) : result A :=
  match l with
  | [] => Ok a
  | x :: l' => a' ← f a x; foldM f a' l'
  end.

(** [np.zeros([t, w])]: a float64 array. *)
Definition np_zeros2 (t w : Z) : result ndarray2 :=
  if (t <? 0) || (w <? 0) then Raise ValueError
  else Ok (NdArray2 float64
             (Array2 (Z.to_nat w)
                (replicate (Z.to_nat t) (replicate (Z.to_nat w) 0%float)))).

(** Python's conversion of an integer to a float, which [int * float]
    performs on its left operand, raises OverflowError when the integer
    rounds to [2^1024] or beyond, that is from [2^1024 - 2^970] on; only
    this check matters here. *)
Definition float_limit : Z := 2 ^ 1024 - 2 ^ 970.

Definition py_float_check (z : Z) : result unit :=
  if Z.abs z <? float_limit then Ok tt else Raise OverflowError.

(** [a / b] on Python integers (true division): ZeroDivisionError for
    [b = 0], OverflowError when the quotient rounds to [2^1024] or beyond;
    only these checks matter here. *)
Definition py_truediv_check (a b : Z) : result unit :=
  if b =? 0 then Raise ZeroDivisionError
  else if Z.abs a <? float_limit * Z.abs b then Ok tt
  else Raise OverflowError.

(** All records have as many fields as the first. *)
Definition same_lengths (records : list (list string)) : bool :=
  match records with
  | [] => true
  | r :: rs => forallb (fun r' => (length r' =? length r)%nat) rs
  end.

(** [acc = np.concatenate((acc, cur), axis=1) if acc is not None else cur] *)
Definition concat_or_init {T} (cat : T -> T -> result T)
    (acc : option T) (cur : T) : result (option T) :=
  match acc with
  | Some a => Some <$> cat a cur
  | None => Ok (Some cur)
  end.

(** ** What the feeder takes from outside the file

    The content of the feature files ([np.load]), the text front end
    ([tacotron.utils.text.text_to_sequence]), Python's conversion of a
    string to an integer ([int], also used by numpy when a list of strings
    is converted to an int32 array), and two points on which the numpy
    releases differ:
    - [np_wraps z]: a Python integer [z] outside the int32 range,
      converted to dtype int32, is stored wrapped to 32 bits (releases
      before 2.0, for [z] that fits a C long); otherwise the conversion
      raises OverflowError (every [z] from 2.0 on);
    - [np_wraps_str z]: the same for an integer [z] written in a string;
    - [np_ragged]: [np.array] builds an array of list objects from records
      of different lengths (releases before 1.24); otherwise it raises
      ValueError. *)
Record Env : Type := {
  disk : string -> option ndarray2;
  text_to_sequence : string -> list string -> list Z;
  py_int : string -> option Z;
  np_wraps : Z -> bool;
  np_wraps_str : Z -> bool;
  np_ragged : bool
}.

(** The accumulators of the device loop of [_prepare_batch]. *)
Record DeviceAcc : Type := {
  acc_inputs : option (array2 Z);
  acc_mel_targets : option (array3 float);
  acc_token_targets : option (array2 float);
  acc_linear_targets : option (array3 float);
  acc_split_infos : list (list Z)
}.

Definition acc_init : DeviceAcc :=
  {| acc_inputs := None; acc_mel_targets := None; acc_token_targets := None;
     acc_linear_targets := None; acc_split_infos := [] |}.

(** The shard of device [i]: [batches[size_per_device * i: size_per_device * (i + 1)]] *)
Definition shard (batches : list Example) (size_per_device i : Z) : list Example :=
  slice batches (Z.to_nat (size_per_device * i))
                (Z.to_nat (size_per_device * (i + 1))).

(** One iteration of the loop at lines 160-172. *)
Definition device_step (self : Feeder) (batches : list Example)
    (size_per_device outputs_per_step : Z) (acc : DeviceAcc) (i : Z)
  : result DeviceAcc :=
  let batch := shard batches size_per_device i in
  '(input_cur_device, input_max_len) ← _prepare_inputs self (map input_data batch);
  inputs ← concat_or_init np_concatenate2_axis1 (acc_inputs acc) input_cur_device;
  '(mel_target_cur_device, mel_target_max_len) ←
    _prepare_targets self (map mel_target batch) outputs_per_step;
  mel_targets ← concat_or_init np_concatenate3_axis1
                  (acc_mel_targets acc) mel_target_cur_device;
  '(token_target_cur_device, token_target_max_len) ←
    _prepare_token_targets self (map token_target batch) outputs_per_step;
  token_targets ← concat_or_init np_concatenate2_axis1
                    (acc_token_targets acc) token_target_cur_device;
  '(linear_targets_cur_device, linear_target_max_len) ←
    _prepare_targets self (map linear_target batch) outputs_per_step;
  linear_targets ← concat_or_init np_concatenate3_axis1
                     (acc_linear_targets acc) linear_targets_cur_device;
  Ok {| acc_inputs := inputs;
        acc_mel_targets := mel_targets;
        acc_token_targets := token_targets;
        acc_linear_targets := linear_targets;
        acc_split_infos :=
          acc_split_infos acc ++
          [[input_max_len; mel_target_max_len;
            token_target_max_len; linear_target_max_len]] |}.

Section WithEnv.

Variable E : Env.

(** [np.load(path)]: the path joins the list of files opened. *)
Definition np_load (path : string) : M ndarray2 := fun w =>
  let w' := {| w_self := w_self w; w_random := w_random w;
               w_reads := w_reads w ++ [path]; w_queue := w_queue w |} in
  match disk E path with
  | Some a => (Ok a, w')
  | None => (Raise (FileNotFoundError path), w')
  end.

(** [np.asarray(.., dtype=np.int32)] on one Python integer. *)
Definition np_int32 (z : Z) : result Z :=
  if in_int32 z then Ok z
  else if np_wraps E z then Ok (int32 z)
  else Raise OverflowError.

(** The same on one string: ValueError when it is no integer. *)
Definition str_to_int32 (s : string) : result Z :=
  match py_int E s with
  | Some z =>
      if in_int32 z then Ok z
      else if np_wraps_str E z then Ok (int32 z)
      else Raise OverflowError
  | None => Raise ValueError
  end.

(** [list(np.array(records)[np.arange(len(records))])]: the records in
    their order (no record, or all of one length: the rows of a rank-2
    array of strings). *)
Definition np_array_records (records : list (list string))
  : result (list (list string)) :=
  if same_lengths records || np_ragged E then Ok records
  else Raise ValueError.

Definition set_train (self : Feeder) (offset : Z) (meta : list (list string))
  : Feeder :=
  {| _hparams := _hparams self; _cleaner_names := _cleaner_names self;
     _train_offset := offset;
     _mel_dir := _mel_dir self; _linear_dir := _linear_dir self;
     _spk_embedding_dir := _spk_embedding_dir self;
     _train_meta := meta;
     _pad := _pad self; _target_pad := _target_pad self;
     _token_pad := _token_pad self |}.

(** [_get_next_example] (lines 114-139). *)
Definition _get_next_example : M Example :=
  do self <- get_self;
  (if _train_offset self >=? len (_train_meta self) then
     do meta' <- shuffle_M (_train_meta self);
     put_self (set_train self 0 meta')
   else ret tt) ;;
  do self <- get_self;
  do meta <- lift (py_getitem (_train_meta self) (_train_offset self));
  put_self (set_train self (_train_offset self + 1) (_train_meta self)) ;;
  do text <- lift (py_getitem meta 6);
  do speaker_id <- lift (py_getitem meta 7);
  let input_data := map int32 (text_to_sequence E text (_cleaner_names self)) in
  do mel_name <- lift (py_getitem meta 1);
  do mel_target <- np_load (os_path_join (_mel_dir self) mel_name);
  do spk_embedding <-
    (if spk_dependent_embedding (_hparams self) then
       do emb_name <- lift (py_getitem meta 1);
       do emb <- np_load (os_path_join (_spk_embedding_dir self) emb_name);
       ret (Some emb)
     else ret None);
  let token_target := replicate (Z.to_nat (shape0 mel_target - 1)) 0%float in
  do linear_target <-
    (if predict_linear (_hparams self) then
       do linear_name <- lift (py_getitem meta 2);
       np_load (os_path_join (_linear_dir self) linear_name)
     else lift (np_zeros2 (shape0 mel_target) (num_freq (_hparams self))));
  ret {| input_data := input_data;
         mel_target := mel_target;
         token_target := token_target;
         linear_target := linear_target;
         speaker_id := speaker_id;
         spk_embedding := spk_embedding;
         mel_length := shape0 mel_target |}.

(** [_prepare_batch] (lines 141-178).  [int(len(batches) / num_gpus)] is
    the exact quotient, the assertion having passed.  Line 144 shuffles
    in place the list object that the caller passed: the rest of the
    method reads the shuffled list, bound here to the same name, and what
    the caller's list holds afterwards is [_prepare_batch_argument] below
    (the one caller, the loop of [_enqueue_next_train_group], does not
    read its list again). *)
Definition _prepare_batch (batches : list Example) (outputs_per_step : Z)
  : M Batch :=
  do self <- get_self;
  let hp := _hparams self in
  do remainder <- lift (py_mod (len batches) (tacotron_num_gpus hp));
  if negb (0 =? remainder) then raise AssertionError
  else
    let size_per_device := len batches / tacotron_num_gpus hp in
    do batches <- shuffle_M batches;
    do targets_lengths <- lift (mapM (fun x => np_int32 (mel_length x)) batches);
    do input_lengths <-
      lift (mapM (fun x => np_int32 (len (input_data x))) batches);
    do speaker_ids <- lift (mapM (fun x => str_to_int32 (speaker_id x)) batches);
    let spk_embeddings :=
      if spk_dependent_embedding hp then Some (map spk_embedding batches)
      else None in
    do acc <- lift (foldM (device_step self batches size_per_device outputs_per_step)
                          acc_init (py_range (tacotron_num_gpus hp)));
    do split_infos <- lift (mapM (mapM np_int32) (acc_split_infos acc));
    ret {| b_inputs := acc_inputs acc;
           b_input_lengths := input_lengths;
           b_mel_targets := acc_mel_targets acc;
           b_token_targets := acc_token_targets acc;
           b_linear_targets := acc_linear_targets acc;
           b_targets_lengths := targets_lengths;
           b_split_infos := split_infos;
           b_speaker_ids := speaker_ids;
           b_spk_embeddings := spk_embeddings |}.


(** Line 102: [[self._get_next_example() for i in range(n * _batches_per_group)]] *)
Definition read_group (n : Z) : M (list Example) :=
  mapM_M (fun _ => _get_next_example) (py_range (n * _batches_per_group)).

(** Lines 105-107: sort by length, slice, shuffle the list of slices. *)
Definition bucket_group (n : Z) (examples : list Example)
  : M (list (list Example)) :=
  let examples := list_sort mel_length examples in
  do starts <- lift (py_range3 (len examples) n);
  let batches :=
    map (fun i => slice examples (Z.to_nat i) (Z.to_nat (i + n))) starts in
  shuffle_M batches.

(** One pass through the body of the [while] loop (lines 97-112). *)
Definition train_group_iteration : M unit :=
  do self <- get_self;
  let n := tacotron_batch_size (_hparams self) in
  let r := outputs_per_step (_hparams self) in
  do examples <- read_group n;
  do batches <- bucket_group n examples;
  forM_ batches (fun batch =>
    do feed <- _prepare_batch batch r;
    enqueue feed).

(** [_enqueue_next_train_group]: the loop runs while the coordinator
    answers [False] to [should_stop()]; the argument lists its successive
    answers (the run is observed up to the end of that list). *)
Fixpoint _enqueue_next_train_group (should_stop : list bool) : M unit :=
  match should_stop with
  | [] => ret tt
  | true :: _ => ret tt
  | false :: rest => train_group_iteration ;; _enqueue_next_train_group rest
  end.

(** [start_threads] (lines 89-93): the background thread runs
    [_enqueue_next_train_group]. *)
Definition start_threads (should_stop : list bool) : M unit :=
  _enqueue_next_train_group should_stop.

(** [Feeder.__init__] (lines 17-87), given the lines of the metadata file.
    Besides the object it yields the number of examples and the total
    number of frames that it logs (as hours).  In the order of the code:
    the lines are split (line 30); [hop_size / sample_rate] is evaluated
    (line 31); field 4 of every record is read with [int], and the sum is
    converted to a float to be multiplied (line 32); the records go
    through a numpy array (line 38).  The placeholders and the queue it
    declares hold no data; the queue's capacity is [_batches_per_group]. *)
Definition Feeder_init (metadata_filename : string) (lines : list string)
    (hparams : HParams) : result (Feeder * (Z * Z)) :=
  let cleaner_names :=
    map py_strip (py_split ","%char (cleaners hparams)) in
  let dir := os_path_dirname metadata_filename in
  let metadata := map (fun line => py_split "|"%char (py_strip line)) lines in
  _ ← py_truediv_check (hop_size hparams) (sample_rate hparams);
  frames ← mapM (fun x =>
                   field ← py_getitem x 4;
                   match py_int E field with
                   | Some z => Ok z
                   | None => Raise ValueError
                   end) metadata;
  _ ← py_float_check (foldr Z.add 0 frames);
  train_meta ← np_array_records metadata;
  Ok ({| _hparams := hparams;
         _cleaner_names := cleaner_names;
         _train_offset := 0;
         _mel_dir := os_path_join dir "mels";
         _linear_dir := os_path_join dir "linear";
         _spk_embedding_dir := os_path_join dir (embedding_path hparams);
         _train_meta := train_meta;
         _pad := 0;
         _target_pad :=
           if symmetric_mels hparams then (- max_abs_value hparams)%float
           else 0%float;
         _token_pad := 1%float |},
      (len metadata, foldr Z.add 0 frames)).

Definition queue_capacity : Z := _batches_per_group.

End WithEnv.

(** ** Vocabulary of the statements *)

(** [x] padded on the right with [c] up to width [w]. *)
Definition pad_to {A} (w : Z) (c : A) (x : list A) : list A :=
  x ++ replicate (Z.to_nat (w - len x)) c.

(** The frames of [t] followed by frames filled with [c], up to [w] frames. *)
Definition pad_frames_to {A} (w : Z) (c : A) (t : array2 A) : list (list A) :=
  rows2 t ++ replicate (Z.to_nat (w - shape0 t)) (replicate (cols2 t) c).

(** The pad value of the targets as the array [t] stores it. *)
Definition stored_target_pad (self : Feeder) (t : ndarray2) : float :=
  np_cast (dtype2 t) (_target_pad self).

(** The frames of [t] as [_pad_target] leaves them for the length [w]. *)
Definition padded_target (self : Feeder) (w : Z) (t : ndarray2)
  : list (list float) :=
  pad_frames_to w (stored_target_pad self t) t.

(** [row] keeps [x] on the positions of [x] and holds [c] on all others. *)
Definition padded_with {A} (c : A) (x row : list A) : Prop :=
  (forall j : nat, (j < length x)%nat -> row !! j = x !! j) /\
  (forall j : nat, (length x <= j < length row)%nat -> row !! j = Some c).

(** [whole] and every part have [k] rows, and row [r] of [whole] is the
    concatenation, in order, of row [r] of every part: the parts glued
    along axis 1. *)
Definition joined_axis1 {X} (k : nat) (whole : list (list X))
    (parts : list (list (list X))) : Prop :=
  length whole = k /\
  Forall (fun p => length p = k) parts /\
  forall r : nat, (r < k)%nat ->
    exists rs, Forall2 (fun p x => p !! r = Some x) parts rs /\
               whole !! r = Some (concat rs).

(** The parts glued along axis 0, as the specification words it: the rows
    of the shards stacked one shard after the other. *)
Definition stacked_axis0 {X} (parts : list (list (list X))) : list (list X) :=
  concat parts.

(** The [c] consecutive slices of width [n] of a list. *)
Definition chunks {A} (n c : nat) (l : list A) : list (list A) :=
  map (fun k => slice l (k * n) (k * n + n))%nat (seq 0 c).


(** What [_prepare_batch] computes for the shard of one device: the four
    padded tensors and their widths. *)
Record DeviceTensors : Type := {
  d_inputs : array2 Z;
  d_input_max_len : Z;
  d_mel_targets : array3 float;
  d_mel_target_max_len : Z;
  d_token_targets : array2 float;
  d_token_target_max_len : Z;
  d_linear_targets : array3 float;
  d_linear_target_max_len : Z
}.

Definition prepared_shard (self : Feeder) (outputs_per_step : Z)
    (batch : list Example) (d : DeviceTensors) : Prop :=
  _prepare_inputs self (map input_data batch)
  = Ok (d_inputs d, d_input_max_len d) /\
  _prepare_targets self (map mel_target batch) outputs_per_step
  = Ok (d_mel_targets d, d_mel_target_max_len d) /\
  _prepare_token_targets self (map token_target batch) outputs_per_step
  = Ok (d_token_targets d, d_token_target_max_len d) /\
  _prepare_targets self (map linear_target batch) outputs_per_step
  = Ok (d_linear_targets d, d_linear_target_max_len d).

Definition split_info (d : DeviceTensors) : list Z :=
  [d_input_max_len d; d_mel_target_max_len d;
   d_token_target_max_len d; d_linear_target_max_len d].

(** The hyper-parameters, the pad values and the queue are the same. *)
Definition same_setup (w w' : World) : Prop :=
  _hparams (w_self w') = _hparams (w_self w) /\
  _pad (w_self w') = _pad (w_self w) /\
  _target_pad (w_self w') = _target_pad (w_self w) /\
  _token_pad (w_self w') = _token_pad (w_self w) /\
  w_queue w' = w_queue w.

(** The hyper-parameters with another batch size and device count. *)
Definition with_batch_and_gpus (hp : HParams) (n g : Z) : HParams :=
  {| cleaners := cleaners hp; embedding_path := embedding_path hp;
     tacotron_batch_size := n; outputs_per_step := outputs_per_step hp;
     tacotron_num_gpus := g; symmetric_mels := symmetric_mels hp;
     max_abs_value := max_abs_value hp;
     spk_dependent_embedding := spk_dependent_embedding hp;
     predict_linear := predict_linear hp; num_freq := num_freq hp;
     hop_size := hop_size hp; sample_rate := sample_rate hp |}.

(** The state of one accumulator of the device loop after the tensors
    [parts] have been glued (rank 2, then rank 3). *)
Definition glued2 {X} (acc : option (array2 X)) (parts : list (array2 X)) : Prop :=
  match acc with
  | None => parts = []
  | Some a =>
      parts <> [] /\
      joined_axis1 (length (rows2 a)) (rows2 a) (map rows2 parts) /\
      cols2 a = sum_list (map cols2 parts)
  end.

Definition glued3 {X} (acc : option (array3 X)) (parts : list (array3 X)) : Prop :=
  match acc with
  | None => parts = []
  | Some a =>
      parts <> [] /\
      joined_axis1 (length (items3 a)) (items3 a) (map items3 parts) /\
      time3 a = sum_list (map time3 parts)
  end.

(** The invariant of the device loop of [_prepare_batch]. *)
Definition device_loop_invariant (self : Feeder) (batches : list Example)
    (size_per_device outputs_per_step : Z) (done : list Z) (acc : DeviceAcc)
  : Prop :=
  exists ds : list DeviceTensors,
    Forall2 (fun i d => prepared_shard self outputs_per_step
                          (shard batches size_per_device i) d) done ds /\
    glued2 (acc_inputs acc) (map d_inputs ds) /\
    glued3 (acc_mel_targets acc) (map d_mel_targets ds) /\
    glued2 (acc_token_targets acc) (map d_token_targets ds) /\
    glued3 (acc_linear_targets acc) (map d_linear_targets ds) /\
    acc_split_infos acc = map split_info ds.

(** ** Further vocabulary: rows, loader stages, loop rounds *)

(** Row [r] of the tensors of one device holds the padded sequences of
    example [ex]. *)
Definition rows_of_example (self : Feeder) (ex : Example) (d : DeviceTensors)
    (r : nat) : Prop :=
  rows2 (d_inputs d) !! r
  = Some (pad_to (d_input_max_len d) (_pad self) (input_data ex)) /\
  items3 (d_mel_targets d) !! r
  = Some (padded_target self (d_mel_target_max_len d) (mel_target ex)) /\
  rows2 (d_token_targets d) !! r
  = Some (pad_to (d_token_target_max_len d) (_token_pad self) (token_target ex)) /\
  items3 (d_linear_targets d) !! r
  = Some (padded_target self (d_linear_target_max_len d) (linear_target ex)).

(** Row [r] of [whole] is row [r] of every part, one after the other. *)
Definition row_is_joined {X} (whole : list (list X))
    (parts : list (list (list X))) (r : nat) : Prop :=
  whole !! r = Some (concat (map (fun p => default [] (p !! r)) parts)).

(** The world with another feeder object (the effect of an assignment to a
    field of [self]). *)
Definition set_self (w : World) (f : Feeder) : World :=
  {| w_self := f; w_random := w_random w;
     w_reads := w_reads w; w_queue := w_queue w |}.

(** The record that a call of [_get_next_example] in [w] takes (lines
    117-121): the one at the offset, or, the pool being exhausted, the
    first of the reshuffled pool. *)
Definition record_at_hand (w : World) : result (list string) :=
  let self := w_self w in
  if _train_offset self >=? len (_train_meta self)
  then py_getitem (np_random_shuffle (_train_meta self) (w_random w)).1 0
  else py_getitem (_train_meta self) (_train_offset self).

(** The world after [np.load(path)] was attempted. *)
Definition add_read (w : World) (path : string) : World :=
  {| w_self := w_self w; w_random := w_random w;
     w_reads := w_reads w ++ [path]; w_queue := w_queue w |}.

Section LoaderStages.

Variable E : Env.

(** Lines 117-122 of [_get_next_example]: the record taken from the pool
    (reshuffled first when it is exhausted), paired with the feeder object
    as it is read before the offset is advanced. *)
Definition next_record : M (Feeder * list string) :=
  do self <- get_self;
  (if _train_offset self >=? len (_train_meta self) then
     do meta' <- shuffle_M (_train_meta self);
     put_self (set_train self 0 meta')
   else ret tt) ;;
  do self <- get_self;
  do meta <- lift (py_getitem (_train_meta self) (_train_offset self));
  put_self (set_train self (_train_offset self + 1) (_train_meta self)) ;;
  ret (self, meta).

(** Lines 124-139 of [_get_next_example]: the example built from a record. *)
Definition load_record (self : Feeder) (meta : list string) : M Example :=
  do text <- lift (py_getitem meta 6);
  do speaker_id <- lift (py_getitem meta 7);
  let input_data := map int32 (text_to_sequence E text (_cleaner_names self)) in
  do mel_name <- lift (py_getitem meta 1);
  do mel_target <- np_load E (os_path_join (_mel_dir self) mel_name);
  do spk_embedding <-
    (if spk_dependent_embedding (_hparams self) then
       do emb_name <- lift (py_getitem meta 1);
       do emb <- np_load E (os_path_join (_spk_embedding_dir self) emb_name);
       ret (Some emb)
     else ret None);
  let token_target := replicate (Z.to_nat (shape0 mel_target - 1)) 0%float in
  do linear_target <-
    (if predict_linear (_hparams self) then
       do linear_name <- lift (py_getitem meta 2);
       np_load E (os_path_join (_linear_dir self) linear_name)
     else lift (np_zeros2 (shape0 mel_target) (num_freq (_hparams self))));
  ret {| input_data := input_data;
         mel_target := mel_target;
         token_target := token_target;
         linear_target := linear_target;
         speaker_id := speaker_id;
         spk_embedding := spk_embedding;
         mel_length := shape0 mel_target |}.

End LoaderStages.

(** The number of files [_get_next_example] opens for one example. *)
Definition files_per_example (hp : HParams) : nat :=
  (1 + (if spk_dependent_embedding hp then 1 else 0)
     + (if predict_linear hp then 1 else 0))%nat.

(** [ex] was built from the record [meta]: speaker id, text and mel file. *)
Definition example_of_record (E : Env) (self : Feeder) (meta : list string)
    (ex : Example) : Prop :=
  meta !! 7%nat = Some (speaker_id ex) /\
  exists text mel_name,
    meta !! 6%nat = Some text /\
    input_data ex = map int32 (text_to_sequence E text (_cleaner_names self)) /\
    meta !! 1%nat = Some mel_name /\
    disk E (os_path_join (_mel_dir self) mel_name) = Some (mel_target ex).


(** The number of passes through the body of the [while] loop: the
    answers [False] of [should_stop()] before its first [True]. *)
Fixpoint rounds (should_stop : list bool) : nat :=
  match should_stop with
  | false :: rest => S (rounds rest)
  | _ => O
  end.

(** The accumulated tensors have [k] rows, and the mel and linear ones
    the feature widths [Wm] and [Wl]. *)
Definition acc_fits (k Wm Wl : nat) (acc : DeviceAcc) : Prop :=
  (forall a, acc_inputs acc = Some a -> length (rows2 a) = k) /\
  (forall a, acc_mel_targets acc = Some a ->
             length (items3 a) = k /\ width3 a = Wm) /\
  (forall a, acc_token_targets acc = Some a -> length (rows2 a) = k) /\
  (forall a, acc_linear_targets acc = Some a ->
             length (items3 a) = k /\ width3 a = Wl).

(** The integers that [_prepare_batch] stores as int32 for the example
    [x] are in the int32 range: its number of frames and of token ids,
    and the widths it can be padded to for an alignment [m]. *)
Definition example_fits_int32 (m : Z) (x : Example) : Prop :=
  in_int32 (mel_length x) = true /\
  len (input_data x) < 2147483648 /\
  shape0 (mel_target x) + m <= 2147483648 /\
  len (token_target x) + 1 + m <= 2147483648 /\
  shape0 (linear_target x) + m <= 2147483648.

(** Every width recorded so far is in the int32 range. *)
Definition widths_fit_int32 (acc : DeviceAcc) : Prop :=
  Forall (Forall (fun z => in_int32 z = true)) (acc_split_infos acc).

(** The fields of a line of the metadata file. *)
Definition fields_of_line (line : string) : list string :=
  py_split "|"%char (py_strip line).

(** The line has a field 4 that [int] accepts. *)
Definition frames_field_ok (E : Env) (line : string) : Prop :=
  exists field z, fields_of_line line !! 4%nat = Some field /\
                  py_int E field = Some z.

(** The number of frames that line 32 reads from a line (0 when there is
    none), and their sum over the file. *)
Definition frames_of_line (E : Env) (line : string) : Z :=
  default 0 (fields_of_line line !! 4%nat ≫= py_int E).

Definition total_frames (E : Env) (lines : list string) : Z :=
  foldr Z.add 0 (map (frames_of_line E) lines).

(** ** A small data set on which the statements are exercised *)

Module Sample.

(** A text front end for lower-case words: the position in the alphabet. *)
Definition letters (text : string) (_ : list string) : list Z :=
  map (fun c => Z.of_nat (nat_of_ascii c) - 97) (list_ascii_of_string text).

Fixpoint digits (acc : Z) (s : string) : option Z :=
  match s with
  | EmptyString => Some acc
  | String c s' =>
      let n := Z.of_nat (nat_of_ascii c) in
      if (48 <=? n) && (n <=? 57) then digits (10 * acc + (n - 48)) s'
      else None
  end.

(** [int] on plain decimal numerals. *)
Definition decimal (s : string) : option Z :=
  match s with
  | EmptyString => None
  | _ => digits 0 s
  end.

Definition frames (t : nat) (v : float) : ndarray2 :=
  NdArray2 float32 (Array2 2 (replicate t [v; v])).

Definition files (p : string) : option ndarray2 :=
  if String.eqb p "data/mels/a.npy" then Some (frames 5 0.5%float)
  else if String.eqb p "data/mels/b.npy" then Some (frames 3 0.25%float)
  else if String.eqb p "data/linear/b.npy" then Some (frames 5 2%float)
  else if String.eqb p "data/linear/x" then Some (frames 3 3%float)
  else if String.eqb p "data/mels/empty.npy" then Some (frames 0 0%float)
  else None.

(** A numpy that refuses what does not fit (release 2). *)
Definition env : Env :=
  {| disk := files; text_to_sequence := letters; py_int := decimal;
     np_wraps := fun _ => false; np_wraps_str := fun _ => false;
     np_ragged := false |}.

Definition hparams (n g : Z) : HParams :=
  {| cleaners := "english_cleaners"; embedding_path := "emb";
     tacotron_batch_size := n; outputs_per_step := 4;
     tacotron_num_gpus := g; symmetric_mels := true;
     max_abs_value := 4%float; spk_dependent_embedding := false;
     predict_linear := true; num_freq := 2;
     hop_size := 275; sample_rate := 22050 |}.

(** The same with another [max_abs_value], one batch on one device. *)
Definition hparams_with_max_abs (v : float) : HParams :=
  {| cleaners := "english_cleaners"; embedding_path := "emb";
     tacotron_batch_size := 1; outputs_per_step := 4;
     tacotron_num_gpus := 1; symmetric_mels := true;
     max_abs_value := v; spk_dependent_embedding := false;
     predict_linear := true; num_freq := 2;
     hop_size := 275; sample_rate := 22050 |}.

Definition metadata_filename : string := "data/train.txt".

Definition lines : list string :=
  ["a.npy|b.npy|x|x|5|x|hello|3" +:+ String "010"%char EmptyString].

Definition two_lines : list string :=
  lines ++ ["w.wav|a.npy|b.npy|x|5|x|world|4" +:+ String "010"%char EmptyString].

Definition random : RandomState :=
  {| rs_draws := fun i => (i * 7 + 3)%nat; rs_pos := 0 |}.

Definition feeder (n g : Z) : Feeder :=
  match Feeder_init env metadata_filename lines (hparams n g) with
  | Ok (f, _) => f
  | Raise _ =>
      {| _hparams := hparams n g; _cleaner_names := []; _train_offset := 0;
         _mel_dir := ""; _linear_dir := ""; _spk_embedding_dir := "";
         _train_meta := []; _pad := 0; _target_pad := 0%float;
         _token_pad := 1%float |}
  end.

Definition world (n g : Z) : World :=
  {| w_self := feeder n g; w_random := random; w_reads := []; w_queue := [] |}.

Definition feeder2 (n g : Z) : Feeder :=
  match Feeder_init env metadata_filename two_lines (hparams n g) with
  | Ok (f, _) => f
  | Raise _ => feeder n g
  end.

Definition world2 (n g : Z) : World :=
  {| w_self := feeder2 n g; w_random := random; w_reads := []; w_queue := [] |}.

(** Two hand-made examples of different lengths. *)
Definition example (ids : list Z) (t : nat) (v : float) : Example :=
  {| input_data := ids;
     mel_target := frames t v;
     token_target := replicate (t - 1) 0%float;
     linear_target := frames t v;
     speaker_id := "3";
     spk_embedding := None;
     mel_length := Z.of_nat t |}.

Definition short : Example := example [1; 2; 3] 3 0.5%float.
Definition long : Example := example [4; 5] 5 0.25%float.

End Sample.

(** * Properties *)

Ltac result_simpl :=
  unfold mbind, result_bind, mret, result_ret, fmap, result_fmap in *; simpl in *.

Section Basics.

Context {A B : Type}.

Lemma mapM_result_map (f : A -> result B) (g : A -> B) (l : list A) :
  (forall x, x ∈ l -> f x = Ok (g x)) -> mapM f l = Ok (map g l).
Proof.
  induction l as [|x l IH]; intros Hf; [reflexivity|].
  simpl. rewrite (Hf x) by apply list_elem_of_here.
  result_simpl. rewrite IH; [reflexivity|].
  intros y Hy. apply Hf. by apply list_elem_of_further.
Qed.

Lemma mapM_result_inv (f : A -> result B) (l : list A) (k : list B) :
  mapM f l = Ok k -> Forall2 (fun x y => f x = Ok y) l k.
Proof.
  revert k. induction l as [|x l IH]; intros k H.
  - injection H as <-. constructor.
  - simpl in H. result_simpl. destruct (f x) as [y|] eqn:Hx; [|discriminate].
    destruct (mapM f l) as [k'|]; [|discriminate].
    injection H as <-. constructor; auto.
Qed.

End Basics.

Lemma len_nonneg {A} (l : list A) : 0 <= len l.
Proof. unfold len. lia. Qed.

Lemma foldl_max_le (x : Z) (xs : list Z) :
  x <= foldl Z.max x xs /\ Forall (fun y => y <= foldl Z.max x xs) xs.
Proof.
  revert x. induction xs as [|y ys IH]; intros x; simpl.
  - split; [lia|constructor].
  - destruct (IH (Z.max x y)) as [H1 H2]. split; [lia|].
    constructor; [lia|exact H2].
Qed.

Lemma foldl_max_elem (x : Z) (xs : list Z) : foldl Z.max x xs ∈ x :: xs.
Proof.
  revert x. induction xs as [|y ys IH]; intros x; simpl.
  - apply list_elem_of_here.
  - specialize (IH (Z.max x y)). apply elem_of_cons in IH as [IH|IH].
    + rewrite IH. destruct (Z.max_spec x y) as [[_ ->]|[_ ->]].
      * apply list_elem_of_further, list_elem_of_here.
      * apply list_elem_of_here.
    + by apply list_elem_of_further, list_elem_of_further.
Qed.

Lemma py_max_spec (xs : list Z) (m : Z) :
  py_max xs = Ok m -> m ∈ xs /\ Forall (fun y => y <= m) xs.
Proof.
  destruct xs as [|x xs]; [discriminate|]. intros [= <-]. split.
  - apply foldl_max_elem.
  - destruct (foldl_max_le x xs). by constructor.
Qed.

Lemma py_max_total (xs : list Z) : xs <> [] -> exists m, py_max xs = Ok m.
Proof. destruct xs; [done|]. eauto. Qed.

Lemma _round_up_spec (x m : Z) :
  1 <= m -> exists y, _round_up x m = Ok y /\ (m | y) /\ x <= y < x + m.
Proof.
  intros Hm. unfold _round_up, py_mod.
  destruct (m =? 0) eqn:Hm0; [lia|]. result_simpl.
  pose proof (Z.mod_pos_bound x m ltac:(lia)) as Hr.
  pose proof (Z.div_mod x m ltac:(lia)) as Hd.
  destruct (x mod m =? 0) eqn:Hr0; eexists; (split; [reflexivity|]).
  - apply Z.eqb_eq in Hr0. split; [|lia].
    exists (x / m). lia.
  - apply Z.eqb_neq in Hr0. split; [|lia].
    exists (x / m + 1). lia.
Qed.

Lemma length_pad_to {A} (w : Z) (c : A) (x : list A) :
  len x <= w -> length (pad_to w c x) = Z.to_nat w.
Proof.
  intros H. unfold pad_to, len in *. rewrite length_app, length_replicate. lia.
Qed.

Lemma np_pad1_pad_to {A} (w : Z) (c : A) (x : list A) :
  len x <= w -> np_pad1 x (w - len x) c = Ok (pad_to w c x).
Proof.
  intros H. unfold np_pad1. destruct (w - len x <? 0) eqn:E; [lia|]. reflexivity.
Qed.

Lemma all_equal_nat_true (n : nat) (ns : list nat) :
  Forall (eq n) ns -> all_equal_nat n ns = true.
Proof.
  intros H. unfold all_equal_nat. apply forallb_forall.
  intros k Hk. rewrite Forall_forall in H. apply Nat.eqb_eq, H.
  by apply list_elem_of_In.
Qed.

Lemma pad_stack1 {A} (c : A) (w : Z) (xs : list (list A)) :
  xs <> [] -> Forall (fun y => len y <= w) xs ->
  (mapM (fun y => np_pad1 y (w - len y) c) xs ≫= np_stack1)
  = Ok (Array2 (Z.to_nat w) (map (pad_to w c) xs)).
Proof.
  intros Hne Hle.
  rewrite (mapM_result_map _ (pad_to w c)).
  2:{ intros y Hy. apply np_pad1_pad_to. rewrite Forall_forall in Hle. auto. }
  result_simpl. destruct xs as [|x xs]; [done|]. simpl.
  apply Forall_cons in Hle as [Hx Hxs].
  rewrite all_equal_nat_true.
  - by rewrite length_pad_to.
  - rewrite length_pad_to by done. rewrite !Forall_map.
    eapply Forall_impl; [exact Hxs|]. intros y Hy. simpl.
    by rewrite length_pad_to.
Qed.

Lemma _prepare_inputs_closed (self : Feeder) (inputs : list (list Z)) (w : Z) :
  py_max (map len inputs) = Ok w ->
  _prepare_inputs self inputs
  = Ok (Array2 (Z.to_nat w) (map (pad_to w (_pad self)) inputs), w).
Proof.
  intros Hmax. unfold _prepare_inputs. rewrite Hmax.
  apply py_max_spec in Hmax as [Hin Hle].
  assert (inputs <> []) as Hne by (intros ->; inversion Hin).
  rewrite Forall_map in Hle.
  pose proof (pad_stack1 (_pad self) w inputs Hne Hle) as H.
  unfold _pad_input. result_simpl.
  destruct (mapM _ inputs) as [p|]; [|discriminate].
  simpl in H. rewrite H. reflexivity.
Qed.

Lemma _prepare_token_targets_closed (self : Feeder) (targets : list (list float))
    (m mx w : Z) :
  py_max (map len targets) = Ok mx -> _round_up (mx + 1) m = Ok w -> mx + 1 <= w ->
  _prepare_token_targets self targets m
  = Ok (Array2 (Z.to_nat w) (map (pad_to w (_token_pad self)) targets), w).
Proof.
  intros Hmax Hup Hw. unfold _prepare_token_targets. rewrite Hmax.
  apply py_max_spec in Hmax as [Hin Hle].
  assert (targets <> []) as Hne by (intros ->; inversion Hin).
  rewrite Forall_map in Hle.
  assert (Forall (fun y => len y <= w) targets) as Hle'.
  { eapply Forall_impl; [exact Hle|]. simpl. intros; lia. }
  pose proof (pad_stack1 (_token_pad self) w targets Hne Hle') as H.
  unfold _pad_token_target. result_simpl. rewrite Hup.
  destruct (mapM _ targets) as [p|]; [|discriminate].
  simpl in H. rewrite H. reflexivity.
Qed.

Lemma pad_stack1_inv {A} (c : A) (w : Z) (xs : list (list A)) (arr : array2 A) :
  (mapM (fun y => np_pad1 y (w - len y) c) xs ≫= np_stack1) = Ok arr ->
  xs <> [] /\ Forall (fun y => len y <= w) xs /\
  arr = Array2 (Z.to_nat w) (map (pad_to w c) xs).
Proof.
  intros H.
  assert (xs <> [] /\ Forall (fun y => len y <= w) xs) as [Hne Hle].
  { destruct (mapM _ xs) as [p|] eqn:Hp; [|discriminate]. split.
    - intros ->. injection Hp as <-. discriminate.
    - apply mapM_result_inv in Hp. clear H.
      induction Hp as [|y q ys qs Hy _ IH]; constructor; [|exact IH].
      unfold np_pad1 in Hy. destruct (w - len y <? 0) eqn:E; [discriminate|lia]. }
  rewrite pad_stack1 in H by done. by injection H as <-.
Qed.

Lemma _prepare_inputs_inv (self : Feeder) (inputs : list (list Z))
    (arr : array2 Z) (w : Z) :
  _prepare_inputs self inputs = Ok (arr, w) ->
  py_max (map len inputs) = Ok w /\
  arr = Array2 (Z.to_nat w) (map (pad_to w (_pad self)) inputs).
Proof.
  intros H. destruct (py_max (map len inputs)) as [w0|e] eqn:Hmax.
  - rewrite (_prepare_inputs_closed self inputs w0 Hmax) in H.
    by injection H as <- <-.
  - unfold _prepare_inputs in H. rewrite Hmax in H. discriminate.
Qed.

Lemma _prepare_token_targets_inv (self : Feeder) (targets : list (list float))
    (m : Z) (arr : array2 float) (w : Z) :
  _prepare_token_targets self targets m = Ok (arr, w) ->
  exists mx, py_max (map len targets) = Ok mx /\ _round_up (mx + 1) m = Ok w /\
             Forall (fun t => len t <= w) targets /\
             arr = Array2 (Z.to_nat w) (map (pad_to w (_token_pad self)) targets).
Proof.
  unfold _prepare_token_targets, _pad_token_target. intros H.
  destruct (py_max (map len targets)) as [mx|] eqn:Hmax; [|discriminate].
  exists mx. result_simpl.
  destruct (_round_up (mx + 1) m) as [w0|] eqn:Hup; [|discriminate].
  destruct (mapM _ targets) as [p|] eqn:Hp; [|discriminate].
  destruct (np_stack1 p) as [a|] eqn:Hs; [|discriminate].
  injection H as <- <-.
  destruct (pad_stack1_inv (_token_pad self) w0 targets a) as (_ & Hle & ->);
    [|auto].
  result_simpl. by rewrite Hp.
Qed.

Lemma np_pad2_inv (t u : ndarray2) (after : Z) (c : float) :
  np_pad2 t after c = Ok u ->
  0 <= after /\
  u = NdArray2 (dtype2 t)
        (Array2 (cols2 t)
           (rows2 t ++ replicate (Z.to_nat after)
                         (replicate (cols2 t) (np_cast (dtype2 t) c)))).
Proof.
  unfold np_pad2. destruct (after <? 0) eqn:E; [discriminate|].
  intros [= <-]. split; [lia|reflexivity].
Qed.

Lemma np_stack2_inv {A} (ts : list (array2 A)) (arr : array3 A) :
  np_stack2 ts = Ok arr ->
  exists t ts', ts = t :: ts' /\ items3 arr = map rows2 ts /\
                time3 arr = length (rows2 t) /\ width3 arr = cols2 t.
Proof.
  destruct ts as [|t ts']; [discriminate|]. simpl.
  destruct (_ && _); [|discriminate]. intros [= <-]. eexists _, _. eauto.
Qed.

Lemma _prepare_targets_inv (self : Feeder) (targets : list ndarray2)
    (m : Z) (arr : array3 float) (w : Z) :
  _prepare_targets self targets m = Ok (arr, w) ->
  exists mx, py_max (map (fun t : ndarray2 => shape0 t) targets) = Ok mx /\
             _round_up mx m = Ok w /\
             Forall (fun t : ndarray2 => shape0 t <= w) targets /\
             items3 arr = map (padded_target self w) targets /\
             time3 arr = Z.to_nat w.
Proof.
  unfold _prepare_targets, _pad_target. intros H.
  destruct (py_max (map _ targets)) as [mx|] eqn:Hmax; [|discriminate].
  exists mx. result_simpl.
  destruct (_round_up mx m) as [w0|] eqn:Hup; [|discriminate].
  destruct (mapM _ targets) as [padded|] eqn:Hp; [|discriminate].
  destruct (np_stack2 (map array_of padded)) as [a|] eqn:Hs; [|discriminate].
  injection H as <- <-.
  apply mapM_result_inv in Hp.
  assert (Forall (fun t : ndarray2 => shape0 t <= w0) targets /\
          map rows2 (map array_of padded)
          = map (padded_target self w0) targets /\
          Forall (fun u : ndarray2 => length (rows2 u) = Z.to_nat w0) padded)
    as (Hle & Hrows & Hlen).
  { clear Hs Hmax. induction Hp as [|t u ts us Hu _ IH]; [by repeat constructor|].
    destruct IH as (IH1 & IH2 & IH3). apply np_pad2_inv in Hu as [Hge ->].
    repeat split.
    - constructor; [lia|done].
    - simpl. by rewrite IH2.
    - constructor; [|done]. simpl.
      rewrite length_app, length_replicate. unfold shape0, len in *. lia. }
  apply np_stack2_inv in Hs as (t & ts' & Hts & Hi & Ht & _).
  repeat split; try done.
  - by rewrite Hi.
  - rewrite Ht. destruct padded as [|u us]; [discriminate|].
    simpl in Hts. injection Hts as <- _.
    by apply Forall_cons in Hlen as [-> _].
Qed.

(** [t] as [_pad_target] returns it for the length [w]. *)
Lemma _pad_target_closed (self : Feeder) (t : ndarray2) (w : Z) :
  shape0 t <= w ->
  _pad_target self t w
  = Ok (NdArray2 (dtype2 t) (Array2 (cols2 t) (padded_target self w t))).
Proof.
  intros Hle. unfold _pad_target, np_pad2.
  destruct (w - shape0 t <? 0) eqn:E; [lia|reflexivity].
Qed.

Lemma _prepare_targets_closed (self : Feeder) (targets : list ndarray2)
    (m mx w : Z) (W : nat) :
  py_max (map (fun t : ndarray2 => shape0 t) targets) = Ok mx ->
  _round_up mx m = Ok w -> mx <= w ->
  Forall (fun t : ndarray2 => cols2 t = W) targets ->
  _prepare_targets self targets m
  = Ok (Array3 (Z.to_nat w) W (map (padded_target self w) targets), w).
Proof.
  intros Hmax Hup Hw HW. unfold _prepare_targets. rewrite Hmax. result_simpl.
  rewrite Hup. apply py_max_spec in Hmax as [Hin Hle].
  rewrite Forall_map in Hle.
  rewrite (mapM_result_map _
             (fun t : ndarray2 =>
                NdArray2 (dtype2 t) (Array2 (cols2 t) (padded_target self w t)))).
  2:{ intros t Ht. apply _pad_target_closed.
      rewrite Forall_forall in Hle. specialize (Hle t Ht). simpl in Hle. lia. }
  destruct targets as [|t ts]; [inversion Hin|]. simpl.
  apply Forall_cons in HW as [Ht Hts]. apply Forall_cons in Hle as [Hlt Hlts].
  assert (forall u : ndarray2, shape0 u <= mx ->
                    length (padded_target self w u) = Z.to_nat w)
    as Hlen.
  { intros u Hu. unfold padded_target, pad_frames_to.
    rewrite length_app, length_replicate.
    unfold shape0, len in *. lia. }
  rewrite !all_equal_nat_true; simpl.
  - rewrite Hlen by done. rewrite Ht. rewrite !map_map. reflexivity.
  - rewrite !Forall_map. eapply Forall_impl; [exact Hts|]. simpl. congruence.
  - rewrite !Forall_map. rewrite Hlen by done.
    eapply Forall_impl; [exact Hlts|]. simpl. intros u Hu. by rewrite Hlen.
Qed.

Lemma padded_with_pad_to {A} (w : Z) (c : A) (x : list A) :
  padded_with c x (pad_to w c x).
Proof.
  unfold padded_with, pad_to. split; intros j Hj.
  - by rewrite lookup_app_l.
  - rewrite length_app, length_replicate in Hj.
    rewrite lookup_app_r by lia. apply lookup_replicate_2. lia.
Qed.

Lemma padded_with_pad_frames_to {A} (w : Z) (c : A) (t : array2 A) :
  padded_with (replicate (cols2 t) c) (rows2 t) (pad_frames_to w c t).
Proof.
  unfold padded_with, pad_frames_to. split; intros j Hj.
  - by rewrite lookup_app_l.
  - rewrite length_app, length_replicate in Hj.
    rewrite lookup_app_r by lia. apply lookup_replicate_2. lia.
Qed.

Lemma foldl_max_shift (d x : Z) (xs : list Z) :
  foldl Z.max (x + d) (map (fun y => y + d) xs) = foldl Z.max x xs + d.
Proof.
  revert x. induction xs as [|y ys IH]; intros x; simpl; [reflexivity|].
  rewrite <- IH. f_equal. lia.
Qed.

Lemma py_max_shift (d m : Z) (xs : list Z) :
  py_max xs = Ok m -> py_max (map (fun y => y + d) xs) = Ok (m + d).
Proof.
  destruct xs as [|x xs]; [discriminate|]. simpl. intros [= <-].
  by rewrite foldl_max_shift.
Qed.

(** What a successful call of the constructor has done. *)
Lemma Feeder_init_inv (E : Env) fn lines hp self n total :
  Feeder_init E fn lines hp = Ok (self, (n, total)) ->
  let metadata := map (fun line => py_split "|"%char (py_strip line)) lines in
  py_truediv_check (hop_size hp) (sample_rate hp) = Ok tt /\
  (exists frames,
      mapM (fun x => field ← py_getitem x 4;
                     match py_int E field with
                     | Some z => Ok z
                     | None => Raise ValueError
                     end) metadata = Ok frames /\
      total = foldr Z.add 0 frames) /\
  py_float_check total = Ok tt /\
  np_array_records E metadata = Ok metadata /\
  n = len metadata /\
  self = {| _hparams := hp;
            _cleaner_names := map py_strip (py_split ","%char (cleaners hp));
            _train_offset := 0;
            _mel_dir := os_path_join (os_path_dirname fn) "mels";
            _linear_dir := os_path_join (os_path_dirname fn) "linear";
            _spk_embedding_dir :=
              os_path_join (os_path_dirname fn) (embedding_path hp);
            _train_meta := metadata;
            _pad := 0;
            _target_pad :=
              if symmetric_mels hp then (- max_abs_value hp)%float
              else 0%float;
            _token_pad := 1%float |}.
Proof.
  unfold Feeder_init. cbv zeta. intros H.
  destruct (py_truediv_check _ _) as [[]|] eqn:Hdiv; [|discriminate].
  destruct (mapM _ _) as [frames|] eqn:Hframes; [|discriminate].
  unfold mbind, result_bind in H.
  destruct (py_float_check _) as [[]|] eqn:Hfloat; [|discriminate].
  destruct (np_array_records _ _) as [records|] eqn:Hrec; [|discriminate].
  injection H as <- <- <-.
  assert (records
          = map (fun line => py_split "|"%char (py_strip line)) lines) as ->.
  { unfold np_array_records in Hrec.
    destruct (_ || _); [by injection Hrec as <-|discriminate]. }
  split; [done|]. split; [by exists frames|]. by repeat split.
Qed.

Lemma Feeder_init_pads (E : Env) fn lines hp self info :
  Feeder_init E fn lines hp = Ok (self, info) ->
  _pad self = 0 /\ _token_pad self = 1%float /\
  _target_pad self
  = (if symmetric_mels hp then (- max_abs_value hp)%float else 0%float) /\
  _hparams self = hp /\ _train_offset self = 0.
Proof.
  destruct info as [n total]. intros H.
  apply Feeder_init_inv in H as (_ & _ & _ & _ & _ & ->). simpl. auto.
Qed.

(** C2 (as amended): for a non-empty shard and [m >= 1], the mel/linear
    target width returned by [_prepare_targets] and the stop-flag width
    returned by [_prepare_token_targets] are multiples of [m]; the input
    width returned by [_prepare_inputs] is the length of the longest token
    sequence of the shard.  Each width is the size of the returned tensor
    along its padded axis. *)
Theorem C2_padded_widths (self : Feeder) (inputs : list (list Z))
    (targets : list ndarray2) (tokens : list (list float)) (m : Z) (W : nat) :
  1 <= m -> inputs <> [] -> targets <> [] -> tokens <> [] ->
  Forall (fun t : ndarray2 => cols2 t = W) targets ->
  (exists arr w, _prepare_inputs self inputs = Ok (arr, w) /\
                 py_max (map len inputs) = Ok w /\ Z.of_nat (cols2 arr) = w) /\
  (exists arr w, _prepare_targets self targets m = Ok (arr, w) /\
                 (m | w) /\ Z.of_nat (time3 arr) = w) /\
  (exists arr w, _prepare_token_targets self tokens m = Ok (arr, w) /\
                 (m | w) /\ Z.of_nat (cols2 arr) = w).
Proof.
  intros Hm Hi Ht Hk HW. repeat split.
  - destruct (py_max_total (map len inputs)) as [w Hw]; [by destruct inputs|].
    eexists _, w. split; [by apply _prepare_inputs_closed|]. split; [done|].
    simpl. apply py_max_spec in Hw as [Hin _].
    apply list_elem_of_fmap in Hin as (x & -> & _). pose proof (len_nonneg x). lia.
  - destruct (py_max_total (map (fun t : ndarray2 => shape0 t) targets)) as [mx Hmx]; [by destruct targets|].
    destruct (_round_up_spec mx m Hm) as (w & Hw & Hdiv & Hge).
    eexists _, w. split; [eapply _prepare_targets_closed; eauto; lia|].
    split; [done|]. simpl. apply py_max_spec in Hmx as [Hin _].
    apply list_elem_of_fmap in Hin as (x & -> & _).
    pose proof (len_nonneg (rows2 x)). unfold shape0 in *. lia.
  - destruct (py_max_total (map len tokens)) as [mx Hmx]; [by destruct tokens|].
    destruct (_round_up_spec (mx + 1) m Hm) as (w & Hw & Hdiv & Hge).
    eexists _, w. split; [eapply _prepare_token_targets_closed; eauto; lia|].
    split; [done|]. simpl. apply py_max_spec in Hmx as [Hin _].
    apply list_elem_of_fmap in Hin as (x & -> & _). pose proof (len_nonneg x). lia.
Qed.

Lemma C2_padded_widths_witness :
  (exists arr w, _prepare_inputs (Sample.feeder 1 1) [[1; 2; 3]] = Ok (arr, w) /\
                 py_max (map len [[1; 2; 3]]) = Ok w /\ Z.of_nat (cols2 arr) = w) /\
  (exists arr w, _prepare_targets (Sample.feeder 1 1)
                   [Sample.frames 5 0.5%float] 4 = Ok (arr, w) /\
                 (4 | w) /\ Z.of_nat (time3 arr) = w) /\
  (exists arr w, _prepare_token_targets (Sample.feeder 1 1)
                   [[0%float; 0%float]] 4 = Ok (arr, w) /\
                 (4 | w) /\ Z.of_nat (cols2 arr) = w).
Proof.
  apply (C2_padded_widths (Sample.feeder 1 1) [[1; 2; 3]]
           [Sample.frames 5 0.5%float] [[0%float; 0%float]] 4 2);
    [lia | done | done | done | repeat constructor].
Defined.

(** C2, as stated, fails for the input width: a shard holding one token
    sequence of length 3 gets input width 3, which 2 does not divide. *)
Lemma C2_input_width_counterexample :
  _prepare_inputs (Sample.feeder 1 1) [[1; 2; 3]]
  = Ok (Array2 3 [[1; 2; 3]], 3) /\
  1 <= 2 /\ 3 mod 2 <> 0.
Proof. split; [reflexivity|]. split; [lia|]. discriminate. Qed.

(** C3 (as amended): when every example's stop-flag sequence has one
    element fewer than its mel array has frames and [T] is the largest mel
    length of the shard, the stop-flag width is [round_up(T, m)], that is
    [round_up] of the longest stop-flag sequence plus one. *)
Theorem C3_stop_flag_width (self : Feeder) (batch : list Example) (m T : Z) :
  1 <= m ->
  py_max (map mel_length batch) = Ok T ->
  Forall (fun x => len (token_target x) = mel_length x - 1) batch ->
  exists arr w,
    _prepare_token_targets self (map token_target batch) m = Ok (arr, w) /\
    _round_up T m = Ok w /\
    (exists mx, py_max (map len (map token_target batch)) = Ok mx /\
                _round_up (mx + 1) m = Ok w).
Proof.
  intros Hm HT Hlen.
  assert (py_max (map len (map token_target batch)) = Ok (T - 1)) as Hmx.
  { rewrite map_map.
    replace (map (fun x => len (token_target x)) batch)
      with (map (fun y => y + -1) (map mel_length batch)).
    - replace (T - 1) with (T + -1) by lia. by apply py_max_shift.
    - rewrite map_map. apply map_ext_Forall.
      eapply Forall_impl; [exact Hlen|]. simpl. intros; lia. }
  destruct (_round_up_spec T m Hm) as (w & Hw & _ & Hge).
  exists (Array2 (Z.to_nat w)
            (map (pad_to w (_token_pad self)) (map token_target batch))), w.
  replace T with (T - 1 + 1) in Hw by lia.
  split; [eapply _prepare_token_targets_closed; eauto; lia|].
  split; [by replace (T - 1 + 1) with T in Hw by lia|]. eauto.
Qed.

Lemma C3_stop_flag_width_witness :
  exists arr w,
    _prepare_token_targets (Sample.feeder 1 1)
      (map token_target [Sample.short; Sample.long]) 4 = Ok (arr, w) /\
    _round_up 5 4 = Ok w /\
    (exists mx, py_max (map len (map token_target [Sample.short; Sample.long]))
                = Ok mx /\
                _round_up (mx + 1) 4 = Ok w).
Proof.
  apply (C3_stop_flag_width (Sample.feeder 1 1) [Sample.short; Sample.long] 4 5);
    [lia | reflexivity | repeat constructor].
Defined.

(** C3, as stated, fails when [T] is a multiple of [m]: one example with 4
    mel frames (3 stop flags) and [m = 4] gets stop-flag width 4, while
    [round_up(T + 1, m)] is 8. *)
Lemma C3_counterexample :
  let ex := Sample.example [1] 4 0.5%float in
  py_max (map mel_length [ex]) = Ok 4 /\
  len (token_target ex) = mel_length ex - 1 /\
  _prepare_token_targets (Sample.feeder 1 1) [token_target ex] 4
  = Ok (Array2 4 [[0%float; 0%float; 0%float; 1%float]], 4) /\
  _round_up (4 + 1) 4 = Ok 8.
Proof. repeat split. Qed.

(** C7 (as amended): the pad values set by [__init__] are 0 for token ids,
    1.0 for stop flags and, for the targets, minus [max_abs_value] under
    symmetric normalisation and 0.0 otherwise; and in every row of a padded
    tensor the positions before the true length are those of the unpadded
    sequence while all later positions hold the pad value AS THE ARRAY
    STORES IT: for token ids the pad id (one that an int32 holds, as the 0
    of [__init__] is), for stop flags the token pad, and for a target a
    frame filled with the pad value converted to the dtype of the target
    array, which is the pad value itself in a float64 array and the pad
    value rounded to float32 in a float32 array. *)
Theorem C7_padding_values (E : Env) (fn : string) (lines : list string)
    (hp : HParams) (self0 : Feeder) (info : Z * Z) :
  Feeder_init E fn lines hp = Ok (self0, info) ->
  (_pad self0 = 0 /\ _token_pad self0 = 1%float /\
   _target_pad self0
   = if symmetric_mels hp then (- max_abs_value hp)%float else 0%float) /\
  forall self : Feeder,
    (forall inputs arr w i x,
        in_int32 (_pad self) = true ->
        _prepare_inputs self inputs = Ok (arr, w) -> inputs !! i = Some x ->
        exists row, rows2 arr !! i = Some row /\ len row = w /\
                    padded_with (_pad self) x row) /\
    (forall targets m arr w i t,
        _prepare_token_targets self targets m = Ok (arr, w) ->
        targets !! i = Some t ->
        exists row, rows2 arr !! i = Some row /\ len row = w /\
                    padded_with (_token_pad self) t row) /\
    (forall (targets : list ndarray2) m arr w i (t : ndarray2),
        _prepare_targets self targets m = Ok (arr, w) ->
        targets !! i = Some t ->
        exists item,
          items3 arr !! i = Some item /\ len item = w /\
          padded_with
            (replicate (cols2 t)
               match dtype2 t with
               | float64 => _target_pad self
               | float32 => np_float32 (_target_pad self)
               end)
            (rows2 t) item).
Proof.
  intros Hinit. split.
  { apply Feeder_init_pads in Hinit as (? & ? & ? & _). auto. }
  intros self. repeat split.
  - intros inputs arr w i x _ H Hi.
    apply _prepare_inputs_inv in H as [Hmax ->].
    exists (pad_to w (_pad self) x). simpl.
    split; [by rewrite list_lookup_fmap, Hi|].
    split; [|apply padded_with_pad_to].
    apply py_max_spec in Hmax as [_ Hle]. rewrite Forall_map in Hle.
    rewrite Forall_forall in Hle.
    specialize (Hle x ltac:(by eapply list_elem_of_lookup_2)).
    unfold len at 1. rewrite length_pad_to by done.
    pose proof (len_nonneg x). lia.
  - intros targets m arr w i t H Hi.
    apply _prepare_token_targets_inv in H as (mx & _ & _ & Hle & ->).
    exists (pad_to w (_token_pad self) t). simpl.
    split; [by rewrite list_lookup_fmap, Hi|].
    split; [|apply padded_with_pad_to].
    rewrite Forall_forall in Hle.
    specialize (Hle t ltac:(by eapply list_elem_of_lookup_2)).
    unfold len at 1. rewrite length_pad_to by done.
    pose proof (len_nonneg t). lia.
  - intros targets m arr w i t H Hi.
    apply _prepare_targets_inv in H as (mx & _ & _ & Hle & Hitems & _).
    exists (padded_target self w t). rewrite Hitems.
    split; [by rewrite list_lookup_fmap, Hi|].
    split.
    + rewrite Forall_forall in Hle.
      specialize (Hle t ltac:(by eapply list_elem_of_lookup_2)).
      unfold padded_target, pad_frames_to, len.
      rewrite length_app, length_replicate.
      unfold shape0, len in *. lia.
    + unfold padded_target, stored_target_pad, np_cast.
      apply padded_with_pad_frames_to.
Qed.

Lemma C7_padding_values_witness :
  (_pad (Sample.feeder 1 1) = 0 /\ _token_pad (Sample.feeder 1 1) = 1%float /\
   _target_pad (Sample.feeder 1 1) = (- 4)%float) /\
  (exists row, [[1; 2; 3; 0]; [4; 5; 0; 0]] !! 1%nat = Some row /\
               padded_with 0 [4; 5] row).
Proof.
  destruct (C7_padding_values Sample.env Sample.metadata_filename Sample.lines
              (Sample.hparams 1 1) (Sample.feeder 1 1) (1, 5) eq_refl)
    as [Hpads Hrows].
  split; [exact Hpads|].
  destruct (Hrows (Sample.feeder 1 1)) as (Hin & _ & _).
  destruct (Hin [[1; 2; 3; 0]; [4; 5]] (Array2 4 [[1; 2; 3; 0]; [4; 5; 0; 0]])
              4 1%nat [4; 5] eq_refl eq_refl eq_refl)
    as (row & Hrow & _ & Hpad).
  exists row. split; [exact Hrow|exact Hpad].
Defined.

(** C7, as stated, fails on a float32 target: with [max_abs_value] 0.1
    (the binary64 value nearest to it) and symmetric normalisation,
    [__init__] sets the target pad to minus that value, and the frame
    added to a float32 array of one frame holds that pad rounded to
    float32, which is another number. *)
Lemma C7_counterexample :
  let t := NdArray2 float32 (Array2 1 [[0.5%float]]) in
  exists self n total stored,
    Feeder_init Sample.env Sample.metadata_filename Sample.lines
      (Sample.hparams_with_max_abs 0x1.999999999999ap-4%float)
    = Ok (self, (n, total)) /\
    _target_pad self = (- 0x1.999999999999ap-4)%float /\
    _prepare_targets self [t] 2
    = Ok (Array3 2 1 [[[0.5%float]; [stored]]], 2) /\
    stored = np_float32 (- 0x1.999999999999ap-4)%float /\
    stored <> _target_pad self.
Proof.
  intros t. eexists _, _, _, _.
  split; [vm_compute; reflexivity|]. split; [vm_compute; reflexivity|].
  split; [vm_compute; reflexivity|]. split; [vm_compute; reflexivity|].
  intros H. apply (f_equal Prim2SF) in H. vm_compute in H. discriminate H.
Qed.

(** C10: for a non-empty shard and [m >= 1], with the stop-flag pad value
    1.0 set by [__init__], [_prepare_token_targets] returns a tensor whose
    width exceeds the length of every unpadded stop-flag sequence of the
    shard, so that every row, the longest example's included, ends with
    the value 1.0. *)
Theorem C10_stop_row_ends_finished (self : Feeder) (targets : list (list float))
    (m : Z) :
  _token_pad self = 1%float -> targets <> [] -> 1 <= m ->
  exists arr w,
    _prepare_token_targets self targets m = Ok (arr, w) /\
    forall i t, targets !! i = Some t ->
      len t < w /\
      exists row, rows2 arr !! i = Some row /\ len row = w /\
                  last row = Some 1%float.
Proof.
  intros Hpad Hne Hm.
  destruct (py_max_total (map len targets)) as [mx Hmx]; [by destruct targets|].
  destruct (_round_up_spec (mx + 1) m Hm) as (w & Hw & _ & Hge).
  eexists _, w. split; [eapply _prepare_token_targets_closed; eauto; lia|].
  intros i t Hi. simpl.
  apply py_max_spec in Hmx as [_ Hle]. rewrite Forall_map, Forall_forall in Hle.
  specialize (Hle t ltac:(by eapply list_elem_of_lookup_2)). simpl in Hle.
  split; [lia|]. exists (pad_to w (_token_pad self) t).
  split; [by rewrite list_lookup_fmap, Hi|].
  split.
  - unfold len at 1. rewrite length_pad_to by lia. pose proof (len_nonneg t). lia.
  - unfold pad_to. rewrite Hpad.
    destruct (Z.to_nat (w - len t)) as [|k] eqn:Hk; [lia|].
    rewrite replicate_S_end, app_assoc. apply last_snoc.
Qed.

Lemma C10_stop_row_ends_finished_witness :
  exists arr w,
    _prepare_token_targets (Sample.feeder 1 1)
      [[0%float; 0%float; 0%float]; [0%float]] 4 = Ok (arr, w) /\
    forall i t, [[0%float; 0%float; 0%float]; [0%float]] !! i = Some t ->
      len t < w /\
      exists row, rows2 arr !! i = Some row /\ len row = w /\
                  last row = Some 1%float.
Proof.
  apply (C10_stop_row_ends_finished (Sample.feeder 1 1)
           [[0%float; 0%float; 0%float]; [0%float]] 4);
    [reflexivity | done | lia].
Defined.

(** ** Shuffling permutes *)

Lemma swap_Permutation {A} (x : list A) (i j : nat) : swap x i j ≡ₚ x.
Proof.
  unfold swap. destruct (x !! i) as [a|] eqn:Hi; [|done].
  destruct (x !! j) as [b|] eqn:Hj; [|done].
  by apply Permutation_insert_swap.
Qed.

Lemma shuffle_from_Permutation {A} (i : nat) (x : list A) (g : RandomState) :
  (shuffle_from i x g).1 ≡ₚ x.
Proof.
  revert x g. induction i as [|i IH]; intros x g; simpl; [done|].
  rewrite IH. apply swap_Permutation.
Qed.

Lemma np_random_shuffle_Permutation {A} (x : list A) (g : RandomState) :
  (np_random_shuffle x g).1 ≡ₚ x.
Proof. apply shuffle_from_Permutation. Qed.

(** ** Running monadic code *)

Lemma bind_Ok {A B} (m : M A) (k : A -> M B) (w w' : World) (b : B) :
  bind m k w = (Ok b, w') ->
  exists a w1, m w = (Ok a, w1) /\ k a w1 = (Ok b, w').
Proof.
  unfold bind. destruct (m w) as [[a|e] w1]; [eauto|discriminate].
Qed.

Lemma bind_run {A B} (m : M A) (k : A -> M B) (w w1 : World) (a : A) :
  m w = (Ok a, w1) -> bind m k w = k a w1.
Proof. unfold bind. by intros ->. Qed.

Lemma lift_Ok {A} (r : result A) (w w' : World) (a : A) :
  lift r w = (Ok a, w') -> r = Ok a /\ w' = w.
Proof. unfold lift. by intros [= -> ->]. Qed.

Lemma shuffle_M_Ok {A} (x x' : list A) (w w' : World) :
  shuffle_M x w = (Ok x', w') ->
  x' ≡ₚ x /\ x' = (np_random_shuffle x (w_random w)).1 /\
  w_self w' = w_self w /\ w_reads w' = w_reads w /\ w_queue w' = w_queue w.
Proof.
  unfold shuffle_M. pose proof (np_random_shuffle_Permutation x (w_random w)) as P.
  destruct (np_random_shuffle x (w_random w)) as [y g']. simpl in P.
  intros [= <- <-]. auto.
Qed.

Lemma shuffle_M_total {A} (x : list A) (w : World) :
  exists x' w', shuffle_M x w = (Ok x', w').
Proof.
  unfold shuffle_M. destruct (np_random_shuffle x (w_random w)). eauto.
Qed.

Lemma py_getitem_nonneg {A} (l : list A) (i : Z) (x : A) :
  0 <= i -> py_getitem l i = Ok x -> l !! Z.to_nat i = Some x.
Proof.
  intros Hi. unfold py_getitem. destruct (i <? 0) eqn:E; [lia|]. rewrite E.
  destruct (l !! Z.to_nat i); [by intros [= ->]|discriminate].
Qed.

Lemma py_getitem_elem {A} (l : list A) (i : Z) (x : A) :
  py_getitem l i = Ok x -> x ∈ l.
Proof.
  unfold py_getitem. destruct (_ <? 0); [discriminate|].
  destruct (l !! _) eqn:E; [|discriminate]. intros [= ->].
  by eapply list_elem_of_lookup_2.
Qed.

Lemma set_train_id (self : Feeder) :
  set_train self (_train_offset self) (_train_meta self) = self.
Proof. by destruct self. Qed.

Section Loader.

Variable E : Env.

Lemma np_load_Ok (path : string) (w w' : World) (a : ndarray2) :
  np_load E path w = (Ok a, w') ->
  disk E path = Some a /\ w_self w' = w_self w /\
  w_random w' = w_random w /\
  w_reads w' = w_reads w ++ [path] /\ w_queue w' = w_queue w.
Proof.
  unfold np_load. destruct (disk E path); [|discriminate].
  by intros [= <- <-].
Qed.

(** What a successful call of [_get_next_example] has done. *)
Lemma _get_next_example_inv (w w' : World) (ex : Example) :
  _get_next_example E w = (Ok ex, w') ->
  let self := w_self w in
  let hp := _hparams self in
  exists (meta : list string) (text mel_name : string),
    meta ∈ _train_meta self /\
    meta !! 6%nat = Some text /\
    meta !! 7%nat = Some (speaker_id ex) /\
    meta !! 1%nat = Some mel_name /\
    input_data ex = map int32 (text_to_sequence E text (_cleaner_names self)) /\
    disk E (os_path_join (_mel_dir self) mel_name) = Some (mel_target ex) /\
    mel_length ex = shape0 (mel_target ex) /\
    token_target ex
    = replicate (Z.to_nat (shape0 (mel_target ex) - 1)) 0%float /\
    (if predict_linear hp
     then exists linear_name,
         meta !! 2%nat = Some linear_name /\
         disk E (os_path_join (_linear_dir self) linear_name)
         = Some (linear_target ex)
     else np_zeros2 (shape0 (mel_target ex)) (num_freq hp)
          = Ok (linear_target ex)) /\
    (if spk_dependent_embedding hp
     then exists emb,
         spk_embedding ex = Some emb /\
         disk E (os_path_join (_spk_embedding_dir self) mel_name) = Some emb
     else spk_embedding ex = None) /\
    w_reads w'
    = w_reads w ++ [os_path_join (_mel_dir self) mel_name]
        ++ (if spk_dependent_embedding hp
            then [os_path_join (_spk_embedding_dir self) mel_name] else [])
        ++ (if predict_linear hp
            then match meta !! 2%nat with
                 | Some linear_name =>
                     [os_path_join (_linear_dir self) linear_name]
                 | None => []
                 end
            else []) /\
    w_queue w' = w_queue w /\
    (exists offset meta', w_self w' = set_train self offset meta' /\
                          meta' ≡ₚ _train_meta self).
Proof.
  intros H self hp. unfold _get_next_example in H.
  apply bind_Ok in H as (s0 & w0 & H0 & H). unfold get_self in H0; injection H0 as <- <-.
  apply bind_Ok in H as ([] & w1 & Hwrap & H).
  assert (exists offset meta', w_self w1 = set_train self offset meta' /\
            meta' ≡ₚ _train_meta self /\ w_reads w1 = w_reads w /\
            w_queue w1 = w_queue w) as (off1 & meta1 & Hs1 & Hp1 & Hr1 & Hq1).
  { destruct (_ >=? _).
    - apply bind_Ok in Hwrap as (m' & w0' & Hsh & Hput).
      apply shuffle_M_Ok in Hsh as (Hperm & _ & Hs & Hr & Hq).
      unfold put_self in Hput. injection Hput as <-. simpl.
      exists 0, m'. rewrite Hr, Hq. auto.
    - unfold ret in Hwrap; injection Hwrap as <-.
      exists (_train_offset self), (_train_meta self).
      by rewrite set_train_id. }
  clear Hwrap.
  apply bind_Ok in H as (s1 & w1' & H1 & H). unfold get_self in H1; injection H1 as <- <-.
  apply bind_Ok in H as (meta & w2 & Hmeta & H).
  apply lift_Ok in Hmeta as [Hmeta ->].
  apply bind_Ok in H as ([] & w3 & Hput & H).
  unfold put_self in Hput; injection Hput as <-.
  rewrite Hs1 in *. simpl in *.
  apply bind_Ok in H as (text & w4 & Htext & H).
  apply lift_Ok in Htext as [Htext ->].
  apply bind_Ok in H as (spk & w4 & Hspk & H).
  apply lift_Ok in Hspk as [Hspk ->].
  apply bind_Ok in H as (mel_name & w4 & Hname & H).
  apply lift_Ok in Hname as [Hname ->].
  apply bind_Ok in H as (mel & w4 & Hmel & H).
  apply np_load_Ok in Hmel as (Hmel & Hs4 & _ & Hr4 & Hq4). simpl in *.
  apply bind_Ok in H as (emb & w5 & Hemb & H).
  apply bind_Ok in H as (lin & w6 & Hlin & H).
  unfold ret in H; injection H as <- <-. simpl.
  apply py_getitem_elem in Hmeta as Hin. rewrite Hp1 in Hin.
  apply py_getitem_nonneg in Htext; [|lia].
  apply py_getitem_nonneg in Hspk; [|lia].
  apply py_getitem_nonneg in Hname; [|lia].
  exists meta, text, mel_name.
  assert (w_self w5 = w_self w4 /\ w_queue w5 = w_queue w4 /\
          (if spk_dependent_embedding hp
           then exists e, emb = Some e /\
               disk E (os_path_join (_spk_embedding_dir self) mel_name) = Some e
           else emb = None) /\
          w_reads w5 = w_reads w4 ++
            (if spk_dependent_embedding hp
             then [os_path_join (_spk_embedding_dir self) mel_name] else []))
    as (Hs5 & Hq5 & Hemb' & Hr5).
  { fold hp in Hemb. destruct (spk_dependent_embedding hp).
    - apply bind_Ok in Hemb as (n' & w4' & Hn' & Hemb).
      apply lift_Ok in Hn' as [Hn' ->].
      apply py_getitem_nonneg in Hn'; [|lia].
      assert (n' = mel_name) as -> by congruence.
      apply bind_Ok in Hemb as (e & w4' & He & Hret).
      unfold ret in Hret; injection Hret as <- <-.
      apply np_load_Ok in He as (He & ? & _ & ? & ?). eauto 10.
    - unfold ret in Hemb; injection Hemb as <- <-. by rewrite app_nil_r. }
  assert (w_self w6 = w_self w5 /\ w_queue w6 = w_queue w5 /\
          (if predict_linear hp
           then exists linear_name,
               meta !! 2%nat = Some linear_name /\
               disk E (os_path_join (_linear_dir self) linear_name) = Some lin
           else np_zeros2 (shape0 mel) (num_freq hp) = Ok lin) /\
          w_reads w6 = w_reads w5 ++
            (if predict_linear hp
             then match meta !! 2%nat with
                  | Some linear_name =>
                      [os_path_join (_linear_dir self) linear_name]
                  | None => []
                  end
             else []))
    as (Hs6 & Hq6 & Hlin' & Hr6).
  { fold hp in Hlin. destruct (predict_linear hp).
    - apply bind_Ok in Hlin as (n' & w5' & Hn' & Hlin).
      apply lift_Ok in Hn' as [Hn' ->].
      apply py_getitem_nonneg in Hn'; [|lia].
      change (Z.to_nat 2) with 2%nat in Hn'. rewrite Hn'.
      apply np_load_Ok in Hlin as (Hl & ? & _ & ? & ?). eauto 10.
    - apply lift_Ok in Hlin as [Hl ->]. by rewrite app_nil_r. }
  repeat split; try done.
  - rewrite Hr6, Hr5, Hr4, Hr1. by rewrite <- !app_assoc.
  - congruence.
  - rewrite Hs6, Hs5, Hs4. eexists _, _. split; [reflexivity|]. done.
Qed.

(** The record that a successful call has taken, and what the call has
    made of the mel file that the record names. *)
Lemma _get_next_example_record (w w' : World) (ex : Example) :
  _get_next_example E w = (Ok ex, w') ->
  exists (meta : list string) (mel_name : string),
    record_at_hand w = Ok meta /\
    meta !! 1%nat = Some mel_name /\
    disk E (os_path_join (_mel_dir (w_self w)) mel_name) = Some (mel_target ex) /\
    mel_length ex = shape0 (mel_target ex) /\
    token_target ex
    = replicate (Z.to_nat (shape0 (mel_target ex) - 1)) 0%float.
Proof.
  intros H. unfold _get_next_example in H.
  apply bind_Ok in H as (s0 & w0 & H0 & H).
  unfold get_self in H0; injection H0 as <- <-.
  apply bind_Ok in H as ([] & w1 & Hwrap & H).
  apply bind_Ok in H as (s1 & w1' & H1 & H).
  unfold get_self in H1; injection H1 as <- <-.
  apply bind_Ok in H as (meta & w2 & Hmeta & H).
  apply lift_Ok in Hmeta as [Hmeta ->].
  assert (record_at_hand w = Ok meta /\
          _mel_dir (w_self w1) = _mel_dir (w_self w)) as [Hrec Hdir].
  { unfold record_at_hand. cbv zeta. destruct (_ >=? _).
    - apply bind_Ok in Hwrap as (m' & w0' & Hsh & Hput).
      apply shuffle_M_Ok in Hsh as (_ & -> & _).
      unfold put_self in Hput. injection Hput as <-. simpl in *. done.
    - unfold ret in Hwrap; injection Hwrap as <-. done. }
  clear Hwrap.
  apply bind_Ok in H as ([] & w3 & Hput & H).
  unfold put_self in Hput; injection Hput as <-.
  apply bind_Ok in H as (text & w4 & Htext & H).
  apply lift_Ok in Htext as [_ ->].
  apply bind_Ok in H as (spk & w4 & Hspk & H).
  apply lift_Ok in Hspk as [_ ->].
  apply bind_Ok in H as (mel_name & w4 & Hname & H).
  apply lift_Ok in Hname as [Hname ->].
  apply bind_Ok in H as (mel & w4 & Hmel & H).
  apply np_load_Ok in Hmel as (Hmel & _).
  apply bind_Ok in H as (emb & w5 & Hemb & H).
  apply bind_Ok in H as (lin & w6 & Hlin & H).
  unfold ret in H; injection H as <- <-. simpl.
  apply py_getitem_nonneg in Hname; [|lia].
  exists meta, mel_name. rewrite <- Hdir. by repeat split.
Qed.

End Loader.

(** ** Sorting and slicing *)

Section Sorting.

Context {A : Type} (key : A -> Z).

Lemma insert_by_Permutation (x : A) (l : list A) :
  insert_by key x l ≡ₚ x :: l.
Proof.
  induction l as [|y l IH]; simpl; [done|].
  destruct (key x <=? key y); [done|].
  rewrite IH. apply Permutation_swap.
Qed.

Lemma list_sort_Permutation (l : list A) : list_sort key l ≡ₚ l.
Proof.
  induction l as [|x l IH]; simpl; [done|].
  rewrite insert_by_Permutation. by rewrite IH.
Qed.



(** The sort is stable: examples with one key keep their relative order. *)
Lemma insert_by_filter (k : Z) (x : A) (l : list A) :
  filter (fun y => key y = k) (insert_by key x l)
  = filter (fun y => key y = k) (x :: l).
Proof.
  induction l as [|y l IH]; simpl; [done|].
  destruct (key x <=? key y) eqn:Hxy; [done|]. apply Z.leb_gt in Hxy.
  rewrite (filter_cons _ y (insert_by key x l)), IH.
  rewrite !filter_cons. repeat case_decide; try done; lia.
Qed.

Lemma list_sort_stable (k : Z) (l : list A) :
  filter (fun y => key y = k) (list_sort key l) = filter (fun y => key y = k) l.
Proof.
  induction l as [|x l IH]; simpl; [done|].
  rewrite insert_by_filter, !filter_cons. by rewrite IH.
Qed.

End Sorting.



Lemma slice_take {A} (l : list A) (a n : nat) :
  slice l a (a + n) = take n (drop a l).
Proof. unfold slice. f_equal. lia. Qed.

Lemma concat_chunks {A} (n c : nat) (l : list A) :
  concat (chunks n c l) = take (c * n) l.
Proof.
  unfold chunks. induction c as [|c IH]; [done|].
  rewrite seq_S, map_app, concat_app, IH. simpl.
  rewrite app_nil_r, slice_take, take_take_drop. f_equal. lia.
Qed.

Lemma chunks_length {A} (n c : nat) (l : list A) :
  (c * n <= length l)%nat -> Forall (fun b => length b = n) (chunks n c l).
Proof.
  intros Hl. unfold chunks. rewrite Forall_map, Forall_forall.
  intros k Hk%list_elem_of_In%in_seq. simpl.
  rewrite slice_take, length_take, length_drop. nia.
Qed.

Lemma py_range3_exact (c : nat) (n : Z) :
  1 <= n ->
  py_range3 (Z.of_nat c * n) n = Ok (map (fun k => Z.of_nat k * n) (seq 0 c)).
Proof.
  intros Hn. unfold py_range3.
  destruct (n =? 0) eqn:E0; [lia|]. destruct (0 <? n) eqn:E1; [|lia].
  replace (Z.of_nat c * n + n - 1) with (Z.of_nat c * n + (n - 1)) by lia.
  rewrite Z.div_add_l by lia. rewrite Z.div_small by lia.
  by rewrite Z.add_0_r, Nat2Z.id.
Qed.

(** ** What a call leaves unchanged *)


Lemma same_setup_refl (w : World) : same_setup w w.
Proof. by repeat split. Qed.

Lemma same_setup_trans (w1 w2 w3 : World) :
  same_setup w1 w2 -> same_setup w2 w3 -> same_setup w1 w3.
Proof. unfold same_setup. intuition congruence. Qed.

Section Group.

Variable E : Env.

Lemma _get_next_example_same_setup (w w' : World) (ex : Example) :
  _get_next_example E w = (Ok ex, w') -> same_setup w w'.
Proof.
  intros H. apply _get_next_example_inv in H.
  destruct H as (? & ? & ? & H). do 11 destruct H as [_ H].
  destruct H as (Hq & off & meta' & Hs & _).
  unfold same_setup. rewrite Hs. by repeat split.
Qed.

Lemma mapM_M_invariant {X Y} (f : X -> M Y) (l : list X)
    (w w' : World) (ys : list Y) :
  (forall x v v' y, f x v = (Ok y, v') -> same_setup v v') ->
  mapM_M f l w = (Ok ys, w') -> length ys = length l /\ same_setup w w'.
Proof.
  intros Hf. revert w ys. induction l as [|x l IH]; intros w ys H; simpl in H.
  - unfold ret in H. injection H as <- <-. split; [done|apply same_setup_refl].
  - apply bind_Ok in H as (y & w1 & Hy & H).
    apply bind_Ok in H as (ys' & w2 & Hys & H).
    unfold ret in H. injection H as <- <-.
    apply IH in Hys as [Hlen Hs]. split; [simpl; lia|].
    eapply same_setup_trans; [eapply Hf; exact Hy|exact Hs].
Qed.

Lemma read_group_spec (n : Z) (w w' : World) (examples : list Example) :
  read_group E n w = (Ok examples, w') ->
  length examples = Z.to_nat (n * _batches_per_group) /\ same_setup w w'.
Proof.
  unfold read_group. intros H.
  apply mapM_M_invariant in H as [Hlen Hs].
  - split; [|done]. rewrite Hlen. unfold py_range.
    by rewrite length_map, length_seq.
  - intros _ v v' y. apply _get_next_example_same_setup.
Qed.

Lemma bucket_group_spec (n : Z) (c : nat) (examples : list Example) (w : World) :
  1 <= n -> length examples = (c * Z.to_nat n)%nat ->
  exists batches w',
    bucket_group n examples w = (Ok batches, w') /\
    batches ≡ₚ chunks (Z.to_nat n) c (list_sort mel_length examples) /\
    w_self w' = w_self w /\ w_reads w' = w_reads w /\ w_queue w' = w_queue w.
Proof.
  intros Hn Hlen. unfold bucket_group.
  set (sorted := list_sort mel_length examples).
  assert (len sorted = Z.of_nat c * n) as ->.
  { unfold len, sorted. rewrite (list_sort_Permutation mel_length examples).
    rewrite Hlen. lia. }
  rewrite py_range3_exact by done.
  unfold bind at 1, lift. rewrite map_map.
  destruct (shuffle_M_total
              (map (fun k => slice sorted (Z.to_nat (Z.of_nat k * n))
                               (Z.to_nat (Z.of_nat k * n + n))) (seq 0 c)) w)
    as (batches & w' & Hsh).
  exists batches, w'. split; [exact Hsh|].
  apply shuffle_M_Ok in Hsh as (Hperm & _ & ? & ? & ?).
  repeat split; try done. rewrite Hperm. unfold chunks.
  erewrite map_ext; [reflexivity|]. intros k. simpl. f_equal; nia.
Qed.

End Group.

(** C6 (as amended): an example returned by [_get_next_example] is built
    from the record at hand (the one at the offset, or the first of the
    reshuffled pool).  With [T] the number of frames of the array stored
    in the mel file that field 1 of that record names, the example's mel
    array is that array, its length field is [T], and its stop-flag
    sequence holds only 0.0 and has [max (T - 1) 0] elements: [T - 1] of
    them for [T >= 1], none for [T = 0]. *)
Theorem C6_length_and_stop_flags (E : Env) (w w' : World) (ex : Example) :
  _get_next_example E w = (Ok ex, w') ->
  exists (meta : list string) (mel_name : string) (mel : ndarray2),
    record_at_hand w = Ok meta /\
    meta !! 1%nat = Some mel_name /\
    disk E (os_path_join (_mel_dir (w_self w)) mel_name) = Some mel /\
    let T := shape0 mel in
    mel_target ex = mel /\
    mel_length ex = T /\
    Forall (eq 0%float) (token_target ex) /\
    len (token_target ex) = Z.max (T - 1) 0 /\
    (1 <= T -> len (token_target ex) = T - 1) /\
    (T = 0 -> token_target ex = []).
Proof.
  intros H. apply _get_next_example_record in H.
  destruct H as (meta & mel_name & Hrec & H1 & Hdisk & Hlen & Htok).
  exists meta, mel_name, (mel_target ex).
  do 3 (split; [done|]). cbv zeta. split; [done|]. split; [done|].
  rewrite Htok. split; [|split; [|split]].
  - apply Forall_forall. by intros x ->%elem_of_replicate_inv.
  - unfold len. rewrite length_replicate. lia.
  - intros HT. unfold len. rewrite length_replicate. lia.
  - by intros ->.
Qed.

Lemma C6_length_and_stop_flags_witness :
  exists ex w',
    _get_next_example Sample.env (Sample.world 1 1) = (Ok ex, w') /\
    exists (meta : list string) (mel_name : string) (mel : ndarray2),
      record_at_hand (Sample.world 1 1) = Ok meta /\
      meta !! 1%nat = Some mel_name /\
      disk Sample.env (os_path_join (_mel_dir (Sample.feeder 1 1)) mel_name)
      = Some mel /\
      mel_target ex = mel /\
      mel_length ex = shape0 mel /\
      Forall (eq 0%float) (token_target ex) /\
      len (token_target ex) = Z.max (shape0 mel - 1) 0 /\
      (1 <= shape0 mel -> len (token_target ex) = shape0 mel - 1) /\
      (shape0 mel = 0 -> token_target ex = []).
Proof.
  destruct (_get_next_example Sample.env (Sample.world 1 1)) as [r w'] eqn:H.
  destruct r as [ex|e]; [|vm_compute in H; discriminate].
  exists ex, w'. split; [reflexivity|].
  exact (C6_length_and_stop_flags Sample.env (Sample.world 1 1) w' ex H).
Defined.

(** A record whose mel file holds an array without frames: the example has
    length 0 and no stop flag, not [0 - 1] of them. *)
Lemma C6_counterexample :
  let meta := ["a.npy"; "empty.npy"; "x"; "x"; "0"; "x"; "hello"; "3"] in
  let w := set_self (Sample.world 1 1)
             (set_train (Sample.feeder 1 1) 0 [meta]) in
  exists ex w',
    _get_next_example Sample.env w = (Ok ex, w') /\
    record_at_hand w = Ok meta /\
    Sample.files "data/mels/empty.npy" = Some (mel_target ex) /\
    shape0 (mel_target ex) = 0 /\
    mel_length ex = 0 /\
    token_target ex = [] /\
    len (token_target ex) <> 0 - 1.
Proof.
  eexists _, _. split; [vm_compute; reflexivity|].
  do 5 (split; [reflexivity|]). vm_compute. discriminate.
Qed.

Lemma Feeder_init_metadata (E : Env) fn lines hp self n total :
  Feeder_init E fn lines hp = Ok (self, (n, total)) ->
  _train_meta self = map (fun line => py_split "|"%char (py_strip line)) lines /\
  exists frames,
    Forall2 (fun line z =>
               exists field,
                 py_split "|"%char (py_strip line) !! 4%nat = Some field /\
                 py_int E field = Some z) lines frames /\
    total = foldr Z.add 0 frames.
Proof.
  intros H.
  apply Feeder_init_inv in H as (_ & (frames & Hf & ->) & _ & _ & _ & ->).
  simpl. split; [done|]. exists frames. split; [|done].
  apply mapM_result_inv in Hf. apply Forall2_fmap_l in Hf.
  eapply Forall2_impl; [exact Hf|]. simpl.
  intros line z Hz. set (fields := py_split _ _) in *.
  destruct (py_getitem fields 4) as [field|] eqn:H4; [|discriminate].
  apply py_getitem_nonneg in H4; [|lia]. exists field. split; [exact H4|].
  result_simpl. destruct (py_int E field); [|discriminate]. by injection Hz as ->.
Qed.

(** C4 (as amended): the record fields are split at [|]; [__init__] reads
    the frame count at index 4; [_get_next_example] takes the name of the
    mel file from index 1, the name of the linear file from index 2 (when
    linear targets are predicted), the text from index 6 and the speaker
    id from index 7, and the files it opens are exactly these, from the
    mel, embedding and linear directories. *)
Theorem C4_field_positions (E : Env) :
  (forall fn lines hp self n total,
      Feeder_init E fn lines hp = Ok (self, (n, total)) ->
      _train_meta self
      = map (fun line => py_split "|"%char (py_strip line)) lines /\
      exists frames,
        Forall2 (fun line z =>
                   exists field,
                     py_split "|"%char (py_strip line) !! 4%nat = Some field /\
                     py_int E field = Some z) lines frames /\
        total = foldr Z.add 0 frames) /\
  (forall w w' ex,
      _get_next_example E w = (Ok ex, w') ->
      let self := w_self w in
      exists meta text mel_name,
        meta ∈ _train_meta self /\
        meta !! 1%nat = Some mel_name /\
        disk E (os_path_join (_mel_dir self) mel_name) = Some (mel_target ex) /\
        (predict_linear (_hparams self) = true ->
         exists linear_name,
           meta !! 2%nat = Some linear_name /\
           disk E (os_path_join (_linear_dir self) linear_name)
           = Some (linear_target ex)) /\
        meta !! 6%nat = Some text /\
        input_data ex
        = map int32 (text_to_sequence E text (_cleaner_names self)) /\
        meta !! 7%nat = Some (speaker_id ex) /\
        w_reads w'
        = w_reads w ++ [os_path_join (_mel_dir self) mel_name]
            ++ (if spk_dependent_embedding (_hparams self)
                then [os_path_join (_spk_embedding_dir self) mel_name] else [])
            ++ (if predict_linear (_hparams self)
                then match meta !! 2%nat with
                     | Some linear_name =>
                         [os_path_join (_linear_dir self) linear_name]
                     | None => []
                     end
                else [])).
Proof.
  split.
  - intros fn lines hp self n total. apply Feeder_init_metadata.
  - intros w w' ex H self. apply _get_next_example_inv in H.
    destruct H as (meta & text & name & Hin & H6 & H7 & H1 & Hdata & Hmel & _
                   & _ & Hlin & _ & Hreads & _).
    exists meta, text, name. repeat split; try done.
    intros Hp. fold self in Hlin. by rewrite Hp in Hlin.
Qed.

Lemma C4_field_positions_witness :
  (exists frames,
      Forall2 (fun line z =>
                 exists field,
                   py_split "|"%char (py_strip line) !! 4%nat = Some field /\
                   Sample.decimal field = Some z) Sample.lines frames /\
      5 = foldr Z.add 0 frames) /\
  (exists ex w' meta text mel_name,
      _get_next_example Sample.env (Sample.world 1 1) = (Ok ex, w') /\
      meta ∈ [["a.npy"; "b.npy"; "x"; "x"; "5"; "x"; "hello"; "3"]] /\
      meta !! 1%nat = Some mel_name /\
      Sample.files (os_path_join "data/mels" mel_name) = Some (mel_target ex) /\
      meta !! 6%nat = Some text /\
      input_data ex = map int32 (Sample.letters text ["english_cleaners"]) /\
      meta !! 7%nat = Some (speaker_id ex)).
Proof.
  destruct (C4_field_positions Sample.env) as [Hinit Hnext]. split.
  - destruct (Hinit Sample.metadata_filename Sample.lines (Sample.hparams 1 1)
                (Sample.feeder 1 1) 1 5 eq_refl) as [_ Hframes].
    exact Hframes.
  - destruct (_get_next_example Sample.env (Sample.world 1 1)) as [r w'] eqn:Hrun.
    destruct r as [ex|e]; [|vm_compute in Hrun; discriminate].
    destruct (Hnext (Sample.world 1 1) w' ex Hrun)
      as (meta & text & name & Hin & H1 & Hmel & _ & H6 & Hdata & H7 & _).
    exists ex, w', meta, text, name. repeat split; assumption.
Defined.

(** C4, as stated, fails on the line of the specification's own example:
    the mel array is loaded from [b.npy] (index 1) and the linear array
    from [x] (index 2); [a.npy] (index 0), the file the statement names,
    is never opened, although it exists and holds a different array. *)
Lemma C4_counterexample :
  _train_meta (Sample.feeder 1 1)
  = [["a.npy"; "b.npy"; "x"; "x"; "5"; "x"; "hello"; "3"]] /\
  exists ex w',
    _get_next_example Sample.env (Sample.world 1 1) = (Ok ex, w') /\
    w_reads w' = ["data/mels/b.npy"; "data/linear/x"] /\
    Sample.files "data/mels/b.npy" = Some (mel_target ex) /\
    Sample.files "data/linear/x" = Some (linear_target ex) /\
    mel_length ex = 3 /\
    Sample.files "data/mels/a.npy" = Some (Sample.frames 5 0.5%float) /\
    Sample.files "data/linear/b.npy" = Some (Sample.frames 5 2%float).
Proof.
  split; [reflexivity|]. eexists _, _.
  split; [vm_compute; reflexivity|]. repeat split.
Qed.

Lemma _prepare_batch_assertion (E : Env) (batch : list Example) (r : Z) (w : World) :
  tacotron_num_gpus (_hparams (w_self w)) <> 0 ->
  len batch mod tacotron_num_gpus (_hparams (w_self w)) <> 0 ->
  _prepare_batch E batch r w = (Raise AssertionError, w).
Proof.
  intros Hg Hmod. unfold _prepare_batch, bind, get_self, lift, py_mod, raise.
  destruct (_ =? 0) eqn:E0; [lia|].
  destruct (0 =? _) eqn:E1; [lia|]. reflexivity.
Qed.

(** C5 (as amended): [__init__] checks nothing about the batch size and
    the device count: having succeeded for one pair of values it succeeds
    for every other.  When the batch size [n >= 1] is not a multiple of the
    device count [g >= 1], the failure is the AssertionError raised by
    [_prepare_batch] on the first batch of the first pass through the
    production loop, after the whole group of [64 * n] examples has been
    read, sorted and sliced, and before any batch is enqueued. *)
Theorem C5_divisibility_checked_in_loop (E : Env) (fn : string)
    (lines : list string) (hp : HParams) (self : Feeder) (info : Z * Z)
    (w : World) :
  Feeder_init E fn lines hp = Ok (self, info) ->
  w_self w = self ->
  1 <= tacotron_batch_size hp ->
  1 <= tacotron_num_gpus hp ->
  tacotron_batch_size hp mod tacotron_num_gpus hp <> 0 ->
  (forall n g, is_Ok (Feeder_init E fn lines (with_batch_and_gpus hp n g))) /\
  forall examples w1,
    read_group E (tacotron_batch_size hp) w = (Ok examples, w1) ->
    length examples = (64 * Z.to_nat (tacotron_batch_size hp))%nat /\
    exists batch rest w2,
      bucket_group (tacotron_batch_size hp) examples w1
      = (Ok (batch :: rest), w2) /\
      _prepare_batch E batch (outputs_per_step hp) w2
      = (Raise AssertionError, w2) /\
      train_group_iteration E w = (Raise AssertionError, w2) /\
      w_reads w2 = w_reads w1 /\ w_queue w2 = w_queue w.
Proof.
  intros Hinit Hself Hn Hg Hmod. split.
  { intros n g. destruct info as [n0 total].
    pose proof (Feeder_init_inv _ _ _ _ _ _ _ Hinit)
      as (Hdiv & (frames & Hf & ->) & Hfl & Hrec & _).
    unfold Feeder_init. cbv zeta.
    change (hop_size (with_batch_and_gpus hp n g)) with (hop_size hp).
    change (sample_rate (with_batch_and_gpus hp n g)) with (sample_rate hp).
    rewrite Hdiv. unfold mbind at 1, result_bind at 1. rewrite Hf.
    unfold mbind at 1, result_bind at 1. rewrite Hfl.
    unfold mbind at 1, result_bind at 1. rewrite Hrec.
    eexists. reflexivity. }
  intros examples w1 Hread.
  apply Feeder_init_pads in Hinit as (_ & _ & _ & Hhp & _).
  pose proof (read_group_spec E _ _ _ _ Hread) as [Hlen (Hhp1 & _ & _ & _ & Hq1)].
  assert (length examples = (64 * Z.to_nat (tacotron_batch_size hp))%nat) as Hlen'.
  { rewrite Hlen. unfold _batches_per_group. lia. }
  split; [exact Hlen'|].
  destruct (bucket_group_spec (tacotron_batch_size hp) 64 examples w1 Hn Hlen')
    as (batches & w2 & Hrun & Hperm & Hs2 & Hr2 & Hq2).
  assert (length batches = 64%nat) as Hcount.
  { rewrite Hperm. unfold chunks. by rewrite length_map, length_seq. }
  assert (Forall (fun b => length b = Z.to_nat (tacotron_batch_size hp)) batches)
    as Hsizes.
  { rewrite Hperm. apply chunks_length.
    rewrite (list_sort_Permutation mel_length examples). lia. }
  destruct batches as [|batch rest]; [discriminate|].
  apply Forall_cons in Hsizes as [Hsize _].
  assert (_hparams (w_self w2) = hp) as Hhp2 by congruence.
  assert (_prepare_batch E batch (outputs_per_step hp) w2
          = (Raise AssertionError, w2)) as Hfail.
  { apply _prepare_batch_assertion; rewrite Hhp2; [lia|].
    unfold len. rewrite Hsize. rewrite Z2Nat.id by lia. exact Hmod. }
  exists batch, rest, w2. split; [exact Hrun|]. split; [exact Hfail|].
  split; [|split; congruence].
  unfold train_group_iteration. unfold bind at 1, get_self.
  rewrite Hself, Hhp. rewrite (bind_run _ _ _ _ _ Hread).
  rewrite (bind_run _ _ _ _ _ Hrun). simpl.
  unfold bind at 1. unfold bind at 1. by rewrite Hfail.
Qed.

Lemma C5_divisibility_checked_in_loop_witness :
  (forall n g,
      is_Ok (Feeder_init Sample.env Sample.metadata_filename Sample.lines
               (with_batch_and_gpus (Sample.hparams 1 2) n g))) /\
  exists examples w1 w2,
    read_group Sample.env 1 (Sample.world 1 2) = (Ok examples, w1) /\
    length examples = 64%nat /\
    train_group_iteration Sample.env (Sample.world 1 2)
    = (Raise AssertionError, w2) /\
    w_reads w2 = w_reads w1 /\ w_queue w2 = [].
Proof.
  destruct (C5_divisibility_checked_in_loop Sample.env Sample.metadata_filename
              Sample.lines (Sample.hparams 1 2) (Sample.feeder 1 2) (1, 5)
              (Sample.world 1 2) eq_refl eq_refl)
    as [Hinit Hloop]; [simpl; lia | simpl; lia | discriminate |].
  split; [exact Hinit|].
  destruct (read_group Sample.env 1 (Sample.world 1 2)) as [r w1] eqn:Hread.
  destruct r as [examples|e]; [|vm_compute in Hread; discriminate].
  destruct (Hloop examples w1 Hread)
    as (Hlen & batch & rest & w2 & _ & _ & Hiter & Hr & Hq).
  exists examples, w1, w2. repeat split; assumption.
Defined.

(** C5, as stated, fails: with batch size 1 and 2 devices [__init__]
    returns the feeder, and the first pass through the production loop
    opens the 128 feature files of its 64 examples before it ends with the
    AssertionError of [_prepare_batch]. *)
Lemma C5_counterexample :
  tacotron_batch_size (Sample.hparams 1 2) mod
    tacotron_num_gpus (Sample.hparams 1 2) <> 0 /\
  Feeder_init Sample.env Sample.metadata_filename Sample.lines (Sample.hparams 1 2)
  = Ok (Sample.feeder 1 2, (1, 5)) /\
  exists w2,
    train_group_iteration Sample.env (Sample.world 1 2)
    = (Raise AssertionError, w2) /\
    length (w_reads w2) = 128%nat /\
    _train_offset (w_self w2) = 1 /\
    w_queue w2 = [].
Proof.
  split; [discriminate|]. split; [reflexivity|]. eexists.
  split; [vm_compute; reflexivity|]. repeat split.
Qed.

(** ** Gluing along axis 1 *)

Lemma joined_axis1_single {X} (new : list (list X)) :
  joined_axis1 (length new) new [new].
Proof.
  split; [done|]. split; [by repeat constructor|].
  intros r Hr. destruct (lookup_lt_is_Some_2 new r Hr) as [x Hx].
  exists [x]. split; [by repeat constructor|]. simpl. by rewrite app_nil_r.
Qed.

Lemma joined_axis1_snoc {X} (k : nat) (whole new : list (list X))
    (parts : list (list (list X))) :
  joined_axis1 k whole parts -> length new = k ->
  joined_axis1 k (zip_with app whole new) (parts ++ [new]).
Proof.
  intros (Hlen & Hparts & Hrows) Hnew. split; [|split].
  - rewrite length_zip_with. lia.
  - apply Forall_app. split; [done|by repeat constructor].
  - intros r Hr. destruct (Hrows r Hr) as (rs & Hrs & Hw).
    destruct (lookup_lt_is_Some_2 new r ltac:(lia)) as [x Hx].
    exists (rs ++ [x]). split.
    + apply Forall2_app; [done|by repeat constructor].
    + rewrite lookup_zip_with, Hw, Hx. simpl.
      by rewrite concat_app, (app_nil_r x : concat [x] = x).
Qed.

Lemma sum_list_snoc (l : list nat) (x : nat) :
  sum_list (l ++ [x]) = (sum_list l + x)%nat.
Proof. induction l as [|y l IH]; simpl; lia. Qed.

Lemma glued2_step {X} (acc acc' : option (array2 X)) (cur : array2 X)
    (parts : list (array2 X)) :
  glued2 acc parts ->
  concat_or_init np_concatenate2_axis1 acc cur = Ok acc' ->
  glued2 acc' (parts ++ [cur]).
Proof.
  destruct acc as [a|]; simpl.
  - intros (Hne & Hj & Hc). unfold np_concatenate2_axis1.
    destruct (_ =? _)%nat eqn:Hk; [|discriminate]. apply Nat.eqb_eq in Hk.
    intros [= <-]. cbv beta iota delta [glued2 glued3].
    rewrite !map_app, sum_list_with_app. simpl.
    split; [by destruct parts|]. split.
    + rewrite length_zip_with, <- Hk, Nat.min_id.
      by apply joined_axis1_snoc.
    + rewrite Hc. lia.
  - intros -> [= <-]. simpl. split; [done|]. split; [|lia].
    apply joined_axis1_single.
Qed.

Lemma glued3_step {X} (acc acc' : option (array3 X)) (cur : array3 X)
    (parts : list (array3 X)) :
  glued3 acc parts ->
  concat_or_init np_concatenate3_axis1 acc cur = Ok acc' ->
  glued3 acc' (parts ++ [cur]).
Proof.
  destruct acc as [a|]; simpl.
  - intros (Hne & Hj & Hc). unfold np_concatenate3_axis1.
    destruct (_ =? _)%nat eqn:Hk; [|discriminate]. apply Nat.eqb_eq in Hk.
    destruct (_ =? _)%nat; [|discriminate].
    intros [= <-]. cbv beta iota delta [glued2 glued3].
    rewrite !map_app, sum_list_with_app. simpl.
    split; [by destruct parts|]. split.
    + rewrite length_zip_with, <- Hk, Nat.min_id.
      by apply joined_axis1_snoc.
    + rewrite Hc. lia.
  - intros -> [= <-]. simpl. split; [done|]. split; [|lia].
    apply joined_axis1_single.
Qed.

Lemma foldM_invariant {A B} (f : A -> B -> result A)
    (Inv : list B -> A -> Prop) :
  (forall done a x a', Inv done a -> f a x = Ok a' -> Inv (done ++ [x]) a') ->
  forall l done a a', Inv done a -> foldM f a l = Ok a' -> Inv (done ++ l) a'.
Proof.
  intros Hstep l. induction l as [|x l IH]; intros done a a' Hinv H; simpl in H.
  - injection H as <-. by rewrite app_nil_r.
  - result_simpl. destruct (f a x) as [a1|] eqn:Hf; [|discriminate].
    replace (done ++ x :: l) with ((done ++ [x]) ++ l) by by rewrite <- app_assoc.
    eapply IH; [|exact H]. eapply Hstep; eauto.
Qed.

Lemma device_step_invariant (self : Feeder) (batches : list Example)
    (spd m : Z) (done : list Z) (acc : DeviceAcc) (i : Z) (acc' : DeviceAcc) :
  device_loop_invariant self batches spd m done acc ->
  device_step self batches spd m acc i = Ok acc' ->
  device_loop_invariant self batches spd m (done ++ [i]) acc'.
Proof.
  intros (ds & Hds & Hin & Hmel & Htok & Hlin & Hsplit) H.
  unfold device_step in H. result_simpl.
  destruct (_prepare_inputs _ _) as [[ic il]|] eqn:H1; [|discriminate].
  destruct (concat_or_init _ (acc_inputs acc) ic) as [inputs|] eqn:C1;
    [|discriminate].
  destruct (_prepare_targets _ (map mel_target _) _) as [[mc ml]|] eqn:H2;
    [|discriminate].
  destruct (concat_or_init _ (acc_mel_targets acc) mc) as [mels|] eqn:C2;
    [|discriminate].
  destruct (_prepare_token_targets _ _ _) as [[tc tl]|] eqn:H3; [|discriminate].
  destruct (concat_or_init _ (acc_token_targets acc) tc) as [toks|] eqn:C3;
    [|discriminate].
  destruct (_prepare_targets _ (map linear_target _) _) as [[lc ll]|] eqn:H4;
    [|discriminate].
  destruct (concat_or_init _ (acc_linear_targets acc) lc) as [lins|] eqn:C4;
    [|discriminate].
  injection H as <-. simpl.
  exists (ds ++ [{| d_inputs := ic; d_input_max_len := il;
                    d_mel_targets := mc; d_mel_target_max_len := ml;
                    d_token_targets := tc; d_token_target_max_len := tl;
                    d_linear_targets := lc; d_linear_target_max_len := ll |}]).
  rewrite !map_app. simpl. repeat split.
  - apply Forall2_app; [done|]. by repeat constructor.
  - by eapply glued2_step.
  - by eapply glued3_step.
  - by eapply glued2_step.
  - by eapply glued3_step.
  - by rewrite Hsplit.
Qed.

Lemma shard_length (batches : list Example) (spd g i : Z) :
  0 <= spd -> 0 <= i < g -> len batches = spd * g ->
  length (shard batches spd i) = Z.to_nat spd.
Proof.
  intros Hs Hi Hlen. unfold shard, slice.
  rewrite length_take, length_drop. unfold len in Hlen. nia.
Qed.

Lemma concat_shards (batches : list Example) (spd g : Z) :
  0 <= spd -> 0 <= g -> len batches = spd * g ->
  concat (map (shard batches spd) (py_range g)) = batches.
Proof.
  intros Hs Hg Hlen.
  assert (map (shard batches spd) (py_range g)
          = chunks (Z.to_nat spd) (Z.to_nat g) batches) as ->.
  { unfold py_range, chunks. rewrite map_map. apply map_ext. intros k.
    unfold shard. f_equal; nia. }
  rewrite concat_chunks. apply firstn_all2. unfold len in Hlen. nia.
Qed.

Lemma int32_in_range (z : Z) : in_int32 z = true -> int32 z = z.
Proof.
  unfold in_int32, int32. intros [H1 H2]%andb_prop.
  apply Z.leb_le in H1. apply Z.ltb_lt in H2.
  rewrite Z.mod_small by lia. lia.
Qed.

Section Assembler.

Variable E : Env.

(** A stored integer is the given one taken to 32 bits. *)
Lemma np_int32_Ok (z z' : Z) : np_int32 E z = Ok z' -> z' = int32 z.
Proof.
  unfold np_int32. destruct (in_int32 z) eqn:Hin.
  - intros [= <-]. by rewrite int32_in_range.
  - destruct (np_wraps E z); [by intros [= <-]|discriminate].
Qed.

Lemma np_int32_in_range (z : Z) : in_int32 z = true -> np_int32 E z = Ok z.
Proof. unfold np_int32. by intros ->. Qed.

Lemma np_int32_Raise (z : Z) (e : exn) :
  np_int32 E z = Raise e ->
  e = OverflowError /\ in_int32 z = false /\ np_wraps E z = false.
Proof.
  unfold np_int32. destruct (in_int32 z); [discriminate|].
  destruct (np_wraps E z); [discriminate|]. by intros [= <-].
Qed.

Lemma str_to_int32_Ok (s : string) (id : Z) :
  str_to_int32 E s = Ok id -> exists z, py_int E s = Some z /\ id = int32 z.
Proof.
  unfold str_to_int32. destruct (py_int E s) as [z|]; [|discriminate].
  intros H. exists z. split; [done|]. destruct (in_int32 z) eqn:Hin.
  - injection H as <-. by rewrite int32_in_range.
  - destruct (np_wraps_str E z); [by injection H as <-|discriminate].
Qed.

Lemma str_to_int32_Raise (s : string) (e : exn) :
  str_to_int32 E s = Raise e ->
  (e = ValueError /\ py_int E s = None) \/
  (e = OverflowError /\
   exists z, py_int E s = Some z /\ in_int32 z = false /\
             np_wraps_str E z = false).
Proof.
  unfold str_to_int32. destruct (py_int E s) as [z|].
  - destruct (in_int32 z) eqn:Hin; [discriminate|].
    destruct (np_wraps_str E z) eqn:Hw; [discriminate|].
    intros [= <-]. right. split; [done|]. by exists z.
  - intros [= <-]. by left.
Qed.

Lemma str_to_int32_in_range (s : string) (z : Z) :
  py_int E s = Some z -> in_int32 z = true -> str_to_int32 E s = Ok z.
Proof. unfold str_to_int32. by intros -> ->. Qed.

Lemma mapM_np_int32_Ok {X} (f : X -> Z) (l : list X) (k : list Z) :
  mapM (fun x => np_int32 E (f x)) l = Ok k -> k = map (fun x => int32 (f x)) l.
Proof.
  intros H. apply mapM_result_inv in H.
  induction H as [|x y l k Hy _ IH]; [done|].
  simpl. apply np_int32_Ok in Hy. by rewrite Hy, IH.
Qed.

Lemma split_infos_Ok (rows : list (list Z)) (k : list (list Z)) :
  mapM (mapM (np_int32 E)) rows = Ok k -> k = map (map int32) rows.
Proof.
  intros H. apply mapM_result_inv in H.
  induction H as [|x y l k Hy _ IH]; [done|].
  simpl. rewrite IH. f_equal.
  apply (mapM_np_int32_Ok (fun z => z)) in Hy. by rewrite Hy.
Qed.

(** What a successful call of [_prepare_batch] has done. *)
Lemma _prepare_batch_inv (batches : list Example) (m : Z) (w w' : World)
    (b : Batch) :
  _prepare_batch E batches m w = (Ok b, w') ->
  let self := w_self w in
  let g := tacotron_num_gpus (_hparams self) in
  let shuffled := (np_random_shuffle batches (w_random w)).1 in
  g <> 0 /\ len batches mod g = 0 /\
  exists acc,
    foldM (device_step self shuffled (len batches / g) m) acc_init (py_range g)
    = Ok acc /\
    b_inputs b = acc_inputs acc /\
    b_mel_targets b = acc_mel_targets acc /\
    b_token_targets b = acc_token_targets acc /\
    b_linear_targets b = acc_linear_targets acc /\
    b_split_infos b = map (map int32) (acc_split_infos acc) /\
    b_targets_lengths b = map (fun x => int32 (mel_length x)) shuffled /\
    b_input_lengths b = map (fun x => int32 (len (input_data x))) shuffled.
Proof.
  intros H self g shuffled. unfold _prepare_batch in H.
  apply bind_Ok in H as (s0 & w0 & H0 & H).
  unfold get_self in H0. injection H0 as <- <-.
  apply bind_Ok in H as (r & w0 & Hr & H). apply lift_Ok in Hr as [Hr ->].
  unfold py_mod in Hr. fold self g in Hr.
  destruct (g =? 0) eqn:Hg; [discriminate|]. injection Hr as <-.
  fold self g in H. destruct (0 =? _) eqn:Hrem; [|discriminate]. simpl in H.
  split; [lia|]. split; [lia|].
  apply bind_Ok in H as (sh & w1 & Hsh & H).
  apply shuffle_M_Ok in Hsh as (_ & -> & Hs1 & _).
  apply bind_Ok in H as (tl & w2 & Htl & H). apply lift_Ok in Htl as [Htl ->].
  apply bind_Ok in H as (il & w2 & Hil & H). apply lift_Ok in Hil as [Hil ->].
  apply bind_Ok in H as (ids & w2 & Hids & H). apply lift_Ok in Hids as [_ ->].
  apply bind_Ok in H as (acc & w2 & Hacc & H). apply lift_Ok in Hacc as [Hacc ->].
  apply bind_Ok in H as (si & w2 & Hsi & H). apply lift_Ok in Hsi as [Hsi ->].
  unfold ret in H. injection H as <- <-. exists acc. simpl.
  apply mapM_np_int32_Ok in Htl, Hil. apply split_infos_Ok in Hsi.
  by repeat split.
Qed.

(** C1 (as amended): when [_prepare_batch] returns a batch for
    [num_gpus >= 1] devices, each of its four tensors is the
    concatenation ALONG AXIS 1 (the padded time axis) of the padded
    tensors of the shards, in device order: the tensor has one row per
    position in a shard ([size_per_device] rows, not one per example),
    row [r] is row [r] of the first shard's tensor followed by row [r] of
    the second shard's tensor and so on, and its width is the sum of the
    shards' padded widths, which [split_infos] lists per device.  The
    shards are the consecutive slices of the shuffled list of examples. *)
Theorem C1_concatenation_along_axis1 (batches : list Example) (m : Z)
    (w w' : World) (b : Batch) :
  _prepare_batch E batches m w = (Ok b, w') ->
  1 <= tacotron_num_gpus (_hparams (w_self w)) ->
  let self := w_self w in
  let g := tacotron_num_gpus (_hparams self) in
  let size_per_device := len batches / g in
  let shuffled := (np_random_shuffle batches (w_random w)).1 in
  shuffled ≡ₚ batches /\
  len batches = size_per_device * g /\
  concat (map (shard shuffled size_per_device) (py_range g)) = shuffled /\
  exists ds : list DeviceTensors,
    Forall2 (fun i d => prepared_shard self m (shard shuffled size_per_device i) d)
            (py_range g) ds /\
    (exists a, b_inputs b = Some a /\
               joined_axis1 (Z.to_nat size_per_device) (rows2 a)
                            (map (fun d => rows2 (d_inputs d)) ds) /\
               cols2 a = sum_list (map (fun d => cols2 (d_inputs d)) ds)) /\
    (exists a, b_mel_targets b = Some a /\
               joined_axis1 (Z.to_nat size_per_device) (items3 a)
                            (map (fun d => items3 (d_mel_targets d)) ds) /\
               time3 a = sum_list (map (fun d => time3 (d_mel_targets d)) ds)) /\
    (exists a, b_token_targets b = Some a /\
               joined_axis1 (Z.to_nat size_per_device) (rows2 a)
                            (map (fun d => rows2 (d_token_targets d)) ds) /\
               cols2 a = sum_list (map (fun d => cols2 (d_token_targets d)) ds)) /\
    (exists a, b_linear_targets b = Some a /\
               joined_axis1 (Z.to_nat size_per_device) (items3 a)
                            (map (fun d => items3 (d_linear_targets d)) ds) /\
               time3 a
               = sum_list (map (fun d => time3 (d_linear_targets d)) ds)) /\
    b_split_infos b = map (fun d => map int32 (split_info d)) ds.
Proof.
  intros H Hg self g spd shuffled.
  assert (1 <= g) as Hg' by exact Hg.
  apply _prepare_batch_inv in H.
  destruct H as (_ & Hmod & acc & Hfold & Hbi & Hbm & Hbt & Hbl & Hbs & _).
  fold self g shuffled spd in Hmod, Hfold.
  pose proof (np_random_shuffle_Permutation batches (w_random w)) as Hperm.
  fold shuffled in Hperm.
  assert (len batches = spd * g) as Hlen.
  { unfold spd. pose proof (Z.div_mod (len batches) g ltac:(lia)). lia. }
  assert (0 <= spd) as Hspd.
  { unfold spd. apply Z.div_pos; [apply len_nonneg|lia]. }
  assert (len shuffled = spd * g) as Hlen'.
  { unfold len in *. by rewrite Hperm. }
  split; [exact Hperm|]. split; [exact Hlen|].
  split; [apply concat_shards; lia|].
  apply (foldM_invariant _ (device_loop_invariant self shuffled spd m)
           (device_step_invariant self shuffled spd m) _ [] acc_init) in Hfold.
  2:{ exists []. by repeat split. }
  destruct Hfold as (ds & Hds & Gi & Gm & Gt & Gl & Hsplit). simpl in Hds.
  exists ds. split; [exact Hds|].
  assert (exists d0 ds', ds = d0 :: ds' /\
            prepared_shard self m (shard shuffled spd 0) d0)
    as (d0 & ds' & Hd0 & Hp0).
  { unfold py_range in Hds. destruct (Z.to_nat g) as [|k] eqn:Hk; [lia|].
    simpl in Hds. inversion Hds; subst. eauto. }
  assert (length (shard shuffled spd 0) = Z.to_nat spd) as Hsh0
      by (apply (shard_length shuffled spd g 0); [lia | lia | exact Hlen']).
  destruct Hp0 as (P1 & P2 & P3 & P4).
  apply _prepare_inputs_inv in P1 as [_ P1].
  apply _prepare_targets_inv in P2 as (? & _ & _ & _ & P2 & _).
  apply _prepare_token_targets_inv in P3 as (? & _ & _ & _ & P3).
  apply _prepare_targets_inv in P4 as (? & _ & _ & _ & P4 & _).
  rewrite Hbi, Hbm, Hbt, Hbl, Hbs, Hsplit, map_map.
  assert (forall {X} k (whole : list (list X)) p ps,
             joined_axis1 k whole (p :: ps) -> k = length p) as Hk.
  { intros X k whole p ps (_ & Hall & _).
    by apply Forall_cons in Hall as [-> _]. }
  repeat split.
  - destruct (acc_inputs acc) as [a|]; simpl in Gi; [|by subst ds].
    destruct Gi as (_ & Hj & Hc). rewrite map_map in Hj, Hc.
    exists a. split; [done|]. split; [|done].
    replace (Z.to_nat spd) with (length (rows2 a)); [done|].
    rewrite Hd0 in Hj. simpl in Hj. apply Hk in Hj. rewrite Hj, P1. simpl.
    by rewrite !length_map.
  - destruct (acc_mel_targets acc) as [a|]; simpl in Gm; [|by subst ds].
    destruct Gm as (_ & Hj & Hc). rewrite map_map in Hj, Hc.
    exists a. split; [done|]. split; [|done].
    replace (Z.to_nat spd) with (length (items3 a)); [done|].
    rewrite Hd0 in Hj. simpl in Hj. apply Hk in Hj. rewrite Hj, P2.
    by rewrite !length_map.
  - destruct (acc_token_targets acc) as [a|]; simpl in Gt; [|by subst ds].
    destruct Gt as (_ & Hj & Hc). rewrite map_map in Hj, Hc.
    exists a. split; [done|]. split; [|done].
    replace (Z.to_nat spd) with (length (rows2 a)); [done|].
    rewrite Hd0 in Hj. simpl in Hj. apply Hk in Hj. rewrite Hj, P3. simpl.
    by rewrite !length_map.
  - destruct (acc_linear_targets acc) as [a|]; simpl in Gl; [|by subst ds].
    destruct Gl as (_ & Hj & Hc). rewrite map_map in Hj, Hc.
    exists a. split; [done|]. split; [|done].
    replace (Z.to_nat spd) with (length (items3 a)); [done|].
    rewrite Hd0 in Hj. simpl in Hj. apply Hk in Hj. rewrite Hj, P4.
    by rewrite !length_map.
Qed.

End Assembler.

Lemma C1_concatenation_along_axis1_witness :
  exists b w' ds,
    _prepare_batch Sample.env [Sample.short; Sample.long] 2 (Sample.world 2 2)
    = (Ok b, w') /\
    Forall2 (fun i d =>
               prepared_shard (Sample.feeder 2 2) 2
                 (shard (np_random_shuffle [Sample.short; Sample.long]
                           Sample.random).1 (2 / 2) i) d)
            (py_range 2) ds /\
    (exists a, b_inputs b = Some a /\
               joined_axis1 (Z.to_nat (2 / 2)) (rows2 a)
                            (map (fun d => rows2 (d_inputs d)) ds) /\
               cols2 a = sum_list (map (fun d => cols2 (d_inputs d)) ds)) /\
    b_split_infos b = map (fun d => map int32 (split_info d)) ds.
Proof.
  destruct (_prepare_batch Sample.env [Sample.short; Sample.long] 2
              (Sample.world 2 2)) as [r w'] eqn:Hrun.
  destruct r as [b|e]; [|vm_compute in Hrun; discriminate].
  destruct (C1_concatenation_along_axis1 Sample.env
              [Sample.short; Sample.long] 2 (Sample.world 2 2) w' b Hrun)
    as (_ & _ & _ & ds & Hds & Hin & _ & _ & _ & Hsplit); [simpl; lia|].
  exists b, w', ds. repeat split; assumption.
Defined.

(** C1, as stated, fails: two examples on two devices give shards of one
    example each, whose padded input tensors are [[1 2 3]] and [[4 5]];
    the batch's input tensor is the single row [1 2 3 4 5] (axis 1), not
    the two rows that stacking the shards along the batch axis would give. *)
Lemma C1_counterexample :
  exists b w',
    _prepare_batch Sample.env [Sample.short; Sample.long] 2 (Sample.world 2 2)
    = (Ok b, w') /\
    (np_random_shuffle [Sample.short; Sample.long] Sample.random).1
    = [Sample.short; Sample.long] /\
    _prepare_inputs (Sample.feeder 2 2) (map input_data [Sample.short])
    = Ok (Array2 3 [[1; 2; 3]], 3) /\
    _prepare_inputs (Sample.feeder 2 2) (map input_data [Sample.long])
    = Ok (Array2 2 [[4; 5]], 2) /\
    b_inputs b = Some (Array2 5 [[1; 2; 3; 4; 5]]) /\
    stacked_axis0 [[[1; 2; 3]]; [[4; 5]]] = [[1; 2; 3]; [4; 5]] /\
    [[1; 2; 3; 4; 5]] <> stacked_axis0 [[[1; 2; 3]]; [[4; 5]]] /\
    b_input_lengths b = [3; 2] /\
    b_split_infos b = [[3; 4; 4; 4]; [2; 6; 6; 6]].
Proof.
  eexists _, _. split; [vm_compute; reflexivity|].
  repeat split. discriminate.
Qed.

(** ** The worked examples of the specification *)

Example round_up_examples :
  _round_up 5 4 = Ok 8 /\ _round_up 6 4 = Ok 8 /\ _round_up 8 4 = Ok 8 /\
  _round_up 0 4 = Ok 0 /\ _round_up 3 0 = Raise ZeroDivisionError.
Proof. repeat split. Qed.

(** Two examples with 3 and 5 mel frames in one shard, [outputs_per_step]
    4: the mel targets and the stop flags are both padded to 8. *)
Example shard_of_lengths_3_and_5 :
  snd <$> _prepare_targets (Sample.feeder 2 1)
            (map mel_target [Sample.short; Sample.long]) 4 = Ok 8 /\
  snd <$> _prepare_token_targets (Sample.feeder 2 1)
            (map token_target [Sample.short; Sample.long]) 4 = Ok 8 /\
  snd <$> _prepare_inputs (Sample.feeder 2 1)
            (map input_data [Sample.short; Sample.long]) = Ok 3.
Proof. repeat split. Qed.

(** The record [a.npy|b.npy|x|x|5|x|hello|3]: token ids of [hello], speaker
    id 3, and the 3 frames of [mels/b.npy] with their 2 stop flags. *)
Example example_of_the_hello_record :
  (fun ex => (input_data ex, speaker_id ex, mel_length ex, token_target ex))
    <$> fst (_get_next_example Sample.env (Sample.world 1 1))
  = Ok ([7; 4; 11; 11; 14], "3"%string, 3, [0%float; 0%float]).
Proof. reflexivity. Qed.

(** One pass through the production loop with batch size 2 on one device
    enqueues the 64 batches of the group; with the loop stopped by the
    coordinator at its second test, that is the whole run. *)
Example one_group_enqueued :
  let '(r, w) := _enqueue_next_train_group Sample.env [false; true]
                   (Sample.world2 2 1) in
  r = Ok tt /\ Z.of_nat (length (w_queue w)) = queue_capacity /\
  length (w_reads w) = 256%nat.
Proof. vm_compute. repeat split. Qed.

(** * Further properties of the code *)

(** ** Rounding *)

(** X1: [_round_up x m] raises ZeroDivisionError for [m = 0]; for [m > 0]
    it returns the least multiple of [m] that is at least [x]; for
    [m < 0] it returns the greatest multiple of [m] that is at most [x]
    (it rounds down). *)
Theorem round_up_characterised (x m : Z) :
  (m = 0 -> _round_up x m = Raise ZeroDivisionError) /\
  (0 < m -> exists y, _round_up x m = Ok y /\ (m | y) /\ x <= y /\
                      forall z, (m | z) -> x <= z -> y <= z) /\
  (m < 0 -> exists y, _round_up x m = Ok y /\ (m | y) /\ y <= x /\
                      forall z, (m | z) -> z <= x -> z <= y).
Proof.
  unfold _round_up, py_mod. split; [by intros ->|].
  split; intros Hm; (destruct (m =? 0) eqn:Hm0; [lia|]); result_simpl.
  - pose proof (Z.mod_pos_bound x m Hm) as Hr.
    pose proof (Z.div_mod x m ltac:(lia)) as Hd.
    destruct (x mod m =? 0) eqn:Hr0; eexists; (split; [reflexivity|]).
    + repeat split; [exists (x / m); lia|lia|tauto].
    + split; [exists (x / m + 1); lia|]. split; [lia|].
      intros z [q ->] Hz. assert (x / m + 1 <= q); nia.
  - pose proof (Z.mod_neg_bound x m Hm) as Hr.
    pose proof (Z.div_mod x m ltac:(lia)) as Hd.
    destruct (x mod m =? 0) eqn:Hr0; eexists; (split; [reflexivity|]).
    + repeat split; [exists (x / m); lia|lia|tauto].
    + split; [exists (x / m + 1); lia|]. split; [lia|].
      intros z [q ->] Hz. assert (x / m + 1 <= q); nia.
Qed.

(** X2: [_round_down x m] raises ZeroDivisionError for [m = 0]; for
    [m > 0] it returns the greatest multiple of [m] that is at most [x];
    for [m < 0] it returns the least multiple of [m] that is at least [x]
    (it rounds up). *)
Theorem round_down_characterised (x m : Z) :
  (m = 0 -> _round_down x m = Raise ZeroDivisionError) /\
  (0 < m -> exists y, _round_down x m = Ok y /\ (m | y) /\ y <= x /\
                      forall z, (m | z) -> z <= x -> z <= y) /\
  (m < 0 -> exists y, _round_down x m = Ok y /\ (m | y) /\ x <= y /\
                      forall z, (m | z) -> x <= z -> y <= z).
Proof.
  unfold _round_down, py_mod. split; [by intros ->|].
  split; intros Hm; (destruct (m =? 0) eqn:Hm0; [lia|]); result_simpl.
  - pose proof (Z.mod_pos_bound x m Hm) as Hr.
    pose proof (Z.div_mod x m ltac:(lia)) as Hd.
    destruct (x mod m =? 0) eqn:Hr0; eexists; (split; [reflexivity|]).
    + repeat split; [exists (x / m); lia|lia|tauto].
    + split; [exists (x / m); lia|]. split; [lia|].
      intros z [q ->] Hz. assert (q <= x / m); nia.
  - pose proof (Z.mod_neg_bound x m Hm) as Hr.
    pose proof (Z.div_mod x m ltac:(lia)) as Hd.
    destruct (x mod m =? 0) eqn:Hr0; eexists; (split; [reflexivity|]).
    + repeat split; [exists (x / m); lia|lia|tauto].
    + split; [exists (x / m); lia|]. split; [lia|].
      intros z [q ->] Hz. assert (q <= x / m); nia.
Qed.

Lemma round_up_Ok_inv (x m y : Z) :
  _round_up x m = Ok y ->
  m <> 0 /\ y = (if x mod m =? 0 then x else x + m - x mod m) /\ y mod m = 0.
Proof.
  unfold _round_up, py_mod. destruct (m =? 0) eqn:Hm0; [discriminate|].
  result_simpl. intros [= <-]. split; [lia|]. split; [done|].
  pose proof (Z.div_mod x m ltac:(lia)) as Hd.
  destruct (x mod m =? 0) eqn:Hr0; [lia|].
  replace (x + m - x mod m) with ((x / m + 1) * m) by lia.
  apply Z.mod_mul. lia.
Qed.

Lemma round_down_Ok_inv (x m y : Z) :
  _round_down x m = Ok y ->
  m <> 0 /\ y = (if x mod m =? 0 then x else x - x mod m) /\ y mod m = 0.
Proof.
  unfold _round_down, py_mod. destruct (m =? 0) eqn:Hm0; [discriminate|].
  result_simpl. intros [= <-]. split; [lia|]. split; [done|].
  pose proof (Z.div_mod x m ltac:(lia)) as Hd.
  destruct (x mod m =? 0) eqn:Hr0; [lia|].
  replace (x - x mod m) with ((x / m) * m) by lia.
  apply Z.mod_mul. lia.
Qed.

Lemma round_fixed (y m : Z) :
  m <> 0 -> y mod m = 0 -> _round_up y m = Ok y /\ _round_down y m = Ok y.
Proof.
  intros Hm Hy. unfold _round_up, _round_down, py_mod.
  destruct (m =? 0) eqn:Hm0; [lia|]. result_simpl. by rewrite Hy.
Qed.

(** X3: the two roundings are idempotent and fix each other's results, and
    whenever both succeed on [x] their results are equal exactly when [m]
    divides [x] (both are then [x]) and differ by exactly [m] otherwise. *)
Theorem rounding_composes (x m u d : Z) :
  _round_up x m = Ok u -> _round_down x m = Ok d ->
  _round_up u m = Ok u /\ _round_down u m = Ok u /\
  _round_up d m = Ok d /\ _round_down d m = Ok d /\
  (x mod m = 0 -> u = x /\ d = x) /\
  (x mod m <> 0 -> u = d + m).
Proof.
  intros (Hm & Hu & Hu0)%round_up_Ok_inv (_ & Hd & Hd0)%round_down_Ok_inv.
  destruct (round_fixed u m Hm Hu0) as [? ?].
  destruct (round_fixed d m Hm Hd0) as [? ?].
  do 4 (split; [done|]). split; intros Hx.
  - apply Z.eqb_eq in Hx. rewrite Hx in Hu, Hd. by split.
  - apply Z.eqb_neq in Hx. rewrite Hx in Hu, Hd. lia.
Qed.

Lemma rounding_composes_witness :
  _round_up 8 4 = Ok 8 /\ _round_down 8 4 = Ok 8 /\
  _round_up 4 4 = Ok 4 /\ _round_down 4 4 = Ok 4 /\
  (5 mod 4 = 0 -> 8 = 5 /\ 4 = 5) /\
  (5 mod 4 <> 0 -> 8 = 4 + 4).
Proof. exact (rounding_composes 5 4 8 4 eq_refl eq_refl). Defined.

(** ** Padding one sequence *)

Lemma np_pad1_again {A} (x y : list A) (n : Z) (c : A) :
  np_pad1 x (n - len x) c = Ok y -> np_pad1 y (n - len y) c = Ok y.
Proof.
  unfold np_pad1. destruct (n - len x <? 0) eqn:Hn; [discriminate|].
  intros [= <-].
  assert (n - len (x ++ replicate (Z.to_nat (n - len x)) c) = 0) as ->.
  { unfold len in *. rewrite length_app, length_replicate. lia. }
  simpl. by rewrite app_nil_r.
Qed.

(** X4: padding is idempotent: a sequence (token ids, stop flags or target
    frames) that was padded to a length is returned unchanged when it is
    padded to that length again. *)
Theorem padding_idempotent (self : Feeder) :
  (forall x y n, _pad_input self x n = Ok y -> _pad_input self y n = Ok y) /\
  (forall t u n, _pad_token_target self t n = Ok u ->
                 _pad_token_target self u n = Ok u) /\
  (forall t u n, _pad_target self t n = Ok u -> _pad_target self u n = Ok u).
Proof.
  split; [|split].
  - intros x y n. apply np_pad1_again.
  - intros t u n. apply np_pad1_again.
  - intros t u n. unfold _pad_target.
    intros [Hge ->]%np_pad2_inv. unfold np_pad2. simpl.
    match goal with |- context [?a <? 0] => assert (a = 0) as -> end.
    { unfold shape0, len in *. simpl. rewrite length_app, length_replicate. lia. }
    simpl. by rewrite app_nil_r.
Qed.

Lemma padding_idempotent_witness :
  _pad_input (Sample.feeder 1 1) [4; 5] 4 = Ok [4; 5; 0; 0] /\
  _pad_input (Sample.feeder 1 1) [4; 5; 0; 0] 4 = Ok [4; 5; 0; 0].
Proof.
  split; [reflexivity|].
  exact (proj1 (padding_idempotent (Sample.feeder 1 1)) [4; 5] [4; 5; 0; 0] 4
           eq_refl).
Defined.

Lemma np_pad1_cases {A} (x : list A) (n : Z) (c : A) :
  (n < len x -> np_pad1 x (n - len x) c = Raise ValueError) /\
  (len x <= n ->
   exists y, np_pad1 x (n - len x) c = Ok y /\ len y = n /\
             take (length x) y = x /\
             drop (length x) y = replicate (Z.to_nat (n - len x)) c).
Proof.
  unfold np_pad1. split; intros Hn.
  - destruct (_ <? 0) eqn:E; [done|lia].
  - destruct (_ <? 0) eqn:E; [lia|]. eexists. split; [reflexivity|].
    split; [|split].
    + unfold len in *. rewrite length_app, length_replicate. lia.
    + by rewrite take_app_length.
    + by rewrite drop_app_length.
Qed.

(** X5: padding never truncates.  Asked for a length shorter than the
    sequence, each of the three padding methods raises ValueError;
    otherwise the result has exactly the requested length, cutting it at
    the true length gives the sequence back, and what is cut off is the
    pad value repeated: for token ids the pad id (one that an int32
    holds, as the 0 of [__init__] is), for stop flags the token pad, and
    for targets frames filled with the target pad as the array's dtype
    stores it (the pad itself in a float64 array, the pad rounded to
    float32 in a float32 array); the dtype and the feature width of a
    target are kept. *)
Theorem padding_never_truncates (self : Feeder) :
  (forall x n,
      in_int32 (_pad self) = true ->
      (n < len x -> _pad_input self x n = Raise ValueError) /\
      (len x <= n ->
       exists y, _pad_input self x n = Ok y /\ len y = n /\
                 take (length x) y = x /\
                 drop (length x) y
                 = replicate (Z.to_nat (n - len x)) (_pad self))) /\
  (forall t n,
      (n < len t -> _pad_token_target self t n = Raise ValueError) /\
      (len t <= n ->
       exists u, _pad_token_target self t n = Ok u /\ len u = n /\
                 take (length t) u = t /\
                 drop (length t) u
                 = replicate (Z.to_nat (n - len t)) (_token_pad self))) /\
  (forall (t : ndarray2) n,
      (n < shape0 t -> _pad_target self t n = Raise ValueError) /\
      (shape0 t <= n ->
       exists u : ndarray2,
         _pad_target self t n = Ok u /\ shape0 u = n /\
         dtype2 u = dtype2 t /\ cols2 u = cols2 t /\
         take (length (rows2 t)) (rows2 u) = rows2 t /\
         drop (length (rows2 t)) (rows2 u)
         = replicate (Z.to_nat (n - shape0 t))
             (replicate (cols2 t)
                match dtype2 t with
                | float64 => _target_pad self
                | float32 => np_float32 (_target_pad self)
                end))).
Proof.
  split; [|split].
  - intros x n _. apply np_pad1_cases.
  - intros t n. apply np_pad1_cases.
  - intros t n. unfold _pad_target, np_pad2. split; intros Hn.
    + destruct (_ <? 0) eqn:E; [done|lia].
    + destruct (_ <? 0) eqn:E; [lia|]. eexists. split; [reflexivity|].
      unfold shape0, len, np_cast in *. simpl.
      rewrite length_app, length_replicate, take_app_length, drop_app_length.
      repeat split. lia.
Qed.

Lemma padding_never_truncates_witness :
  let t := NdArray2 float32 (Array2 1 [[0.5%float]]) in
  exists u : ndarray2,
    _pad_target (Sample.feeder 1 1) t 2 = Ok u /\ shape0 u = 2 /\
    dtype2 u = float32 /\ cols2 u = 1%nat /\
    take 1 (rows2 u) = [[0.5%float]] /\
    drop 1 (rows2 u)
    = replicate (Z.to_nat (2 - 1))
        (replicate 1 (np_float32 (_target_pad (Sample.feeder 1 1)))).
Proof.
  intros t.
  exact (proj2 (proj2 (proj2 (padding_never_truncates (Sample.feeder 1 1)))
                  t 2) ltac:(vm_compute; discriminate)).
Defined.

(** ** When a shard can be prepared *)

Lemma all_equal_nat_spec (n : nat) (ns : list nat) :
  all_equal_nat n ns = true <-> Forall (eq n) ns.
Proof.
  split; [|apply all_equal_nat_true].
  unfold all_equal_nat. rewrite forallb_forall, Forall_forall.
  intros H k Hk. apply Nat.eqb_eq, H. by apply list_elem_of_In.
Qed.

Lemma np_stack2_uniform {A} (ts : list (array2 A)) (k : nat) :
  ts <> [] -> Forall (fun t => length (rows2 t) = k) ts ->
  (forall W, Forall (fun t => cols2 t = W) ts ->
             np_stack2 ts = Ok (Array3 k W (map rows2 ts))) /\
  ((forall W, ~ Forall (fun t => cols2 t = W) ts) ->
   np_stack2 ts = Raise ValueError).
Proof.
  intros Hne Hk. destruct ts as [|t ts]; [done|].
  apply Forall_cons in Hk as [Ht Hts]. simpl. rewrite all_equal_nat_true.
  2:{ rewrite Forall_map. eapply Forall_impl; [exact Hts|]. simpl. congruence. }
  simpl. split.
  - intros W [HW HWs]%Forall_cons. rewrite all_equal_nat_true.
    + by rewrite Ht, HW.
    + rewrite Forall_map. eapply Forall_impl; [exact HWs|]. simpl. congruence.
  - intros Hno. destruct (all_equal_nat _ _) eqn:Heq; [|done].
    exfalso. apply (Hno (cols2 t)). constructor; [done|].
    apply all_equal_nat_spec in Heq. rewrite Forall_map in Heq.
    eapply Forall_impl; [exact Heq|]. simpl. congruence.
Qed.

Lemma _prepare_targets_stage (self : Feeder) (targets : list ndarray2)
    (m : Z) :
  1 <= m -> targets <> [] ->
  exists w,
    (exists mx, py_max (map (fun t : ndarray2 => shape0 t) targets) = Ok mx /\ _round_up mx m = Ok w) /\
    _prepare_targets self targets m
    = (stacked ← np_stack2
                   (map (fun t : ndarray2 =>
                           Array2 (cols2 t) (padded_target self w t))
                        targets);
       Ok (stacked, w)) /\
    Forall (fun t : ndarray2 => shape0 t <= w) targets.
Proof.
  intros Hm Hne.
  destruct (py_max_total (map (fun t : ndarray2 => shape0 t) targets)) as [mx Hmx]; [by destruct targets|].
  destruct (_round_up_spec mx m Hm) as (w & Hw & _ & Hge).
  exists w. split; [eauto|].
  pose proof Hmx as [_ Hle]%py_max_spec. rewrite Forall_map in Hle.
  assert (Forall (fun t : ndarray2 => shape0 t <= w) targets) as Hle'.
  { eapply Forall_impl; [exact Hle|]. simpl. intros; lia. }
  split; [|done]. unfold _prepare_targets. rewrite Hmx. result_simpl. rewrite Hw.
  rewrite (mapM_result_map _
             (fun t : ndarray2 =>
                NdArray2 (dtype2 t) (Array2 (cols2 t) (padded_target self w t))));
    [by rewrite map_map|].
  intros t Ht. apply _pad_target_closed. rewrite Forall_forall in Hle'.
  by apply Hle'.
Qed.

(** X6: for [outputs_per_step >= 1], [_prepare_inputs] and
    [_prepare_token_targets] succeed exactly on non-empty shards, and
    [_prepare_targets] succeeds exactly on non-empty shards whose arrays
    all have one feature width; in every other case the error is a
    ValueError. *)
Theorem prepare_succeeds_iff (self : Feeder) (m : Z) :
  1 <= m ->
  (forall inputs,
      (inputs <> [] -> is_Ok (_prepare_inputs self inputs)) /\
      (inputs = [] -> _prepare_inputs self inputs = Raise ValueError)) /\
  (forall tokens,
      (tokens <> [] -> is_Ok (_prepare_token_targets self tokens m)) /\
      (tokens = [] -> _prepare_token_targets self tokens m = Raise ValueError)) /\
  (forall targets,
      (targets <> [] /\ (exists W, Forall (fun t : ndarray2 => cols2 t = W) targets) ->
       is_Ok (_prepare_targets self targets m)) /\
      (targets = [] \/ (forall W, ~ Forall (fun t : ndarray2 => cols2 t = W) targets) ->
       _prepare_targets self targets m = Raise ValueError)).
Proof.
  intros Hm. split; [|split].
  - intros inputs. split; [|by intros ->]. intros Hne.
    destruct (py_max_total (map len inputs)) as [w Hw]; [by destruct inputs|].
    eexists. by apply _prepare_inputs_closed.
  - intros tokens. split; [|by intros ->]. intros Hne.
    destruct (py_max_total (map len tokens)) as [mx Hmx]; [by destruct tokens|].
    destruct (_round_up_spec (mx + 1) m Hm) as (w & Hw & _ & Hge).
    eexists. eapply _prepare_token_targets_closed; eauto; lia.
  - intros targets. split.
    + intros (Hne & W & HW).
      destruct (py_max_total (map (fun t : ndarray2 => shape0 t) targets)) as [mx Hmx];
        [by destruct targets|].
      destruct (_round_up_spec mx m Hm) as (w & Hw & _ & Hge).
      eexists. eapply _prepare_targets_closed; eauto; lia.
    + intros [->|Hno]; [done|].
      assert (targets <> []) as Hne.
      { intros ->. apply (Hno 0%nat). constructor. }
      destruct (_prepare_targets_stage self targets m Hm Hne) as (w & _ & -> & Hle).
      set (padded := map _ targets).
      destruct (np_stack2_uniform padded (Z.to_nat w)) as [_ Hbad].
      * by destruct targets.
      * unfold padded. rewrite Forall_map.
        eapply Forall_impl; [exact Hle|]. simpl. intros t Ht.
        unfold padded_target, pad_frames_to.
        rewrite length_app, length_replicate.
        unfold shape0, len in *. lia.
      * rewrite Hbad; [done|]. intros W HW. apply (Hno W).
        unfold padded in HW. by rewrite Forall_map in HW.
Qed.

Lemma prepare_succeeds_iff_witness :
  is_Ok (_prepare_inputs (Sample.feeder 1 1) [[1; 2; 3]]) /\
  _prepare_targets (Sample.feeder 1 1)
    [NdArray2 float32 (Array2 2 [[1%float; 1%float]]);
     NdArray2 float32 (Array2 1 [[1%float]])] 4
  = Raise ValueError.
Proof.
  destruct (prepare_succeeds_iff (Sample.feeder 1 1) 4 ltac:(lia))
    as (Hin & _ & Htg).
  split.
  - apply (proj1 (Hin [[1; 2; 3]])). discriminate.
  - apply (proj2 (Htg [NdArray2 float32 (Array2 2 [[1%float; 1%float]]);
                       NdArray2 float32 (Array2 1 [[1%float]])])).
    right. intros W HW. apply Forall_cons in HW as [H1 HW].
    apply Forall_cons in HW as [H2 _]. simpl in *. congruence.
Defined.

(** ** Errors of the batch assembler *)

Lemma mapM_result_Raise {A B} (f : A -> result B) (l : list A) (e : exn) :
  mapM f l = Raise e -> exists x, x ∈ l /\ f x = Raise e.
Proof.
  induction l as [|x l IH]; intros H; [discriminate|].
  simpl in H. result_simpl. destruct (f x) as [y|e'] eqn:Hx.
  - destruct (mapM f l) as [k|e'']; [discriminate|]. injection H as ->.
    destruct IH as (x' & Hin & Hx'); [done|].
    exists x'. split; [by apply list_elem_of_further|done].
  - injection H as ->. exists x. split; [apply list_elem_of_here|done].
Qed.

Lemma foldM_Raise {A B} (f : A -> B -> result A) (a : A) (l : list B) (e : exn) :
  foldM f a l = Raise e -> exists a' x, x ∈ l /\ f a' x = Raise e.
Proof.
  revert a. induction l as [|x l IH]; intros a H; [discriminate|].
  simpl in H. result_simpl. destruct (f a x) as [a1|e'] eqn:Hx.
  - destruct (IH a1 H) as (a' & x' & Hin & Hx').
    exists a', x'. split; [by apply list_elem_of_further|done].
  - injection H as ->. exists a, x. split; [apply list_elem_of_here|done].
Qed.

Lemma np_pad1_Raise {A} (x : list A) (after : Z) (c : A) (e : exn) :
  np_pad1 x after c = Raise e -> e = ValueError.
Proof. unfold np_pad1. destruct (_ <? 0); [by intros [= <-]|discriminate]. Qed.

Lemma np_stack1_Raise {A} (xs : list (list A)) (e : exn) :
  np_stack1 xs = Raise e -> e = ValueError.
Proof.
  destruct xs as [|x xs]; simpl; [by intros [= <-]|].
  destruct (all_equal_nat _ _); [discriminate|by intros [= <-]].
Qed.

Lemma np_stack2_Raise {A} (ts : list (array2 A)) (e : exn) :
  np_stack2 ts = Raise e -> e = ValueError.
Proof.
  destruct ts as [|t ts]; simpl; [by intros [= <-]|].
  destruct (_ && _); [discriminate|by intros [= <-]].
Qed.

Lemma py_max_Raise (xs : list Z) (e : exn) : py_max xs = Raise e -> e = ValueError.
Proof. destruct xs; [by intros [= <-]|discriminate]. Qed.

Lemma _round_up_Raise (x m : Z) (e : exn) :
  _round_up x m = Raise e -> e = ZeroDivisionError /\ m = 0.
Proof.
  unfold _round_up, py_mod. destruct (m =? 0) eqn:Hm; [|discriminate].
  intros [= <-]. split; [done|lia].
Qed.

Lemma _prepare_inputs_Raise (self : Feeder) (inputs : list (list Z)) (e : exn) :
  _prepare_inputs self inputs = Raise e -> e = ValueError.
Proof.
  unfold _prepare_inputs. result_simpl.
  destruct (py_max _) as [w|e1] eqn:H1; [|intros [= <-]; by eapply py_max_Raise].
  destruct (mapM _ _) as [p|e2] eqn:H2.
  - destruct (np_stack1 p) as [a|e3] eqn:H3; [discriminate|].
    intros [= <-]. by eapply np_stack1_Raise.
  - intros [= <-]. apply mapM_result_Raise in H2 as (x & _ & Hx).
    by eapply np_pad1_Raise.
Qed.

Lemma _prepare_token_targets_Raise (self : Feeder) (targets : list (list float))
    (m : Z) (e : exn) :
  _prepare_token_targets self targets m = Raise e ->
  e = ValueError \/ (e = ZeroDivisionError /\ m = 0).
Proof.
  unfold _prepare_token_targets. result_simpl.
  destruct (py_max _) as [mx|e1] eqn:H1;
    [|intros [= <-]; left; by eapply py_max_Raise].
  destruct (_round_up _ m) as [w|e0] eqn:H0;
    [|intros [= <-]; right; by eapply _round_up_Raise].
  destruct (mapM _ _) as [p|e2] eqn:H2.
  - destruct (np_stack1 p) as [a|e3] eqn:H3; [discriminate|].
    intros [= <-]. left. by eapply np_stack1_Raise.
  - intros [= <-]. apply mapM_result_Raise in H2 as (x & _ & Hx).
    left. by eapply np_pad1_Raise.
Qed.

Lemma _prepare_targets_Raise (self : Feeder) (targets : list ndarray2)
    (m : Z) (e : exn) :
  _prepare_targets self targets m = Raise e ->
  e = ValueError \/ (e = ZeroDivisionError /\ m = 0).
Proof.
  unfold _prepare_targets. result_simpl.
  destruct (py_max _) as [mx|e1] eqn:H1;
    [|intros [= <-]; left; by eapply py_max_Raise].
  destruct (_round_up _ m) as [w|e0] eqn:H0;
    [|intros [= <-]; right; by eapply _round_up_Raise].
  destruct (mapM _ _) as [p|e2] eqn:H2.
  - destruct (np_stack2 (map array_of p)) as [a|e3] eqn:H3; [discriminate|].
    intros [= <-]. left. by eapply np_stack2_Raise.
  - intros [= <-]. apply mapM_result_Raise in H2 as (x & _ & Hx).
    left. unfold _pad_target, np_pad2 in Hx.
    destruct (_ <? 0); [by injection Hx as <-|discriminate].
Qed.

Lemma concat_or_init2_Raise {X} (acc : option (array2 X)) (cur : array2 X) (e : exn) :
  concat_or_init np_concatenate2_axis1 acc cur = Raise e -> e = ValueError.
Proof.
  destruct acc as [a|]; simpl; [|discriminate].
  unfold np_concatenate2_axis1. destruct (_ =? _)%nat; [discriminate|].
  by intros [= <-].
Qed.

Lemma concat_or_init3_Raise {X} (acc : option (array3 X)) (cur : array3 X) (e : exn) :
  concat_or_init np_concatenate3_axis1 acc cur = Raise e -> e = ValueError.
Proof.
  destruct acc as [a|]; simpl; [|discriminate].
  unfold np_concatenate3_axis1. destruct (_ && _); [discriminate|].
  by intros [= <-].
Qed.

Lemma device_step_Raise (self : Feeder) (batches : list Example) (spd m : Z)
    (acc : DeviceAcc) (i : Z) (e : exn) :
  device_step self batches spd m acc i = Raise e ->
  e = ValueError \/ (e = ZeroDivisionError /\ m = 0).
Proof.
  unfold device_step. result_simpl.
  destruct (_prepare_inputs _ _) as [[ic il]|e1] eqn:H1;
    [|intros [= <-]; left; by eapply _prepare_inputs_Raise].
  destruct (concat_or_init _ (acc_inputs acc) ic) as [inputs|e1] eqn:C1;
    [|intros [= <-]; left; by eapply concat_or_init2_Raise].
  destruct (_prepare_targets _ (map mel_target _) _) as [[mc ml]|e1] eqn:H2;
    [|intros [= <-]; by eapply _prepare_targets_Raise].
  destruct (concat_or_init _ (acc_mel_targets acc) mc) as [mels|e1] eqn:C2;
    [|intros [= <-]; left; by eapply concat_or_init3_Raise].
  destruct (_prepare_token_targets _ _ _) as [[tc tl]|e1] eqn:H3;
    [|intros [= <-]; by eapply _prepare_token_targets_Raise].
  destruct (concat_or_init _ (acc_token_targets acc) tc) as [toks|e1] eqn:C3;
    [|intros [= <-]; left; by eapply concat_or_init2_Raise].
  destruct (_prepare_targets _ (map linear_target _) _) as [[lc ll]|e1] eqn:H4;
    [|intros [= <-]; by eapply _prepare_targets_Raise].
  destruct (concat_or_init _ (acc_linear_targets acc) lc) as [lins|e1] eqn:C4;
    [discriminate|intros [= <-]; left; by eapply concat_or_init3_Raise].
Qed.

Section AssemblerErrors.

Variable E : Env.


(** X8: the errors of [_prepare_batch] when speaker embeddings are off
    and the pad id fits int32 (as the 0 of [__init__] does).
    It raises ZeroDivisionError only when the device count or
    [outputs_per_step] is 0; AssertionError exactly when the device count
    is not 0 and does not divide the number of examples; ValueError (an
    empty shard, arrays whose shapes do not fit, a speaker id that is no
    integer) only after the divisibility test has passed; OverflowError
    only after that test, and only when an integer to be stored as int32
    is outside the int32 range and numpy does not wrap it: the number of
    frames or of token ids of an example, its speaker id, or a padded
    width of [split_infos].  It raises nothing else. *)
Theorem prepare_batch_errors (batches : list Example) (m : Z) (w w' : World)
    (e : exn) :
  spk_dependent_embedding (_hparams (w_self w)) = false ->
  in_int32 (_pad (w_self w)) = true ->
  _prepare_batch E batches m w = (Raise e, w') ->
  let self := w_self w in
  let g := tacotron_num_gpus (_hparams self) in
  let shuffled := (np_random_shuffle batches (w_random w)).1 in
  (e = ZeroDivisionError /\ (g = 0 \/ m = 0)) \/
  (e = AssertionError /\ g <> 0 /\ len batches mod g <> 0) \/
  (e = ValueError /\ g <> 0 /\ len batches mod g = 0) \/
  (e = OverflowError /\ g <> 0 /\ len batches mod g = 0 /\
   ((exists x, x ∈ batches /\
       ((in_int32 (mel_length x) = false /\
         np_wraps E (mel_length x) = false) \/
        (in_int32 (len (input_data x)) = false /\
         np_wraps E (len (input_data x)) = false) \/
        (exists z, py_int E (speaker_id x) = Some z /\
                   in_int32 z = false /\ np_wraps_str E z = false))) \/
    (exists acc row width,
       foldM (device_step self shuffled (len batches / g) m) acc_init
             (py_range g) = Ok acc /\
       row ∈ acc_split_infos acc /\ width ∈ row /\
       in_int32 width = false /\ np_wraps E width = false))).
Proof.
  intros _ _ H self g shuffled.
  pose proof (np_random_shuffle_Permutation batches (w_random w)) as Hperm.
  fold shuffled in Hperm.
  unfold _prepare_batch, bind, get_self, lift, raise, shuffle_M, ret, py_mod in H.
  fold self g in H.
  destruct (g =? 0) eqn:Hg; [injection H as <- <-; left; split; [done|lia]|].
  destruct (0 =? _) eqn:Hr; simpl in H;
    [|injection H as <- <-; right; left; repeat split; lia].
  assert (g <> 0 /\ len batches mod g = 0) as [Hg0 Hmod] by lia.
  destruct (np_random_shuffle batches (w_random w)) as [sh g'].
  simpl in shuffled. subst shuffled.
  destruct (mapM (fun x => np_int32 E (mel_length x)) sh) as [tl|e1] eqn:Htl.
  2:{ injection H as <- <-. apply mapM_result_Raise in Htl as (x & Hin & Hx).
      apply np_int32_Raise in Hx as (-> & Hx & Hx').
      do 3 right. do 3 (split; [done|]). left. exists x.
      split; [by rewrite <- Hperm|]. by left. }
  destruct (mapM (fun x => np_int32 E (len (input_data x))) sh)
    as [il|e1] eqn:Hil.
  2:{ injection H as <- <-. apply mapM_result_Raise in Hil as (x & Hin & Hx).
      apply np_int32_Raise in Hx as (-> & Hx & Hx').
      do 3 right. do 3 (split; [done|]). left. exists x.
      split; [by rewrite <- Hperm|]. right. by left. }
  destruct (mapM (fun x => str_to_int32 E (speaker_id x)) sh)
    as [ids|e1] eqn:Hids.
  2:{ injection H as <- <-. apply mapM_result_Raise in Hids as (x & Hin & Hx).
      apply str_to_int32_Raise in Hx as [[-> _]|[-> Hx]].
      - right; right; left. by repeat split.
      - do 3 right. do 3 (split; [done|]). left. exists x.
        split; [by rewrite <- Hperm|]. right. by right. }
  destruct (foldM _ _ _) as [acc|e2] eqn:Hfold.
  2:{ injection H as <- <-.
      apply foldM_Raise in Hfold as (a & i & _ & Hstep).
      apply device_step_Raise in Hstep as [->|[-> ->]].
      - right; right; left. by repeat split.
      - left. auto. }
  destruct (mapM _ (acc_split_infos acc)) as [si|e3] eqn:Hsi; [discriminate|].
  injection H as <- <-.
  apply mapM_result_Raise in Hsi as (row & Hrow & Hx).
  apply mapM_result_Raise in Hx as (width & Hwidth & Hx).
  apply np_int32_Raise in Hx as (-> & Hx & Hx').
  do 3 right. do 3 (split; [done|]). right. by exists acc, row, width.
Qed.

End AssemblerErrors.

Lemma prepare_batch_errors_witness :
  exists w',
    _prepare_batch Sample.env [Sample.short] 2 (Sample.world 1 2)
    = (Raise AssertionError, w') /\
    len [Sample.short] mod 2 <> 0.
Proof.
  eexists. split; [vm_compute; reflexivity|].
  destruct (prepare_batch_errors Sample.env [Sample.short] 2
              (Sample.world 1 2) _ AssertionError eq_refl eq_refl eq_refl)
    as [[H _]|[(_ & _ & H)|[[H _]|[H _]]]]; [discriminate H|exact H|discriminate H..].
Defined.

(** ** The metadata of a batch and the rows of its tensors *)

Lemma joined_axis1_row {X} (k : nat) (whole : list (list X))
    (parts : list (list (list X))) (r : nat) :
  joined_axis1 k whole parts -> (r < k)%nat -> row_is_joined whole parts r.
Proof.
  intros (_ & _ & Hrows) Hr. destruct (Hrows r Hr) as (rs & Hrs & Hw).
  unfold row_is_joined. rewrite Hw. do 2 f_equal.
  clear Hw Hrows. induction Hrs as [|p x ps xs Hp _ IH]; simpl; [done|].
  rewrite Hp. simpl. by rewrite IH.
Qed.

Lemma shard_lookup (batches : list Example) (spd i : Z) (r : nat) :
  0 <= spd -> 0 <= i -> (r < Z.to_nat spd)%nat ->
  shard batches spd i !! r = batches !! (Z.to_nat i * Z.to_nat spd + r)%nat.
Proof.
  intros Hs Hi Hr. unfold shard, slice.
  rewrite !Z2Nat.inj_mul, Z2Nat.inj_add by lia.
  change (Z.to_nat 1) with 1%nat.
  replace (Z.to_nat spd * (Z.to_nat i + 1) - Z.to_nat spd * Z.to_nat i)%nat
    with (Z.to_nat spd) by lia.
  rewrite lookup_take, lookup_drop, (Nat.mul_comm (Z.to_nat spd)).
  case_decide; [done|lia].
Qed.

Lemma prepared_shard_rows (self : Feeder) (m : Z) (batch : list Example)
    (d : DeviceTensors) (r : nat) (ex : Example) :
  prepared_shard self m batch d -> batch !! r = Some ex ->
  rows_of_example self ex d r.
Proof.
  intros (P1 & P2 & P3 & P4) Hr.
  apply _prepare_inputs_inv in P1 as [_ P1].
  apply _prepare_targets_inv in P2 as (? & _ & _ & _ & P2 & _).
  apply _prepare_token_targets_inv in P3 as (? & _ & _ & _ & P3).
  apply _prepare_targets_inv in P4 as (? & _ & _ & _ & P4 & _).
  unfold rows_of_example. rewrite P1, P2, P3, P4. simpl.
  rewrite !list_lookup_fmap, Hr. done.
Qed.

Section AssemblerRows.

Variable E : Env.

Lemma _prepare_batch_inv_meta (batches : list Example) (m : Z) (w w' : World)
    (b : Batch) :
  _prepare_batch E batches m w = (Ok b, w') ->
  let shuffled := (np_random_shuffle batches (w_random w)).1 in
  Forall2 (fun x id => exists z, py_int E (speaker_id x) = Some z /\ id = int32 z)
          shuffled (b_speaker_ids b) /\
  b_spk_embeddings b
  = (if spk_dependent_embedding (_hparams (w_self w))
     then Some (map spk_embedding shuffled) else None).
Proof.
  intros H shuffled. unfold _prepare_batch in H.
  apply bind_Ok in H as (s0 & w0 & H0 & H).
  unfold get_self in H0. injection H0 as <- <-.
  apply bind_Ok in H as (r & w0 & Hr & H). apply lift_Ok in Hr as [Hr ->].
  destruct (negb _); [discriminate|].
  apply bind_Ok in H as (sh & w1 & Hsh & H).
  apply shuffle_M_Ok in Hsh as (_ & -> & Hs1 & _).
  apply bind_Ok in H as (tl & w2 & Htl & H). apply lift_Ok in Htl as [_ ->].
  apply bind_Ok in H as (il & w2 & Hil & H). apply lift_Ok in Hil as [_ ->].
  apply bind_Ok in H as (ids & w2 & Hids & H). apply lift_Ok in Hids as [Hids ->].
  apply bind_Ok in H as (acc & w2 & Hacc & H). apply lift_Ok in Hacc as [Hacc ->].
  apply bind_Ok in H as (si & w2 & Hsi & H). apply lift_Ok in Hsi as [_ ->].
  unfold ret in H. injection H as <- <-. simpl. split; [|done].
  apply mapM_result_inv in Hids. eapply Forall2_impl; [exact Hids|].
  simpl. intros x id Hx. by apply str_to_int32_Ok.
Qed.

(** X9: the per-example metadata of a batch.  On success the lists of
    target lengths, input lengths and speaker ids (and of speaker
    embeddings, when enabled) have one entry per example and are all in
    the order of one and the same permutation of the examples given, each
    entry computed from the example at that position; [split_infos] has
    one row of four widths per device. *)
Theorem prepare_batch_metadata (batches : list Example) (m : Z) (w w' : World)
    (b : Batch) :
  _prepare_batch E batches m w = (Ok b, w') ->
  exists shuffled,
    shuffled ≡ₚ batches /\
    b_targets_lengths b = map (fun x => int32 (mel_length x)) shuffled /\
    b_input_lengths b = map (fun x => int32 (len (input_data x))) shuffled /\
    Forall2 (fun x id => exists z, py_int E (speaker_id x) = Some z /\
                                   id = int32 z)
            shuffled (b_speaker_ids b) /\
    b_spk_embeddings b
    = (if spk_dependent_embedding (_hparams (w_self w))
       then Some (map spk_embedding shuffled) else None) /\
    length (b_targets_lengths b) = length batches /\
    length (b_input_lengths b) = length batches /\
    length (b_speaker_ids b) = length batches /\
    length (b_split_infos b)
    = Z.to_nat (tacotron_num_gpus (_hparams (w_self w))) /\
    Forall (fun row => length row = 4%nat) (b_split_infos b).
Proof.
  intros H. pose proof (_prepare_batch_inv_meta _ _ _ _ _ H) as [Hids Hemb].
  apply _prepare_batch_inv in H.
  destruct H as (_ & _ & acc & Hfold & _ & _ & _ & _ & Hsplit & Htl & Hil).
  set (shuffled := (np_random_shuffle batches (w_random w)).1) in *.
  pose proof (np_random_shuffle_Permutation batches (w_random w)) as Hperm.
  fold shuffled in Hperm.
  exists shuffled. do 5 (split; [done|]).
  rewrite Htl, Hil, !length_map, <- (Forall2_length _ _ _ Hids), Hperm.
  do 3 (split; [done|]).
  apply (foldM_invariant _ (device_loop_invariant _ shuffled _ m)
           (device_step_invariant _ shuffled _ m) _ [] acc_init) in Hfold.
  2:{ exists []. by repeat split. }
  destruct Hfold as (ds & Hds & _ & _ & _ & _ & Hs). simpl in Hds.
  rewrite Hsplit, Hs, !length_map, <- (Forall2_length _ _ _ Hds).
  split; [unfold py_range; by rewrite length_map, length_seq|].
  rewrite !Forall_map. by apply Forall_forall.
Qed.

(** X10: which example a row describes.  Let [shuffled] be the examples
    given, in the order in which [np.random.shuffle] leaves them in the
    state of the call.  On success with [g >= 1] devices there are
    per-device tensors [ds], one per device, device [i] holding what the
    three [_prepare_*] methods return for the [i]-th slice of
    [size_per_device] examples of [shuffled], such that row [r] of each of
    the four batch tensors is row [r] of the devices' tensors one after
    the other, and row [r] of device [i] holds the padded sequences of the
    example at index [i * size_per_device + r] of [shuffled], whose
    lengths stand at that index of [input_lengths] and
    [targets_lengths]. *)
Theorem prepare_batch_rows (batches : list Example) (m : Z) (w w' : World)
    (b : Batch) :
  _prepare_batch E batches m w = (Ok b, w') ->
  1 <= tacotron_num_gpus (_hparams (w_self w)) ->
  let self := w_self w in
  let g := tacotron_num_gpus (_hparams self) in
  let k := Z.to_nat (len batches / g) in
  let shuffled := (np_random_shuffle batches (w_random w)).1 in
  shuffled ≡ₚ batches /\
  exists (ds : list DeviceTensors) (a_in : array2 Z) (a_mel : array3 float)
         (a_tok : array2 float) (a_lin : array3 float),
    length ds = Z.to_nat g /\
    (forall i d, ds !! i = Some d ->
       prepared_shard self m (shard shuffled (len batches / g) (Z.of_nat i)) d) /\
    b_inputs b = Some a_in /\ b_mel_targets b = Some a_mel /\
    b_token_targets b = Some a_tok /\ b_linear_targets b = Some a_lin /\
    b_split_infos b = map (fun d => map int32 (split_info d)) ds /\
    (forall r, (r < k)%nat ->
       row_is_joined (rows2 a_in) (map (fun d => rows2 (d_inputs d)) ds) r /\
       row_is_joined (items3 a_mel) (map (fun d => items3 (d_mel_targets d)) ds) r /\
       row_is_joined (rows2 a_tok) (map (fun d => rows2 (d_token_targets d)) ds) r /\
       row_is_joined (items3 a_lin)
                     (map (fun d => items3 (d_linear_targets d)) ds) r) /\
    (forall i r d, ds !! i = Some d -> (r < k)%nat ->
       exists ex,
         shuffled !! (i * k + r)%nat = Some ex /\
         rows_of_example self ex d r /\
         b_input_lengths b !! (i * k + r)%nat
         = Some (int32 (len (input_data ex))) /\
         b_targets_lengths b !! (i * k + r)%nat = Some (int32 (mel_length ex))).
Proof.
  intros H Hg self g k shuffled. assert (1 <= g) as Hg' by exact Hg.
  apply _prepare_batch_inv in H.
  destruct H as (_ & Hmod & acc & Hfold & Hbi & Hbm & Hbt & Hbl & Hbs & Htl & Hil).
  fold shuffled in Hfold, Htl, Hil.
  fold self g in Hmod, Hfold. set (spd := len batches / g) in *.
  pose proof (np_random_shuffle_Permutation batches (w_random w)) as Hperm.
  fold shuffled in Hperm. split; [exact Hperm|].
  assert (len batches = spd * g) as Hlen.
  { unfold spd. pose proof (Z.div_mod (len batches) g ltac:(lia)). lia. }
  assert (0 <= spd) as Hspd.
  { unfold spd. apply Z.div_pos; [apply len_nonneg|lia]. }
  assert (len shuffled = spd * g) as Hlen'.
  { unfold len in *. by rewrite Hperm. }
  apply (foldM_invariant _ (device_loop_invariant self shuffled spd m)
           (device_step_invariant self shuffled spd m) _ [] acc_init) in Hfold.
  2:{ exists []. by repeat split. }
  destruct Hfold as (ds & Hds & Gi & Gm & Gt & Gl & Hsplit). simpl in Hds.
  assert (length ds = Z.to_nat g) as Hcount.
  { rewrite <- (Forall2_length _ _ _ Hds). unfold py_range.
    by rewrite length_map, length_seq. }
  assert (forall i d, ds !! i = Some d ->
            prepared_shard self m (shard shuffled spd (Z.of_nat i)) d /\
            (i < Z.to_nat g)%nat) as Hshard.
  { intros i d Hd. pose proof (lookup_lt_Some _ _ _ Hd) as Hi.
    split; [|lia].
    destruct (Forall2_lookup_r _ _ _ _ _ Hds Hd) as (j & Hj & Hp).
    unfold py_range in Hj. rewrite list_lookup_fmap in Hj.
    destruct (seq 0 (Z.to_nat g) !! i) as [i'|] eqn:Hseq; [|done].
    apply lookup_seq in Hseq as [-> _]. simpl in Hj. by injection Hj as <-. }
  assert (ds <> []) as Hne by (intros ->; simpl in Hcount; lia).
  destruct ds as [|d0 ds']; [done|].
  destruct (Hshard 0%nat d0 eq_refl) as [Hp0 _].
  assert (length (shard shuffled spd 0) = k) as Hsh0.
  { unfold k. fold spd.
    apply (shard_length shuffled spd g 0); [lia | lia | exact Hlen']. }
  destruct Hp0 as (P1 & P2 & P3 & P4).
  apply _prepare_inputs_inv in P1 as [_ P1].
  apply _prepare_targets_inv in P2 as (? & _ & _ & _ & P2 & _).
  apply _prepare_token_targets_inv in P3 as (? & _ & _ & _ & P3).
  apply _prepare_targets_inv in P4 as (? & _ & _ & _ & P4 & _).
  assert (forall {X} n (whole : list (list X)) p ps,
             joined_axis1 n whole (p :: ps) -> n = length p) as Hk.
  { intros X n whole p ps (_ & Hall & _).
    by apply Forall_cons in Hall as [-> _]. }
  destruct (acc_inputs acc) as [a_in|]; simpl in Gi; [|done].
  destruct (acc_mel_targets acc) as [a_mel|]; simpl in Gm; [|done].
  destruct (acc_token_targets acc) as [a_tok|]; simpl in Gt; [|done].
  destruct (acc_linear_targets acc) as [a_lin|]; simpl in Gl; [|done].
  destruct Gi as (_ & Ji & _). destruct Gm as (_ & Jm & _).
  destruct Gt as (_ & Jt & _). destruct Gl as (_ & Jl & _).
  pose proof (Hk _ _ _ _ _ Ji) as Ki. pose proof (Hk _ _ _ _ _ Jm) as Km.
  pose proof (Hk _ _ _ _ _ Jt) as Kt. pose proof (Hk _ _ _ _ _ Jl) as Kl.
  rewrite P1 in Ki. rewrite P2 in Km. rewrite P3 in Kt. rewrite P4 in Kl.
  cbn [rows2] in Ki, Kt. change (Z.of_nat 0) with 0 in *.
  rewrite !length_map, Hsh0 in Ki, Km, Kt, Kl.
  rewrite Ki in Ji. rewrite Km in Jm. rewrite Kt in Jt. rewrite Kl in Jl.
  exists (d0 :: ds'), a_in, a_mel, a_tok, a_lin.
  split; [exact Hcount|].
  split; [intros i d Hd; by apply Hshard|]. do 4 (split; [done|]).
  split; [by rewrite Hbs, Hsplit, map_map|].
  split.
  - intros r Hr. rewrite map_map in Ji, Jm, Jt, Jl.
    repeat split; eapply joined_axis1_row; eauto.
  - intros i r d Hd Hr. destruct (Hshard i d Hd) as [Hp Hi].
    assert (shard shuffled spd (Z.of_nat i) !! r
            = shuffled !! (i * k + r)%nat) as Hlk.
    { rewrite shard_lookup; [|lia|lia|unfold k in Hr; fold spd in Hr; lia].
      unfold k. fold spd. f_equal. lia. }
    destruct (lookup_lt_is_Some_2 shuffled (i * k + r)) as [ex Hex].
    { unfold len in Hlen'. unfold k in *. fold spd in Hr |- *. nia. }
    exists ex. split; [exact Hex|]. split; [|split].
    + eapply prepared_shard_rows; [exact Hp|]. by rewrite Hlk.
    + by rewrite Hil, list_lookup_fmap, Hex.
    + by rewrite Htl, list_lookup_fmap, Hex.
Qed.

End AssemblerRows.

Lemma prepare_batch_metadata_witness :
  exists b w' shuffled,
    _prepare_batch Sample.env [Sample.short; Sample.long] 2 (Sample.world 2 2)
    = (Ok b, w') /\
    shuffled ≡ₚ [Sample.short; Sample.long] /\
    b_targets_lengths b = map (fun x => int32 (mel_length x)) shuffled /\
    b_input_lengths b = map (fun x => int32 (len (input_data x))) shuffled /\
    length (b_speaker_ids b) = 2%nat /\
    length (b_split_infos b) = 2%nat.
Proof.
  destruct (_prepare_batch Sample.env [Sample.short; Sample.long] 2
              (Sample.world 2 2)) as [r w'] eqn:Hrun.
  destruct r as [b|e]; [|vm_compute in Hrun; discriminate].
  destruct (prepare_batch_metadata Sample.env _ _ _ _ _ Hrun)
    as (sh & Hp & Ht & Hi & _ & _ & _ & _ & Hs & Hn & _).
  exists b, w', sh. repeat split; assumption.
Defined.

Lemma prepare_batch_rows_witness :
  let shuffled :=
    (np_random_shuffle [Sample.short; Sample.long] Sample.random).1 in
  exists b w' ds a_in,
    _prepare_batch Sample.env [Sample.short; Sample.long] 2 (Sample.world 2 2)
    = (Ok b, w') /\
    length ds = 2%nat /\
    b_inputs b = Some a_in /\
    row_is_joined (rows2 a_in) (map (fun d => rows2 (d_inputs d)) ds) 0 /\
    (forall i d, ds !! i = Some d ->
       exists ex,
         shuffled !! (i * 1 + 0)%nat = Some ex /\
         rows_of_example (Sample.feeder 2 2) ex d 0 /\
         b_input_lengths b !! (i * 1 + 0)%nat
         = Some (int32 (len (input_data ex)))).
Proof.
  destruct (_prepare_batch Sample.env [Sample.short; Sample.long] 2
              (Sample.world 2 2)) as [r w'] eqn:Hrun.
  destruct r as [b|e]; [|vm_compute in Hrun; discriminate].
  destruct (prepare_batch_rows Sample.env _ _ _ _ _ Hrun)
    as (_ & ds & a_in & a_mel & a_tok & a_lin & Hn & _ & Hi & _ & _ & _ & _ &
        Hrows & Hex);
    [simpl; lia|].
  exists b, w', ds, a_in. split; [reflexivity|]. split; [exact Hn|].
  split; [exact Hi|]. split.
  - destruct (Hrows 0%nat) as [H _]; [vm_compute; lia|exact H].
  - intros i d Hd. destruct (Hex i 0%nat d Hd) as (ex & H0 & H1 & H2 & _);
      [vm_compute; lia|].
    exists ex. split; [exact H0|]. split; [exact H1|exact H2].
Defined.

(** ** The example loader, stage by stage *)

Lemma bind_assoc_run {A B C} (m : M A) (k1 : A -> M B) (k2 : B -> M C) (w : World) :
  bind (bind m k1) k2 w = bind m (fun a => bind (k1 a) k2) w.
Proof. unfold bind. destruct (m w) as [[a|e] w1]; reflexivity. Qed.

Section LoaderSteps.

Variable E : Env.

Lemma _get_next_example_stages (w : World) :
  _get_next_example E w
  = bind next_record (fun p => load_record E (fst p) (snd p)) w.
Proof.
  unfold _get_next_example, next_record, load_record, bind, get_self, lift,
    put_self, ret.
  destruct (_ >=? _).
  - destruct (shuffle_M _ w) as [[sh|e] w1]; [|reflexivity]. simpl.
    destruct (py_getitem _ _); reflexivity.
  - destruct (py_getitem _ _); reflexivity.
Qed.

Lemma next_record_nowrap (w : World) (meta : list string) :
  let self := w_self w in
  0 <= _train_offset self ->
  _train_meta self !! Z.to_nat (_train_offset self) = Some meta ->
  next_record w
  = (Ok (self, meta),
     set_self w (set_train self (_train_offset self + 1) (_train_meta self))).
Proof.
  intros self Hoff Hmeta. subst self.
  pose proof (lookup_lt_Some _ _ _ Hmeta) as Hlt.
  unfold next_record, bind, get_self, lift, put_self, ret.
  rewrite Z.geb_leb. destruct (_ <=? _) eqn:Hge;
    [exfalso; apply Z.leb_le in Hge; unfold len in Hge; lia|].
  unfold py_getitem.
  destruct (_train_offset (w_self w) <? 0) eqn:Hneg;
    [exfalso; apply Z.ltb_lt in Hneg; lia|].
  rewrite Hneg.
  by rewrite Hmeta.
Qed.

Lemma next_record_wrap (w : World) :
  let self := w_self w in
  let sh := np_random_shuffle (_train_meta self) (w_random w) in
  len (_train_meta self) <= _train_offset self ->
  next_record w
  = match sh.1 with
    | [] => (Raise IndexError,
             {| w_self := set_train self 0 sh.1; w_random := sh.2;
                w_reads := w_reads w; w_queue := w_queue w |})
    | meta :: _ =>
        (Ok (set_train self 0 sh.1, meta),
         {| w_self := set_train self 1 sh.1; w_random := sh.2;
            w_reads := w_reads w; w_queue := w_queue w |})
    end.
Proof.
  intros self sh Hge. subst self.
  unfold next_record, bind, get_self, lift, put_self, ret, shuffle_M.
  rewrite Z.geb_leb. destruct (_ <=? _) eqn:Hge';
    [|exfalso; apply Z.leb_gt in Hge'; lia]. fold sh. destruct sh as [l g']. simpl.
  destruct l as [|meta l]; reflexivity.
Qed.

End LoaderSteps.

Lemma py_getitem_short {A} (l : list A) (i : Z) :
  0 <= i -> (length l <= Z.to_nat i)%nat -> py_getitem l i = Raise IndexError.
Proof.
  intros Hi Hl. unfold py_getitem.
  destruct (i <? 0) eqn:Hneg; [exfalso; apply Z.ltb_lt in Hneg; lia|].
  rewrite Hneg. by rewrite lookup_ge_None_2.
Qed.

Lemma py_getitem_at {A} (l : list A) (i : Z) (x : A) :
  0 <= i -> l !! Z.to_nat i = Some x -> py_getitem l i = Ok x.
Proof.
  intros Hi Hl. unfold py_getitem.
  destruct (i <? 0) eqn:Hneg; [exfalso; apply Z.ltb_lt in Hneg; lia|].
  by rewrite Hneg, Hl.
Qed.

Section LoaderFacts.

Variable E : Env.

Lemma np_load_run (path : string) (w : World) :
  np_load E path w
  = (match disk E path with
     | Some a => Ok a
     | None => Raise (FileNotFoundError path)
     end, add_read w path).
Proof. unfold np_load, add_read. by destruct (disk E path). Qed.

Lemma load_record_short (self : Feeder) (meta : list string) (w : World) :
  (length meta < 8)%nat -> load_record E self meta w = (Raise IndexError, w).
Proof.
  intros Hl. unfold load_record, bind, lift.
  destruct (decide (length meta <= 6)%nat) as [H6|H6].
  - by rewrite (py_getitem_short meta 6) by (simpl; lia).
  - destruct (lookup_lt_is_Some_2 meta 6 ltac:(lia)) as [text Ht].
    rewrite (py_getitem_at meta 6 text) by done.
    by rewrite (py_getitem_short meta 7) by (simpl; lia).
Qed.


(** What [load_record] does to the world, whatever its outcome. *)
Lemma load_record_frame (self : Feeder) (meta : list string) (w w' : World)
    (r : result Example) :
  load_record E self meta w = (r, w') ->
  w_self w' = w_self w /\ w_random w' = w_random w /\ w_queue w' = w_queue w /\
  exists extra, w_reads w' = w_reads w ++ extra /\
                (length extra <= files_per_example (_hparams self))%nat /\
                (is_Ok r -> length extra = files_per_example (_hparams self)).
Proof.
  unfold load_record, bind, lift, ret, files_per_example. intros H.
  destruct (spk_dependent_embedding (_hparams self));
    destruct (predict_linear (_hparams self));
    repeat match type of H with
           | context [py_getitem ?l ?i] => destruct (py_getitem l i)
           | context [np_load E ?p ?v] => rewrite (np_load_run p v) in H
           | context [disk E ?p] => destruct (disk E p)
           | context [np_zeros2 ?a ?b] => destruct (np_zeros2 a b)
           end;
    injection H as <- <-; simpl; (do 3 (split; [reflexivity|]));
    first [ exists []; split; [by rewrite app_nil_r|]
          | eexists; split; [rewrite <- ?app_assoc; reflexivity|] ];
    simpl; (split; [lia|]); first [ reflexivity | by intros [? ?] ].
Qed.

End LoaderFacts.

Section LoaderTheorems.

Variable E : Env.

(** What [next_record] does to the world, whatever its outcome, from a
    non-negative offset. *)
Lemma next_record_frame (w w' : World) (r : result (Feeder * list string)) :
  next_record w = (r, w') -> 0 <= _train_offset (w_self w) ->
  w_reads w' = w_reads w /\ w_queue w' = w_queue w /\
  (exists off metas,
      w_self w' = set_train (w_self w) off metas /\
      metas ≡ₚ _train_meta (w_self w) /\ 0 <= off <= len metas /\
      forall self meta, r = Ok (self, meta) ->
        meta ∈ metas /\ exists off0, self = set_train (w_self w) off0 metas).
Proof.
  intros H Hoff.
  destruct (decide (len (_train_meta (w_self w)) <= _train_offset (w_self w)))
    as [Hge|Hlt].
  - rewrite (next_record_wrap w Hge) in H.
    pose proof (np_random_shuffle_Permutation (_train_meta (w_self w))
                  (w_random w)) as Hperm.
    destruct (np_random_shuffle _ _) as [sh g']. simpl in *.
    destruct sh as [|meta sh]; injection H as <- <-; simpl.
    + split; [done|]. split; [done|]. exists 0, [].
      split; [done|]. split; [done|]. split; [unfold len; simpl; lia|].
      intros self meta Hr. discriminate Hr.
    + split; [done|]. split; [done|]. exists 1, (meta :: sh).
      split; [done|]. split; [done|]. split; [unfold len; simpl; lia|].
      intros self meta' Hr. injection Hr as <- <-.
      split; [apply list_elem_of_here|by exists 0].
  - destruct (lookup_lt_is_Some_2 (_train_meta (w_self w))
                (Z.to_nat (_train_offset (w_self w)))) as [meta Hmeta].
    { unfold len in Hlt. lia. }
    rewrite (next_record_nowrap w meta Hoff Hmeta) in H.
    injection H as <- <-. simpl.
    split; [done|]. split; [done|].
    exists (_train_offset (w_self w) + 1), (_train_meta (w_self w)).
    split; [done|]. split; [done|]. split; [unfold len in *; lia|].
    intros self meta' Hr. injection Hr as <- <-.
    split; [by eapply list_elem_of_lookup_2|].
    exists (_train_offset (w_self w)). by rewrite set_train_id.
Qed.

(** X11: the example pool is never damaged.  Whatever the outcome of
    [_get_next_example] (an example or an exception), from a non-negative
    offset: the feeder keeps its hyper-parameters, directories and pad
    values, the pool of records is a permutation of what it was, the offset
    stays between 0 and the size of the pool, nothing is enqueued, and the
    files opened are the earlier ones followed by at most one file per
    enabled feature (exactly that many on success). *)
Theorem loader_keeps_pool (w w' : World) (r : result Example) :
  _get_next_example E w = (r, w') ->
  0 <= _train_offset (w_self w) ->
  (exists off metas,
      w_self w' = set_train (w_self w) off metas /\
      metas ≡ₚ _train_meta (w_self w) /\ 0 <= off <= len metas) /\
  w_queue w' = w_queue w /\
  exists extra,
    w_reads w' = w_reads w ++ extra /\
    (length extra <= files_per_example (_hparams (w_self w)))%nat /\
    (is_Ok r -> length extra = files_per_example (_hparams (w_self w))).
Proof.
  intros H Hoff. rewrite _get_next_example_stages in H. unfold bind in H.
  destruct (next_record w) as [r1 w1] eqn:Hrec.
  destruct (next_record_frame _ _ _ Hrec Hoff)
    as (Hr1 & Hq1 & off & metas & Hs1 & Hperm & Hb & Hself).
  destruct r1 as [[self meta]|e].
  - simpl in H. destruct (Hself self meta eq_refl) as (_ & off0 & ->).
    apply load_record_frame in H as (Hs & _ & Hq & extra & Hr & Hl & Hl').
    split; [exists off, metas; split; [congruence|done]|].
    split; [congruence|]. exists extra. split; [congruence|]. done.
  - injection H as <- <-.
    split; [exists off, metas; by split|]. split; [done|].
    exists []. split; [by rewrite app_nil_r|]. split; [simpl; lia|].
    by intros [? ?].
Qed.

(** X12: a pool without records.  With no metadata record,
    [_get_next_example] raises IndexError without opening a file. *)
Theorem loader_on_empty_pool (w : World) :
  _train_meta (w_self w) = [] ->
  exists w', _get_next_example E w = (Raise IndexError, w') /\
             w_reads w' = w_reads w /\ w_queue w' = w_queue w.
Proof.
  intros Hempty. rewrite _get_next_example_stages. unfold bind.
  destruct (decide (0 <= _train_offset (w_self w))) as [Hoff|Hneg].
  - rewrite next_record_wrap by (rewrite Hempty; unfold len; simpl; lia).
    pose proof (np_random_shuffle_Permutation (_train_meta (w_self w))
                  (w_random w)) as Hperm.
    cbv zeta. destruct (np_random_shuffle _ _) as [sh g']. simpl in *.
    rewrite Hempty in Hperm. apply Permutation_nil_r in Hperm. subst sh.
    simpl. eexists. split; [reflexivity|]. by split.
  - destruct w as [self g reads q]. simpl in *.
    unfold next_record, bind, get_self, lift, put_self, ret, py_getitem.
    simpl. rewrite Hempty, Z.geb_leb.
    assert ((len (@nil (list string)) <=? _train_offset self) = false)
      as Hle by (apply Z.leb_gt; unfold len; simpl; lia).
    assert ((_train_offset self <? 0) = true) as Hlt
      by (apply Z.ltb_lt; lia).
    assert ((len (@nil (list string)) + _train_offset self <? 0) = true)
      as Hlt' by (apply Z.ltb_lt; unfold len; simpl; lia).
    rewrite Hle. simpl. rewrite ?Hempty, Hlt, Hlt'. simpl.
    eexists. split; [reflexivity|]. by split.
Qed.

(** X13: a record with fewer than 8 fields.  When the record at the
    offset is too short, [_get_next_example] raises IndexError before any
    file is opened, and the record is consumed all the same: the offset
    has moved on by one. *)
Theorem loader_on_short_record (w : World) (meta : list string) :
  0 <= _train_offset (w_self w) ->
  _train_meta (w_self w) !! Z.to_nat (_train_offset (w_self w)) = Some meta ->
  (length meta < 8)%nat ->
  _get_next_example E w
  = (Raise IndexError,
     set_self w (set_train (w_self w) (_train_offset (w_self w) + 1)
                           (_train_meta (w_self w)))).
Proof.
  intros Hoff Hmeta Hshort. rewrite _get_next_example_stages. unfold bind.
  rewrite (next_record_nowrap w meta Hoff Hmeta). simpl.
  by rewrite load_record_short.
Qed.


End LoaderTheorems.

Lemma loader_keeps_pool_witness :
  exists r w',
    _get_next_example Sample.env (Sample.world 1 1) = (r, w') /\
    (exists off metas,
        w_self w' = set_train (Sample.feeder 1 1) off metas /\
        metas ≡ₚ _train_meta (Sample.feeder 1 1) /\ 0 <= off <= len metas) /\
    w_queue w' = [] /\
    exists extra,
      w_reads w' = [] ++ extra /\
      (length extra <= files_per_example (Sample.hparams 1 1))%nat /\
      (is_Ok r -> length extra = files_per_example (Sample.hparams 1 1)).
Proof.
  destruct (_get_next_example Sample.env (Sample.world 1 1)) as [r w'] eqn:H.
  exists r, w'. split; [reflexivity|].
  apply (loader_keeps_pool Sample.env (Sample.world 1 1) w' r H).
  vm_compute. discriminate.
Defined.

Lemma loader_on_empty_pool_witness :
  exists w',
    _get_next_example Sample.env
      (set_self (Sample.world 1 1) (set_train (Sample.feeder 1 1) 0 []))
    = (Raise IndexError, w') /\
    w_reads w' = [] /\ w_queue w' = [].
Proof.
  exact (loader_on_empty_pool Sample.env
           (set_self (Sample.world 1 1) (set_train (Sample.feeder 1 1) 0 []))
           eq_refl).
Defined.

Lemma loader_on_short_record_witness :
  let w := set_self (Sample.world 1 1)
             (set_train (Sample.feeder 1 1) 0 [["a.npy"; "b.npy"; "x"]]) in
  _get_next_example Sample.env w
  = (Raise IndexError,
     set_self w (set_train (w_self w) 1 [["a.npy"; "b.npy"; "x"]])).
Proof.
  exact (loader_on_short_record Sample.env
           (set_self (Sample.world 1 1)
              (set_train (Sample.feeder 1 1) 0 [["a.npy"; "b.npy"; "x"]]))
           ["a.npy"; "b.npy"; "x"]
           ltac:(vm_compute; discriminate) eq_refl ltac:(simpl; lia)).
Defined.


Section Epochs.

Variable E : Env.

Lemma load_record_Ok (self : Feeder) (meta : list string) (w w' : World)
    (ex : Example) :
  load_record E self meta w = (Ok ex, w') -> example_of_record E self meta ex.
Proof.
  unfold load_record, bind, lift, ret. intros H.
  destruct (py_getitem meta 6) as [text|] eqn:H6; [|discriminate].
  destruct (py_getitem meta 7) as [spk|] eqn:H7; [|discriminate].
  destruct (py_getitem meta 1) as [mel_name|] eqn:H1; [|discriminate].
  apply py_getitem_nonneg in H6, H7, H1; [|lia..].
  rewrite np_load_run in H.
  destruct (disk E (os_path_join (_mel_dir self) mel_name)) as [mel|] eqn:Hd;
    [|discriminate].
  assert (speaker_id ex = spk /\ input_data ex
          = map int32 (text_to_sequence E text (_cleaner_names self)) /\
          mel_target ex = mel) as (<- & Hin & <-).
  { destruct (spk_dependent_embedding (_hparams self));
      destruct (predict_linear (_hparams self));
      repeat match type of H with
             | context [py_getitem ?l ?i] => destruct (py_getitem l i)
             | context [np_load E ?p ?v] => rewrite (np_load_run E p v) in H
             | context [disk E ?p] => destruct (disk E p)
             | context [np_zeros2 ?a ?b] => destruct (np_zeros2 a b)
             end; try discriminate; by injection H as <- _. }
  split; [exact H7|]. by exists text, mel_name.
Qed.

(** Consecutive calls that stay within the pool take its records in order
    and never touch the random state. *)
Lemma walk_in_order {X} (l : list X) (w w' : World) (examples : list Example) :
  mapM_M (fun _ => _get_next_example E) l w = (Ok examples, w') ->
  0 <= _train_offset (w_self w) ->
  _train_offset (w_self w) + len l <= len (_train_meta (w_self w)) ->
  Forall2 (example_of_record E (w_self w))
    (take (length l)
       (drop (Z.to_nat (_train_offset (w_self w))) (_train_meta (w_self w))))
    examples /\
  w_self w'
  = set_train (w_self w) (_train_offset (w_self w) + len l)
      (_train_meta (w_self w)) /\
  w_random w' = w_random w.
Proof.
  revert w examples.
  induction l as [|x l IH]; intros w examples H Hoff Hfit; simpl in H.
  - unfold ret in H. injection H as <- <-. simpl.
    split; [constructor|]. split; [|done].
    unfold len. simpl. by rewrite Z.add_0_r, set_train_id.
  - apply bind_Ok in H as (ex & w1 & Hex & H).
    apply bind_Ok in H as (exs & w2 & Hexs & H).
    unfold ret in H. injection H as <- <-.
    rewrite _get_next_example_stages in Hex.
    destruct (lookup_lt_is_Some_2 (_train_meta (w_self w))
                (Z.to_nat (_train_offset (w_self w)))) as [meta Hmeta].
    { unfold len in Hfit. simpl in Hfit. lia. }
    unfold bind in Hex.
    rewrite (next_record_nowrap w meta Hoff Hmeta) in Hex. simpl in Hex.
    pose proof (load_record_Ok _ _ _ _ _ Hex) as Hrec.
    apply load_record_frame in Hex as (Hs1 & Hg1 & _).
    simpl in Hs1, Hg1.
    assert (0 <= _train_offset (w_self w1)) as Ho1 by (rewrite Hs1; simpl; lia).
    assert (_train_offset (w_self w1) + len l <= len (_train_meta (w_self w1)))
      as Hf1 by (rewrite Hs1; simpl; unfold len in *; simpl in *; lia).
    destruct (IH _ _ Hexs Ho1 Hf1) as (Hall & Hs2 & Hg2).
    rewrite Hs1 in Hall, Hs2. simpl in Hall, Hs2.
    split; [|split].
    + rewrite (drop_S _ meta _ Hmeta). simpl. constructor; [exact Hrec|].
      replace (Z.to_nat (_train_offset (w_self w) + 1))
        with (S (Z.to_nat (_train_offset (w_self w)))) in Hall by lia.
      exact Hall.
    + rewrite Hs2. unfold set_train, len. simpl. f_equal. lia.
    + congruence.
Qed.

(** X15: within an epoch the records are served in file order.  When the
    [n * 64] records of a group all lie between the offset and the end of
    the pool, a successful [read_group] returns the examples of exactly
    those records, in the order of the pool, moves the offset past them,
    and neither reorders the pool nor draws a random number. *)
Theorem read_group_within_epoch (n : Z) (w w' : World)
    (examples : list Example) :
  read_group E n w = (Ok examples, w') ->
  let self := w_self w in
  let count := n * _batches_per_group in
  0 <= count ->
  0 <= _train_offset self ->
  _train_offset self + count <= len (_train_meta self) ->
  Forall2 (example_of_record E self)
    (take (Z.to_nat count)
       (drop (Z.to_nat (_train_offset self)) (_train_meta self)))
    examples /\
  w_self w' = set_train self (_train_offset self + count) (_train_meta self) /\
  w_random w' = w_random w.
Proof.
  intros H self count Hc Hoff Hfit. unfold read_group in H.
  assert (len (py_range count) = count) as Hlen.
  { unfold len, py_range. rewrite length_map, length_seq. lia. }
  apply walk_in_order in H; [|done|fold self; fold count; lia].
  fold self count in H. rewrite Hlen in H.
  unfold len in Hlen. by replace (length (py_range count)) with (Z.to_nat count) in H by lia.
Qed.

(** X16: a new epoch starts with one reshuffle.  When the pool is
    exhausted (the offset has reached its size), a successful [read_group]
    of at most as many examples as there are records shuffles the pool
    once with [np.random.shuffle], serves the first records of the
    shuffled pool in order, and leaves the offset at the number served. *)
Theorem read_group_new_epoch (n : Z) (w w' : World) (examples : list Example) :
  read_group E n w = (Ok examples, w') ->
  let self := w_self w in
  let count := n * _batches_per_group in
  let sh := np_random_shuffle (_train_meta self) (w_random w) in
  1 <= count ->
  count <= len (_train_meta self) ->
  len (_train_meta self) <= _train_offset self ->
  sh.1 ≡ₚ _train_meta self /\
  Forall2 (example_of_record E self) (take (Z.to_nat count) sh.1) examples /\
  w_self w' = set_train self count sh.1 /\
  w_random w' = sh.2.
Proof.
  intros H self count sh Hc Hfit Hend. unfold read_group in H.
  fold count in H.
  split; [apply np_random_shuffle_Permutation|].
  assert (exists k, Z.to_nat count = S k) as [k Hk] by (exists (Z.to_nat count - 1)%nat; lia).
  unfold py_range in H. rewrite Hk in H. simpl in H.
  apply bind_Ok in H as (ex & w1 & Hex & H).
  apply bind_Ok in H as (exs & w2 & Hexs & H).
  unfold ret in H. injection H as <- <-.
  rewrite _get_next_example_stages in Hex. unfold bind in Hex.
  rewrite (next_record_wrap w Hend) in Hex. fold self sh in Hex.
  pose proof (np_random_shuffle_Permutation (_train_meta self) (w_random w))
    as Hperm. fold sh in Hperm.
  destruct sh.1 as [|meta rest] eqn:Hsh; [discriminate|].
  simpl in Hex.
  pose proof (load_record_Ok _ _ _ _ _ Hex) as Hrec.
  apply load_record_frame in Hex as (Hs1 & Hg1 & _). simpl in Hs1, Hg1.
  assert (0 <= _train_offset (w_self w1)) as Ho1 by (rewrite Hs1; simpl; lia).
  assert (_train_offset (w_self w1) + len (map Z.of_nat (seq 1 k))
          <= len (_train_meta (w_self w1))) as Hf1.
  { rewrite Hs1. simpl. unfold len. rewrite length_map, length_seq. simpl.
    apply Permutation_length in Hperm. unfold len in Hfit. simpl in Hperm. lia. }
  destruct (walk_in_order _ _ _ _ Hexs Ho1 Hf1) as (Hall & Hs2 & Hg2).
  rewrite Hs1 in Hall, Hs2. simpl in Hall, Hs2.
  rewrite length_map, length_seq in Hall. rewrite Hk. simpl.
  split; [constructor; [exact Hrec|]|split].
  - by rewrite drop_0 in Hall.
  - rewrite Hs2. unfold set_train, len. simpl.
    rewrite length_map, length_seq. f_equal. lia.
  - congruence.
Qed.

End Epochs.

Lemma read_group_within_epoch_witness :
  let meta := ["a.npy"; "b.npy"; "x"; "x"; "5"; "x"; "hello"; "3"] in
  let self := set_train (Sample.feeder 1 1) 0 (replicate 64 meta) in
  exists examples w',
    read_group Sample.env 1 (set_self (Sample.world 1 1) self)
    = (Ok examples, w') /\
    Forall2 (example_of_record Sample.env self)
      (take 64 (drop 0 (replicate 64 meta))) examples /\
    w_self w' = set_train self 64 (replicate 64 meta) /\
    w_random w' = Sample.random.
Proof.
  intros meta self.
  destruct (read_group Sample.env 1 (set_self (Sample.world 1 1) self))
    as [r w'] eqn:H.
  destruct r as [examples|e]; [|vm_compute in H; discriminate].
  exists examples, w'. split; [reflexivity|].
  apply (read_group_within_epoch Sample.env 1 _ w' examples H);
    vm_compute; discriminate.
Defined.

Lemma read_group_new_epoch_witness :
  let meta := ["a.npy"; "b.npy"; "x"; "x"; "5"; "x"; "hello"; "3"] in
  let self := set_train (Sample.feeder 1 1) 64 (replicate 64 meta) in
  let sh := np_random_shuffle (replicate 64 meta) Sample.random in
  exists examples w',
    read_group Sample.env 1 (set_self (Sample.world 1 1) self)
    = (Ok examples, w') /\
    sh.1 ≡ₚ replicate 64 meta /\
    Forall2 (example_of_record Sample.env self) (take 64 sh.1) examples /\
    w_self w' = set_train self 64 sh.1 /\
    w_random w' = sh.2.
Proof.
  intros meta self sh.
  destruct (read_group Sample.env 1 (set_self (Sample.world 1 1) self))
    as [r w'] eqn:H.
  destruct r as [examples|e]; [|vm_compute in H; discriminate].
  exists examples, w'. split; [reflexivity|].
  apply (read_group_new_epoch Sample.env 1 _ w' examples H);
    vm_compute; discriminate.
Defined.

Section Loop.

Variable E : Env.

Lemma next_record_static (w w1 : World) (r : result (Feeder * list string)) :
  next_record w = (r, w1) ->
  w_reads w1 = w_reads w /\ w_queue w1 = w_queue w /\
  _hparams (w_self w1) = _hparams (w_self w) /\
  forall self meta, r = Ok (self, meta) -> _hparams self = _hparams (w_self w).
Proof.
  unfold next_record, bind, get_self, lift, put_self, ret, shuffle_M. intros H.
  destruct (_ >=? _).
  - destruct (np_random_shuffle _ _) as [sh g']. simpl in H.
    destruct (py_getitem _ _); injection H as <- <-; simpl;
      (do 3 (split; [done|])); intros self meta Hr; [|discriminate].
    by injection Hr as <- _.
  - simpl in H.
    destruct (py_getitem _ _); injection H as <- <-; simpl;
      (do 3 (split; [done|])); intros self meta Hr; [|discriminate].
    by injection Hr as <- _.
Qed.

(** What [_get_next_example] leaves alone, whatever its outcome. *)
Lemma _get_next_example_frame (w w' : World) (r : result Example) :
  _get_next_example E w = (r, w') ->
  _hparams (w_self w') = _hparams (w_self w) /\ w_queue w' = w_queue w /\
  exists extra,
    w_reads w' = w_reads w ++ extra /\
    (length extra <= files_per_example (_hparams (w_self w)))%nat /\
    (is_Ok r -> length extra = files_per_example (_hparams (w_self w))).
Proof.
  intros H. rewrite _get_next_example_stages in H. unfold bind in H.
  destruct (next_record w) as [r1 w1] eqn:Hrec.
  destruct (next_record_static _ _ _ Hrec) as (Hr1 & Hq1 & Hh1 & Hself).
  destruct r1 as [[self meta]|e].
  - simpl in H. specialize (Hself self meta eq_refl).
    apply load_record_frame in H as (Hs & _ & Hq & extra & Hr & Hl & Hl').
    rewrite Hself in Hl, Hl'.
    split; [congruence|]. split; [congruence|].
    exists extra. split; [congruence|]. done.
  - injection H as <- <-. split; [done|]. split; [done|].
    exists []. split; [by rewrite app_nil_r|]. split; [simpl; lia|].
    by intros [? ?].
Qed.

Lemma read_frame {X} (l : list X) (w w' : World) (r : result (list Example)) :
  mapM_M (fun _ => _get_next_example E) l w = (r, w') ->
  _hparams (w_self w') = _hparams (w_self w) /\ w_queue w' = w_queue w /\
  exists extra,
    w_reads w' = w_reads w ++ extra /\
    (length extra <= length l * files_per_example (_hparams (w_self w)))%nat /\
    forall examples, r = Ok examples ->
      length examples = length l /\
      length extra = (length l * files_per_example (_hparams (w_self w)))%nat.
Proof.
  revert w w' r. induction l as [|x l IH]; intros w w' r H; simpl in H.
  - unfold ret in H. injection H as <- <-. split; [done|]. split; [done|].
    exists []. split; [by rewrite app_nil_r|]. split; [simpl; lia|].
    by intros examples [= <-].
  - unfold bind in H.
    destruct (_get_next_example E w) as [r1 w1] eqn:H1.
    apply _get_next_example_frame in H1
      as (Hh1 & Hq1 & extra1 & Hr1 & Hl1 & Hok1).
    destruct r1 as [ex|e].
    + destruct (mapM_M _ l w1) as [r2 w2] eqn:H2.
      apply IH in H2 as (Hh2 & Hq2 & extra2 & Hr2 & Hl2 & Hok2).
      rewrite Hh1 in Hl2, Hok2.
      assert (length extra1 = files_per_example (_hparams (w_self w)))
        as Hx1 by (apply Hok1; by eexists).
      assert (w2 = w') as ->
        by (destruct r2; unfold ret in H; by injection H).
      split; [congruence|]. split; [congruence|].
      exists (extra1 ++ extra2).
      split; [rewrite Hr2, Hr1; by rewrite app_assoc|].
      rewrite length_app.
      change (length (x :: l)) with (S (length l)). rewrite Nat.mul_succ_l.
      split; [lia|].
      intros examples ->. destruct r2 as [exs|]; [|discriminate].
      unfold ret in H. injection H as <-.
      destruct (Hok2 exs eq_refl) as [Ha Hb]. simpl. lia.
    + injection H as <- <-. split; [done|]. split; [done|].
      exists extra1. split; [done|].
      change (length (x :: l)) with (S (length l)). rewrite Nat.mul_succ_l.
      split; [lia|]. discriminate.
Qed.

Lemma bucket_group_frame (n : Z) (examples : list Example) (w w' : World)
    (r : result (list (list Example))) :
  bucket_group n examples w = (r, w') ->
  w_self w' = w_self w /\ w_reads w' = w_reads w /\ w_queue w' = w_queue w.
Proof.
  unfold bucket_group, bind, lift, shuffle_M. intros H.
  destruct (py_range3 _ _); [destruct (np_random_shuffle _ _)|];
    by injection H as <- <-.
Qed.

Lemma bucket_group_nonpositive (n : Z) (w : World) :
  n <= 0 ->
  bucket_group n [] w = (if n =? 0 then Raise ValueError else Ok [], w).
Proof.
  intros Hn. unfold bucket_group, bind, lift, shuffle_M, py_range3. simpl.
  destruct (n =? 0) eqn:E0; [done|]. apply Z.eqb_neq in E0.
  destruct (0 <? n) eqn:E1; [apply Z.ltb_lt in E1; lia|].
  change (len (@nil Example)) with 0.
  replace ((0 + n + 1) / n) with 0
    by (symmetry; apply Z.div_small_iff; [lia|right; lia]).
  simpl. by destruct w.
Qed.

Lemma bucket_group_count (n : Z) (examples : list Example) (w w' : World)
    (batches : list (list Example)) :
  bucket_group n examples w = (Ok batches, w') ->
  length examples = Z.to_nat (n * _batches_per_group) ->
  (length batches <= 64)%nat /\
  (1 <= n -> length batches = 64%nat /\
             Forall (fun b => length b = Z.to_nat n) batches).
Proof.
  intros H Hlen. unfold _batches_per_group in Hlen.
  destruct (decide (1 <= n)) as [Hn|Hn].
  - destruct (bucket_group_spec n 64 examples w Hn ltac:(lia))
      as (batches' & w2 & Hrun & Hperm & _).
    rewrite Hrun in H. injection H as -> ->.
    assert (length batches = 64%nat) as Hc.
    { rewrite Hperm. unfold chunks. by rewrite length_map, length_seq. }
    split; [lia|]. intros _. split; [done|].
    rewrite Hperm. apply chunks_length.
    rewrite (list_sort_Permutation mel_length examples). lia.
  - assert (examples = []) as -> by (apply length_zero_iff_nil; lia).
    rewrite bucket_group_nonpositive in H by lia.
    destruct (n =? 0); [discriminate|]. injection H as <- <-.
    split; [simpl; lia|lia].
Qed.

Lemma _prepare_batch_frame (batch : list Example) (m : Z) (w w' : World)
    (r : result Batch) :
  _prepare_batch E batch m w = (r, w') ->
  w_self w' = w_self w /\ w_reads w' = w_reads w /\ w_queue w' = w_queue w /\
  forall b, r = Ok b -> length (b_input_lengths b) = length batch.
Proof.
  intros H. split; [|split; [|split]].
  4: { intros b ->. apply _prepare_batch_inv in H.
       destruct H as (_ & _ & acc & _ & _ & _ & _ & _ & _ & _ & ->).
       rewrite length_map.
       apply Permutation_length, np_random_shuffle_Permutation. }
  all: revert H;
    unfold _prepare_batch, bind, get_self, lift, raise, shuffle_M, ret, py_mod;
    destruct (_ =? 0); [by intros [= <- <-]|];
    destruct (negb _); simpl; [by intros [= <- <-]|];
    destruct (np_random_shuffle batch (w_random w)) as [sh g'];
    do 3 (destruct (mapM _ sh); [|by intros [= <- <-]]);
    destruct (foldM _ _ _); [|by intros [= <- <-]];
    destruct (mapM _ _); by intros [= <- <-].
Qed.

Lemma enqueue_all_frame (batches : list (list Example)) (m : Z) (w w' : World)
    (r : result unit) :
  forM_ batches (fun batch => do feed <- _prepare_batch E batch m; enqueue feed) w
  = (r, w') ->
  w_self w' = w_self w /\ w_reads w' = w_reads w /\
  exists feeds,
    w_queue w' = w_queue w ++ feeds /\
    (length feeds <= length batches)%nat /\
    (is_Ok r ->
     Forall2 (fun batch b => length (b_input_lengths b) = length batch)
       batches feeds).
Proof.
  revert w w' r. induction batches as [|batch batches IH]; intros w w' r H;
    simpl in H.
  - unfold ret in H. injection H as <- <-. split; [done|]. split; [done|].
    exists []. split; [by rewrite app_nil_r|]. split; [done|]. constructor.
  - unfold bind at 1 in H. unfold bind at 1 in H.
    destruct (_prepare_batch E batch m w) as [r1 w1] eqn:H1.
    apply _prepare_batch_frame in H1 as (Hs1 & Hr1 & Hq1 & Hb1).
    destruct r1 as [b|e].
    + unfold enqueue at 1 in H.
      match type of H with
      | forM_ _ _ ?v = _ => remember v as w2 eqn:Hw2
      end.
      apply IH in H as (Hs2 & Hr2 & feeds & Hq2 & Hl2 & Hok2).
      subst w2. simpl in *.
      split; [congruence|]. split; [congruence|].
      exists (b :: feeds). split; [rewrite Hq2, Hq1; by rewrite <- app_assoc|].
      split; [simpl; lia|]. intros Hok. constructor; [by apply Hb1|by apply Hok2].
    + injection H as <- <-. split; [done|]. split; [done|].
      exists []. split; [by rewrite app_nil_r|]. split; [simpl; lia|].
      by intros [? ?].
Qed.


End Loop.

Lemma Forall2_lengths {A B} (f : A -> nat) (g : B -> nat) (k : nat)
    (xs : list A) (ys : list B) :
  Forall2 (fun x y => g y = f x) xs ys -> Forall (fun x => f x = k) xs ->
  Forall (fun y => g y = k) ys.
Proof.
  induction 1 as [|x y xs ys Hxy _ IH]; intros Hk; [constructor|].
  apply Forall_cons in Hk as [Hx Hk]. constructor; [congruence|auto].
Qed.

Section LoopTheorems.

Variable E : Env.

(** One pass through the body of the loop, whatever its outcome. *)
Lemma train_group_iteration_frame (w w' : World) (r : result unit) :
  train_group_iteration E w = (r, w') ->
  let n := tacotron_batch_size (_hparams (w_self w)) in
  _hparams (w_self w') = _hparams (w_self w) /\
  exists feeds,
    w_queue w' = w_queue w ++ feeds /\
    (length feeds <= 64)%nat /\
    (is_Ok r -> 1 <= n ->
     length feeds = 64%nat /\
     Forall (fun b => length (b_input_lengths b) = Z.to_nat n) feeds /\
     length (w_reads w')
     = (length (w_reads w)
        + 64 * Z.to_nat n * files_per_example (_hparams (w_self w)))%nat).
Proof.
  intros H n. unfold train_group_iteration, bind at 1, get_self in H.
  fold n in H. unfold bind at 1 in H.
  destruct (read_group E n w) as [r1 w1] eqn:H1.
  pose proof H1 as Hf1. unfold read_group in Hf1.
  apply read_frame in Hf1 as (Hh1 & Hq1 & extra & Hr1 & _ & Hok1).
  destruct r1 as [examples|e].
  2: { injection H as <- <-. split; [done|]. exists [].
       split; [by rewrite app_nil_r|]. split; [simpl; lia|]. by intros [? ?]. }
  destruct (Hok1 examples eq_refl) as [Hlen Hextra].
  unfold py_range in Hlen, Hextra. rewrite length_map, length_seq in Hlen, Hextra.
  unfold bind at 1 in H.
  destruct (bucket_group n examples w1) as [r2 w2] eqn:H2.
  pose proof (bucket_group_frame _ _ _ _ _ H2) as (Hs2 & Hr2 & Hq2).
  destruct r2 as [batches|e].
  2: { injection H as <- <-. split; [congruence|]. exists [].
       split; [rewrite app_nil_r; congruence|]. split; [simpl; lia|].
       by intros [? ?]. }
  apply bucket_group_count in H2 as [Hc Hcn]; [|done].
  apply enqueue_all_frame in H as (Hs3 & Hr3 & feeds & Hq3 & Hl3 & Hok3).
  split; [congruence|]. exists feeds. split; [congruence|]. split; [lia|].
  intros Hok Hn. destruct (Hcn Hn) as [Hc64 Hsizes].
  specialize (Hok3 Hok). pose proof (Forall2_length _ _ _ Hok3) as Hl.
  split; [lia|]. split.
  - exact (Forall2_lengths _ _ _ _ _ Hok3 Hsizes).
  - rewrite Hr3, Hr2, Hr1, length_app, Hextra.
    unfold _batches_per_group. f_equal.
    replace (Z.to_nat (n * 64)) with (64 * Z.to_nat n)%nat by lia. done.
Qed.


(** X17: a batch size that is not positive.  With
    [tacotron_batch_size = 0] a pass through the loop raises ValueError
    (the step of [range(0, len(examples), n)] is 0); with a negative one it
    succeeds and does nothing at all, so the loop goes round without ever
    reading a file or enqueueing a batch. *)
Theorem nonpositive_batch_size (w : World) :
  let n := tacotron_batch_size (_hparams (w_self w)) in
  n <= 0 ->
  train_group_iteration E w = (if n =? 0 then Raise ValueError else Ok tt, w) /\
  (n < 0 -> forall should_stop,
     _enqueue_next_train_group E should_stop w = (Ok tt, w)).
Proof.
  intros n Hn.
  assert (train_group_iteration E w
          = (if n =? 0 then Raise ValueError else Ok tt, w)) as Hit.
  { unfold train_group_iteration, bind at 1, get_self. fold n.
    unfold read_group, py_range.
    replace (Z.to_nat (n * _batches_per_group)) with 0%nat
      by (unfold _batches_per_group; lia).
    simpl. unfold bind at 1, ret at 1. unfold bind at 1.
    rewrite bucket_group_nonpositive by done.
    by destruct (n =? 0). }
  split; [exact Hit|]. intros Hneg should_stop.
  assert ((n =? 0) = false) as Hn0 by (apply Z.eqb_neq; lia).
  rewrite Hn0 in Hit.
  induction should_stop as [|[|] rest IH]; simpl; try done.
  unfold bind. by rewrite Hit.
Qed.

(** X18: what the production loop hands to the queue.  Whatever the
    outcome of [_enqueue_next_train_group] (the loop left because the
    coordinator asked to stop, or an exception), the sequence of batches
    enqueued so far is extended at its tail only, by at most 64 batches per
    pass through the loop, and the hyper-parameters are unchanged.  When no
    exception was raised and the batch size [n] is at least 1, every pass
    has enqueued exactly 64 batches of [n] examples each and opened exactly
    one file per enabled feature for each of its [64 * n] examples. *)
Theorem loop_extends_queue (should_stop : list bool) (w w' : World)
    (r : result unit) :
  _enqueue_next_train_group E should_stop w = (r, w') ->
  let n := tacotron_batch_size (_hparams (w_self w)) in
  _hparams (w_self w') = _hparams (w_self w) /\
  exists feeds,
    w_queue w' = w_queue w ++ feeds /\
    (length feeds <= 64 * rounds should_stop)%nat /\
    (is_Ok r -> 1 <= n ->
     length feeds = (64 * rounds should_stop)%nat /\
     Forall (fun b => length (b_input_lengths b) = Z.to_nat n) feeds /\
     length (w_reads w')
     = (length (w_reads w)
        + rounds should_stop
          * (64 * Z.to_nat n * files_per_example (_hparams (w_self w))))%nat).
Proof.
  revert w w' r.
  assert (forall (w w' : World) (r : result unit),
             (Ok tt, w) = (r, w') ->
             _hparams (w_self w') = _hparams (w_self w) /\
             exists feeds,
               w_queue w' = w_queue w ++ feeds /\
               (length feeds <= 64 * 0)%nat /\
               (is_Ok r -> 1 <= tacotron_batch_size (_hparams (w_self w)) ->
                length feeds = (64 * 0)%nat /\
                Forall (fun b => length (b_input_lengths b)
                                 = Z.to_nat (tacotron_batch_size
                                               (_hparams (w_self w)))) feeds /\
                length (w_reads w')
                = (length (w_reads w)
                   + 0 * (64 * Z.to_nat (tacotron_batch_size
                                           (_hparams (w_self w)))
                          * files_per_example (_hparams (w_self w))))%nat))
    as Hstop.
  { intros w w' r [= <- <-]. split; [done|]. exists [].
    split; [by rewrite app_nil_r|]. split; [simpl; lia|].
    intros _ _. split; [done|]. split; [constructor|lia]. }
  induction should_stop as [|[|] rest IH]; intros w w' r H n; simpl in H;
    unfold ret in H; [by apply Hstop..|].
  unfold bind in H.
  destruct (train_group_iteration E w) as [r1 w1] eqn:H1.
  apply train_group_iteration_frame in H1 as (Hh1 & feeds1 & Hq1 & Hl1 & Hok1).
  fold n in Hok1. destruct r1 as [[]|e].
  - apply IH in H as (Hh2 & feeds2 & Hq2 & Hl2 & Hok2). rewrite Hh1 in Hok2.
    fold n in Hok2.
    split; [congruence|]. exists (feeds1 ++ feeds2).
    split; [rewrite Hq2, Hq1; by rewrite app_assoc|].
    rewrite length_app. cbn [rounds]. split; [lia|].
    intros Hok Hn.
    destruct (Hok1 ltac:(by eexists) Hn) as (Ha1 & Hb1 & Hc1).
    destruct (Hok2 Hok Hn) as (Ha2 & Hb2 & Hc2).
    split; [lia|]. split; [by apply Forall_app|].
    rewrite Hc2, Hc1. lia.
  - injection H as <- <-. split; [done|]. exists feeds1. split; [done|].
    cbn [rounds]. split; [lia|]. by intros [? ?].
Qed.

End LoopTheorems.


Lemma nonpositive_batch_size_witness :
  train_group_iteration Sample.env (Sample.world 0 1)
  = (Raise ValueError, Sample.world 0 1) /\
  train_group_iteration Sample.env (Sample.world (-2) 1)
  = (Ok tt, Sample.world (-2) 1) /\
  _enqueue_next_train_group Sample.env [false; false; false]
    (Sample.world (-2) 1)
  = (Ok tt, Sample.world (-2) 1).
Proof.
  split; [|split].
  - exact (proj1 (nonpositive_batch_size Sample.env (Sample.world 0 1)
                    ltac:(vm_compute; discriminate))).
  - exact (proj1 (nonpositive_batch_size Sample.env (Sample.world (-2) 1)
                    ltac:(vm_compute; discriminate))).
  - exact (proj2 (nonpositive_batch_size Sample.env (Sample.world (-2) 1)
                    ltac:(vm_compute; discriminate))
             ltac:(vm_compute; reflexivity) [false; false; false]).
Defined.

Lemma loop_extends_queue_witness :
  exists w',
    _enqueue_next_train_group Sample.env [false; true] (Sample.world 1 1)
    = (Ok tt, w') /\
    exists feeds,
      w_queue w' = [] ++ feeds /\
      length feeds = 64%nat /\
      Forall (fun b => length (b_input_lengths b) = 1%nat) feeds /\
      length (w_reads w') = 128%nat.
Proof.
  destruct (_enqueue_next_train_group Sample.env [false; true]
              (Sample.world 1 1)) as [r w'] eqn:H.
  destruct r as [[]|e]; [|vm_compute in H; discriminate].
  exists w'. split; [reflexivity|].
  destruct (loop_extends_queue Sample.env _ _ _ _ H)
    as (_ & feeds & Hq & _ & Hok).
  destruct (Hok ltac:(by eexists) ltac:(vm_compute; discriminate))
    as (Ha & Hb & Hc).
  exists feeds. split; [exact Hq|]. split; [exact Ha|]. split; [exact Hb|].
  exact Hc.
Defined.

Lemma foldM_total {A B} (f : A -> B -> result A) (Inv : A -> Prop)
    (l : list B) (a : A) :
  (forall a x, Inv a -> x ∈ l -> exists a', f a x = Ok a' /\ Inv a') ->
  Inv a -> exists a', foldM f a l = Ok a' /\ Inv a'.
Proof.
  revert a. induction l as [|x l IH]; intros a Hstep Hinv; simpl; [eauto|].
  destruct (Hstep a x Hinv) as (a1 & -> & Hinv1); [apply list_elem_of_here|].
  result_simpl. apply IH; [|done].
  intros a2 y Ha2 Hy. apply Hstep; [done|by apply list_elem_of_further].
Qed.

Lemma concat2_fits {A} (k : nat) (acc : option (array2 A)) (cur : array2 A) :
  (forall a, acc = Some a -> length (rows2 a) = k) ->
  length (rows2 cur) = k ->
  exists r, concat_or_init np_concatenate2_axis1 acc cur = Ok r /\
            forall a, r = Some a -> length (rows2 a) = k.
Proof.
  intros Hacc Hcur. destruct acc as [a|]; simpl.
  - specialize (Hacc a eq_refl). unfold np_concatenate2_axis1.
    rewrite Hacc, Hcur, Nat.eqb_refl. result_simpl. eexists. split; [done|].
    intros ? [= <-]. simpl. rewrite length_zip_with. lia.
  - eexists. split; [done|]. by intros ? [= <-].
Qed.

Lemma concat3_fits {A} (k W : nat) (acc : option (array3 A)) (cur : array3 A) :
  (forall a, acc = Some a -> length (items3 a) = k /\ width3 a = W) ->
  length (items3 cur) = k -> width3 cur = W ->
  exists r, concat_or_init np_concatenate3_axis1 acc cur = Ok r /\
            forall a, r = Some a -> length (items3 a) = k /\ width3 a = W.
Proof.
  intros Hacc Hcur HW. destruct acc as [a|]; simpl.
  - destruct (Hacc a eq_refl) as [Hk Hw]. unfold np_concatenate3_axis1.
    rewrite Hk, Hcur, Hw, HW, !Nat.eqb_refl. result_simpl.
    eexists. split; [done|].
    intros ? [= <-]. simpl. rewrite length_zip_with. lia.
  - eexists. split; [done|]. by intros ? [= <-].
Qed.

Lemma in_int32_bounds (z : Z) :
  -2147483648 <= z < 2147483648 -> in_int32 z = true.
Proof.
  intros [H1 H2]. unfold in_int32. apply andb_true_intro.
  split; [by apply Z.leb_le|by apply Z.ltb_lt].
Qed.

Lemma py_max_of_map {X} (f : X -> Z) (l : list X) (mx : Z) :
  py_max (map f l) = Ok mx -> exists x, x ∈ l /\ mx = f x.
Proof.
  intros [Hin _]%py_max_spec.
  apply list_elem_of_fmap in Hin as (x & -> & Hx). by exists x.
Qed.

Lemma mapM_np_int32_in_range (E : Env) (row : list Z) :
  Forall (fun z => in_int32 z = true) row -> mapM (np_int32 E) row = Ok row.
Proof.
  intros H. rewrite (mapM_result_map _ (fun z => z)).
  - by rewrite map_id.
  - intros z Hz. rewrite Forall_forall in H. by apply np_int32_in_range, H.
Qed.

(** A device whose shard is not empty, holds arrays of one feature width
    and lengths that fit int32 is processed without an exception. *)
Lemma device_step_total (self : Feeder) (batches : list Example)
    (spd m : Z) (acc : DeviceAcc) (i : Z) (Wm Wl : nat) :
  1 <= m ->
  shard batches spd i <> [] ->
  Forall (fun x => cols2 (mel_target x) = Wm) (shard batches spd i) ->
  Forall (fun x => cols2 (linear_target x) = Wl) (shard batches spd i) ->
  Forall (example_fits_int32 m) (shard batches spd i) ->
  acc_fits (length (shard batches spd i)) Wm Wl acc ->
  widths_fit_int32 acc ->
  exists acc', device_step self batches spd m acc i = Ok acc' /\
               acc_fits (length (shard batches spd i)) Wm Wl acc' /\
               widths_fit_int32 acc'.
Proof.
  intros Hm Hne Hmel Hlin Hfit (Fi & Fm & Ft & Fl) Hwidths. unfold device_step.
  set (batch := shard batches spd i) in *.
  rewrite Forall_forall in Hfit.
  assert (forall {X} (f : Example -> X), map f batch <> []) as Hmap.
  { intros X f Hnil. apply Hne. by eapply map_eq_nil. }
  destruct (py_max_total (map len (map input_data batch))) as [wi Hwi];
    [by rewrite map_map; apply Hmap|].
  assert (in_int32 wi = true) as Bi.
  { rewrite map_map in Hwi. apply py_max_of_map in Hwi as (x & Hx & ->).
    destruct (Hfit x Hx) as (_ & ? & _).
    pose proof (len_nonneg (input_data x)). apply in_int32_bounds. lia. }
  rewrite (_prepare_inputs_closed self _ wi Hwi). result_simpl.
  destruct (concat2_fits (length batch) (acc_inputs acc)
              (Array2 (Z.to_nat wi)
                 (map (pad_to wi (_pad self)) (map input_data batch))))
    as (ri & -> & Hri); [done|simpl; by rewrite !length_map|].
  destruct (py_max_total (map (fun t : ndarray2 => shape0 t) (map mel_target batch))) as [mm Hmm];
    [by rewrite map_map; apply Hmap|].
  destruct (_round_up_spec mm m Hm) as (wm & Hwm & _ & Hmw).
  assert (in_int32 wm = true) as Bm.
  { pose proof Hmm as Hmm'. rewrite map_map in Hmm'.
    apply py_max_of_map in Hmm' as (x & Hx & ->).
    destruct (Hfit x Hx) as (_ & _ & ? & _).
    pose proof (len_nonneg (rows2 (mel_target x))). unfold shape0 in *.
    apply in_int32_bounds. lia. }
  rewrite (_prepare_targets_closed self _ m mm wm Wm Hmm Hwm ltac:(lia))
    by (by rewrite Forall_map).
  destruct (concat3_fits (length batch) Wm (acc_mel_targets acc)
              (Array3 (Z.to_nat wm) Wm
                 (map (padded_target self wm) (map mel_target batch))))
    as (rm & -> & Hrm); [done|simpl; by rewrite !length_map|done|].
  destruct (py_max_total (map len (map token_target batch))) as [mt Hmt];
    [by rewrite map_map; apply Hmap|].
  destruct (_round_up_spec (mt + 1) m Hm) as (wt & Hwt & _ & Htw).
  assert (in_int32 wt = true) as Bt.
  { pose proof Hmt as Hmt'. rewrite map_map in Hmt'.
    apply py_max_of_map in Hmt' as (x & Hx & ->).
    destruct (Hfit x Hx) as (_ & _ & _ & ? & _).
    pose proof (len_nonneg (token_target x)).
    apply in_int32_bounds. lia. }
  rewrite (_prepare_token_targets_closed self _ m mt wt Hmt Hwt ltac:(lia)).
  destruct (concat2_fits (length batch) (acc_token_targets acc)
              (Array2 (Z.to_nat wt)
                 (map (pad_to wt (_token_pad self)) (map token_target batch))))
    as (rt & -> & Hrt); [done|simpl; by rewrite !length_map|].
  destruct (py_max_total (map (fun t : ndarray2 => shape0 t) (map linear_target batch))) as [ml Hml];
    [by rewrite map_map; apply Hmap|].
  destruct (_round_up_spec ml m Hm) as (wl & Hwl & _ & Hlw).
  assert (in_int32 wl = true) as Bl.
  { pose proof Hml as Hml'. rewrite map_map in Hml'.
    apply py_max_of_map in Hml' as (x & Hx & ->).
    destruct (Hfit x Hx) as (_ & _ & _ & _ & ?).
    pose proof (len_nonneg (rows2 (linear_target x))). unfold shape0 in *.
    apply in_int32_bounds. lia. }
  rewrite (_prepare_targets_closed self _ m ml wl Wl Hml Hwl ltac:(lia))
    by (by rewrite Forall_map).
  destruct (concat3_fits (length batch) Wl (acc_linear_targets acc)
              (Array3 (Z.to_nat wl) Wl
                 (map (padded_target self wl) (map linear_target batch))))
    as (rl & -> & Hrl); [done|simpl; by rewrite !length_map|done|].
  eexists. split; [reflexivity|]. unfold acc_fits, widths_fit_int32. simpl.
  split; [split; [exact Hri|]; split; [exact Hrm|]; split; [exact Hrt|exact Hrl]|].
  apply Forall_app. split; [exact Hwidths|]. by repeat constructor.
Qed.

Section AssemblerTotal.

Variable E : Env.

(** X19: when batch assembly cannot fail.  Without speaker embeddings to
    stack ([spk_dependent_embedding] is off), with a pad id that fits
    int32 (as the 0 of [__init__] does), for at least one device, an
    [outputs_per_step] of at least 1, a non-empty list of examples whose
    number the device count divides, speaker ids that are integers in the
    int32 range, lengths that fit int32 (the number of frames and of token
    ids of every example, and every length plus [outputs_per_step], so
    that no padded width leaves the range), and mel arrays of one feature
    width and linear arrays of one feature width, [_prepare_batch] returns
    a batch. *)
Theorem prepare_batch_succeeds (batches : list Example) (m : Z) (w : World)
    (Wm Wl : nat) :
  let g := tacotron_num_gpus (_hparams (w_self w)) in
  spk_dependent_embedding (_hparams (w_self w)) = false ->
  in_int32 (_pad (w_self w)) = true ->
  1 <= g -> 1 <= m ->
  batches <> [] ->
  len batches mod g = 0 ->
  Forall (fun x => exists z, py_int E (speaker_id x) = Some z /\
                             in_int32 z = true) batches ->
  Forall (example_fits_int32 m) batches ->
  Forall (fun x => cols2 (mel_target x) = Wm) batches ->
  Forall (fun x => cols2 (linear_target x) = Wl) batches ->
  exists b w', _prepare_batch E batches m w = (Ok b, w').
Proof.
  intros g Hemb _ Hg Hm Hne Hdiv Hspk Hfit Hmel Hlin.
  unfold _prepare_batch, bind at 1, get_self. fold g.
  unfold bind at 1, lift at 1, py_mod.
  destruct (g =? 0) eqn:Hg0; [lia|]. rewrite Hdiv. simpl.
  unfold bind at 1.
  pose proof (np_random_shuffle_Permutation batches (w_random w)) as Hperm.
  unfold shuffle_M. destruct (np_random_shuffle batches (w_random w)) as [sh g'].
  simpl in Hperm. rewrite <- Hperm in Hspk, Hmel, Hlin, Hfit.
  assert (len sh = len batches) as Hlen by (unfold len; by rewrite Hperm).
  set (spd := len batches / g).
  assert (len sh = spd * g) as Hsh.
  { rewrite Hlen. unfold spd. pose proof (Z.div_mod (len batches) g). lia. }
  assert (1 <= spd) as Hspd.
  { assert (0 < len batches) by (unfold len; destruct batches; [done|simpl; lia]).
    assert (0 <= spd) by (apply Z.div_pos; unfold len; lia). nia. }
  pose proof Hfit as Hfit'. rewrite Forall_forall in Hfit'.
  unfold bind at 1, lift at 1.
  rewrite (mapM_result_map _ (fun x => mel_length x)).
  2: { intros x Hx. apply np_int32_in_range. by destruct (Hfit' x Hx). }
  unfold bind at 1, lift at 1.
  rewrite (mapM_result_map _ (fun x => len (input_data x))).
  2: { intros x Hx. apply np_int32_in_range. destruct (Hfit' x Hx) as (_ & ? & _).
       pose proof (len_nonneg (input_data x)). apply in_int32_bounds. lia. }
  unfold bind at 1, lift at 1.
  rewrite (mapM_result_map _ (fun x => default 0 (py_int E (speaker_id x)))).
  2: { intros x Hx. rewrite Forall_forall in Hspk.
       destruct (Hspk x Hx) as (z & Hz & Hin). rewrite Hz. simpl.
       by apply str_to_int32_in_range. }
  unfold bind at 1, lift at 1.
  destruct (foldM_total
              (device_step (w_self w) sh spd m)
              (fun acc => acc_fits (Z.to_nat spd) Wm Wl acc /\
                          widths_fit_int32 acc)
              (py_range g) acc_init)
    as (acc & Hacc & _ & Hwidths).
  - intros a i [Ha Hwa] Hi. unfold py_range in Hi.
    apply list_elem_of_fmap in Hi as (k & -> & Hk%list_elem_of_In%in_seq).
    assert (length (shard sh spd (Z.of_nat k)) = Z.to_nat spd) as Hl
      by (apply (shard_length sh spd g); lia).
    rewrite <- Hl in Ha |- *.
    apply device_step_total; [done| | | | |done|done].
    + intros Hnil. rewrite Hnil in Hl. simpl in Hl. lia.
    + unfold shard, slice. by apply Forall_take, Forall_drop.
    + unfold shard, slice. by apply Forall_take, Forall_drop.
    + unfold shard, slice. by apply Forall_take, Forall_drop.
  - unfold acc_fits, widths_fit_int32, acc_init. simpl.
    split; [by repeat split|constructor].
  - fold spd. rewrite Hacc. unfold bind at 1, lift at 1.
    rewrite (mapM_result_map _ (fun row => row)).
    + unfold ret. eauto.
    + intros row Hrow. apply mapM_np_int32_in_range.
      unfold widths_fit_int32 in Hwidths. rewrite Forall_forall in Hwidths.
      by apply Hwidths.
Qed.

End AssemblerTotal.

Lemma prepare_batch_succeeds_witness :
  exists b w',
    _prepare_batch Sample.env [Sample.short; Sample.long] 2 (Sample.world 2 2)
    = (Ok b, w').
Proof.
  apply (prepare_batch_succeeds Sample.env [Sample.short; Sample.long] 2
           (Sample.world 2 2) 2 2).
  - reflexivity.
  - reflexivity.
  - vm_compute. discriminate.
  - lia.
  - discriminate.
  - vm_compute. reflexivity.
  - repeat constructor; exists 3; by vm_compute.
  - repeat constructor; vm_compute; congruence.
  - by repeat constructor.
  - by repeat constructor.
Defined.

Lemma mapM_result_first_Raise {A B} (f : A -> result B) (l : list A) (e : exn) :
  mapM f l = Raise e ->
  exists (i : nat) x, l !! i = Some x /\ f x = Raise e /\
                      Forall (fun y => is_Ok (f y)) (take i l).
Proof.
  induction l as [|x l IH]; intros H; [discriminate|].
  simpl in H. result_simpl. destruct (f x) as [y|e'] eqn:Hx.
  - destruct (mapM f l) as [k|e'']; [discriminate|]. injection H as ->.
    destruct IH as (i & x' & Hi & Hx' & Hall); [done|].
    exists (S i), x'. split; [done|]. split; [done|].
    simpl. constructor; [rewrite Hx; by eexists|done].
  - injection H as ->. exists 0%nat, x. split; [done|]. split; [done|].
    constructor.
Qed.

Lemma mapM_result_total {A B} (f : A -> result B) (l : list A) :
  Forall (fun x => is_Ok (f x)) l -> is_Ok (mapM f l).
Proof.
  induction 1 as [|x l [y Hy] _ [k Hk]]; simpl; [by eexists|].
  rewrite Hy. result_simpl. rewrite Hk. by eexists.
Qed.

Section Constructor.

Variable E : Env.

Lemma frames_field_run (line : string) :
  let r := (field ← py_getitem (fields_of_line line) 4;
            match py_int E field with
            | Some z => Ok z
            | None => Raise ValueError
            end) in
  (frames_field_ok E line -> is_Ok r) /\
  (forall e, r = Raise e ->
     (e = IndexError /\ (length (fields_of_line line) < 5)%nat) \/
     (e = ValueError /\ exists field,
         fields_of_line line !! 4%nat = Some field /\ py_int E field = None)) /\
  (is_Ok r -> frames_field_ok E line).
Proof.
  intros r. subst r.
  destruct (fields_of_line line !! 4%nat) as [field|] eqn:H4.
  - rewrite (py_getitem_at _ 4 field) by done. result_simpl.
    destruct (py_int E field) as [z|] eqn:Hz.
    + split; [by eexists|]. split; [discriminate|]. intros _. by exists field, z.
    + split; [intros (f' & z & Hf & Hz'); congruence|].
      split; [|by intros [? ?]].
      intros e [= <-]. right. split; [done|]. by exists field.
  - apply lookup_ge_None in H4.
    rewrite (py_getitem_short _ 4) by (simpl; lia). result_simpl.
    split; [intros (f' & z & Hf & _); apply lookup_lt_Some in Hf; lia|].
    split; [|by intros [? ?]].
    intros e [= <-]. left. split; [done|lia].
Qed.

(** Reading field 4 of every line: all of them are integers, or the first
    line without one decides the exception. *)
Lemma read_frames_cases (lines : list string) :
  let r := mapM (fun x => field ← py_getitem x 4;
                          match py_int E field with
                          | Some z => Ok z
                          | None => Raise ValueError
                          end)
                (map (fun line => py_split "|"%char (py_strip line)) lines) in
  (Forall (frames_field_ok E) lines ->
   r = Ok (map (frames_of_line E) lines)) /\
  (is_Ok r -> Forall (frames_field_ok E) lines) /\
  forall e, r = Raise e ->
    exists (i : nat) line,
      lines !! i = Some line /\
      Forall (frames_field_ok E) (take i lines) /\
      ((e = IndexError /\ (length (fields_of_line line) < 5)%nat) \/
       (e = ValueError /\ exists field,
           fields_of_line line !! 4%nat = Some field /\
           py_int E field = None)).
Proof.
  cbv zeta.
  match goal with
  | |- context [mapM ?f0 ?m0] => set (f := f0) in *; set (metadata := m0) in *
  end.
  assert (forall line, f (fields_of_line line)
                       = (field ← py_getitem (fields_of_line line) 4;
                          match py_int E field with
                          | Some z => Ok z
                          | None => Raise ValueError
                          end)) as Hf by done.
  split; [|split].
  - intros Hall. unfold metadata. clear metadata.
    induction Hall as [|line lines (field & z & H4 & Hz) _ IH]; [done|].
    cbn [map mapM].
    change (py_split "|"%char (py_strip line)) with (fields_of_line line).
    rewrite IH, Hf, (py_getitem_at _ 4 field) by done.
    change (frames_of_line E line)
      with (default 0 (fields_of_line line !! 4%nat ≫= py_int E)).
    rewrite H4. result_simpl. by rewrite Hz.
  - intros [x Hx]. apply mapM_result_inv in Hx. unfold metadata in Hx.
    apply Forall2_fmap_l, Forall2_Forall_l with (Q := frames_field_ok E) in Hx;
      [done|].
    apply Forall_true. intros z line Hz. simpl in Hz.
    change (py_split "|"%char (py_strip line)) with (fields_of_line line) in Hz.
    rewrite Hf in Hz. apply (frames_field_run line). by eexists.
  - intros e Hm.
    apply mapM_result_first_Raise in Hm as (i & x & Hi & Hx & Hall).
    unfold metadata in Hi, Hall. rewrite list_lookup_fmap in Hi.
    destruct (lines !! i) as [line|] eqn:Hline; [|discriminate].
    injection Hi as <-. exists i, line. split; [done|]. split.
    + rewrite <- fmap_take, Forall_fmap in Hall.
      eapply Forall_impl; [exact Hall|]. intros l Hok. simpl in Hok.
      change (py_split "|"%char (py_strip l)) with (fields_of_line l) in Hok.
      rewrite Hf in Hok. by apply (frames_field_run l).
    + change (py_split "|"%char (py_strip line)) with (fields_of_line line) in Hx.
      rewrite Hf in Hx. by apply (frames_field_run line).
Qed.

(** X20: what decides the outcome of the constructor, in the order in
    which the code decides it.  (1) With a sample rate of 0,
    [Feeder.__init__] raises ZeroDivisionError whatever the metadata;
    (2) with a quotient [hop_size / sample_rate] too large for a float it
    raises OverflowError whatever the metadata.  Otherwise (3) the first
    line without a field 4 that [int] accepts decides the exception:
    IndexError when it has fewer than 5 fields, ValueError when its field
    4 is no integer; when every line has one, (4) a total number of frames
    too large for a float gives OverflowError, else (5) records of
    different lengths give ValueError where numpy refuses a ragged array,
    and (6) in every remaining case an object is returned. *)
Theorem Feeder_init_outcome (metadata_filename : string) (lines : list string)
    (hparams : HParams) :
  let run := Feeder_init E metadata_filename lines hparams in
  let total := total_frames E lines in
  let ragged := negb (same_lengths (map fields_of_line lines)) in
  (sample_rate hparams = 0 -> run = Raise ZeroDivisionError) /\
  (sample_rate hparams <> 0 ->
   float_limit * Z.abs (sample_rate hparams) <= Z.abs (hop_size hparams) ->
   run = Raise OverflowError) /\
  (sample_rate hparams <> 0 ->
   Z.abs (hop_size hparams) < float_limit * Z.abs (sample_rate hparams) ->
   (~ Forall (frames_field_ok E) lines ->
    exists e (i : nat) line,
      run = Raise e /\
      lines !! i = Some line /\
      Forall (frames_field_ok E) (take i lines) /\
      ((e = IndexError /\ (length (fields_of_line line) < 5)%nat) \/
       (e = ValueError /\ exists field,
           fields_of_line line !! 4%nat = Some field /\
           py_int E field = None))) /\
   (Forall (frames_field_ok E) lines ->
    (float_limit <= Z.abs total -> run = Raise OverflowError) /\
    (Z.abs total < float_limit ->
     (ragged = true -> np_ragged E = false -> run = Raise ValueError) /\
     (ragged = false \/ np_ragged E = true ->
      exists self,
        run = Ok (self, (len lines, total)) /\
        _train_meta self = map fields_of_line lines)))).
Proof.
  intros run total ragged. subst run.
  pose proof (read_frames_cases lines) as (Hok & Hall & Hraise).
  unfold Feeder_init. cbv zeta in *.
  match goal with
  | |- context [mapM ?f0 ?m0] => set (f := f0) in *; set (metadata := m0) in *
  end.
  unfold py_truediv_check.
  split; [|split].
  - intros ->. done.
  - intros Hrate Hbig. destruct (sample_rate hparams =? 0) eqn:H0; [lia|].
    destruct (_ <? _) eqn:Hlt; [lia|done].
  - intros Hrate Hsmall. destruct (sample_rate hparams =? 0) eqn:H0; [lia|].
    destruct (_ <? _) eqn:Hlt; [|lia]. split.
    + intros Hnot. destruct (mapM f metadata) as [frames|e] eqn:Hm.
      * exfalso. apply Hnot, Hall. by eexists.
      * destruct (Hraise e eq_refl) as (i & line & Hi & Htake & Hcase).
        exists e, i, line. by repeat split.
    + intros Hlines. rewrite (Hok Hlines).
      cbv beta iota delta [mbind result_bind].
      change (foldr Z.add 0 (map (frames_of_line E) lines)) with total.
      unfold py_float_check. split.
      * intros Hbig. assert ((Z.abs total <? float_limit) = false) as ->
          by (apply Z.ltb_ge; lia). done.
      * intros Hfits. assert ((Z.abs total <? float_limit) = true) as ->
          by (apply Z.ltb_lt; lia).
        unfold np_array_records, ragged.
        change (map fields_of_line lines) with metadata.
        assert (len metadata = len lines) as Hlen
          by (unfold len, metadata; by rewrite length_map).
        split.
        -- intros Hr ->. apply negb_true_iff in Hr. by rewrite Hr.
        -- intros Hr.
           assert (same_lengths metadata || np_ragged E = true) as ->.
           { destruct Hr as [Hr| ->]; [|apply orb_true_r].
             apply negb_false_iff in Hr. by rewrite Hr. }
           eexists. rewrite <- Hlen. split; reflexivity.
Qed.

End Constructor.

(** The constructor on four small files: a sample rate of 0; a line with
    two fields; a field 4 that is no integer; records of 5 and of 6 fields
    (with a numpy that refuses ragged arrays). *)
Example constructor_outcomes :
  Feeder_init Sample.env Sample.metadata_filename Sample.lines
    {| cleaners := "english_cleaners"; embedding_path := "emb";
       tacotron_batch_size := 1; outputs_per_step := 4;
       tacotron_num_gpus := 1; symmetric_mels := true;
       max_abs_value := 4%float; spk_dependent_embedding := false;
       predict_linear := true; num_freq := 2;
       hop_size := 275; sample_rate := 0 |}
  = Raise ZeroDivisionError /\
  fst <$> Feeder_init Sample.env Sample.metadata_filename ["a|b"]
            (Sample.hparams 1 1)
  = Raise IndexError /\
  fst <$> Feeder_init Sample.env Sample.metadata_filename ["a|b|c|d|five"]
            (Sample.hparams 1 1)
  = Raise ValueError /\
  fst <$> Feeder_init Sample.env Sample.metadata_filename
            ["a|b|c|d|5"; "a|b|c|d|5|e"] (Sample.hparams 1 1)
  = Raise ValueError /\
  snd <$> Feeder_init Sample.env Sample.metadata_filename
            ["a|b|c|d|5"; "a|b|c|d|7"] (Sample.hparams 1 1)
  = Ok (2, 12).
Proof. repeat split. Qed.
